(** * Universal Download Manager: request normalisation and task reconciliation

    A shallow embedding of the Python sources under [backend/] (models,
    validators, formatters, the aria2 gateway and the download facade),
    followed by the properties of the specification that they decide.

    Conventions of the embedding.
    - A Python [str] is a [string]; its characters are the code points below
      256, and [isspace], [lower], [\d], [\S] follow Unicode on that range.
    - A Python [int] is a [Z].  A Python [float] is the rational it denotes
      (every finite binary64 value is one); arithmetic on floats rounds to
      the binary64 grid, see [PyFloat].
    - A call that may raise returns an [option]: [None] is the exception.
    - Methods that talk to the engine thread a [World] explicitly. *)

From Stdlib Require Import ZArith QArith Qround Qabs List String Ascii Bool Lia Arith.
From Stdlib Require Import Decimal DecimalString.
Import ListNotations.

Local Open Scope string_scope.

(* ================================================================== *)
(** ** Python strings *)

Module PyStr.

Definition is_empty (s : string) : bool :=
  match s with EmptyString => true | String _ _ => false end.

Definition code (c : ascii) : N := N_of_ascii c.

Definition in_range (lo hi : N) (c : ascii) : bool :=
  (N.leb lo (code c) && N.leb (code c) hi)%bool.

(** [str.isspace] on one character: 0x09-0x0D, 0x1C-0x20, 0x85, 0xA0. *)
Definition isspace (c : ascii) : bool :=
  (in_range 9 13 c || in_range 28 32 c
   || N.eqb (code c) 133 || N.eqb (code c) 160)%bool.

Definition isdigit (c : ascii) : bool := in_range 48 57 c.

Definition isupper_ascii (c : ascii) : bool := in_range 65 90 c.
Definition islower_ascii (c : ascii) : bool := in_range 97 122 c.

(** Characters whose lower-case form is 32 code points higher: A-Z and the
    Latin-1 capitals (0xC0-0xDE except the multiplication sign 0xD7). *)
Definition has_lower (c : ascii) : bool :=
  (isupper_ascii c || in_range 192 214 c || in_range 216 222 c)%bool.

Definition lower_char (c : ascii) : ascii :=
  if has_lower c then ascii_of_N (code c + 32) else c.

Fixpoint lower (s : string) : string :=
  match s with
  | EmptyString => EmptyString
  | String c r => String (lower_char c) (lower r)
  end.

(** [s.startswith(p)] *)
Definition startswith (s p : string) : bool := prefix p s.

Fixpoint rev_onto (s acc : string) : string :=
  match s with
  | EmptyString => acc
  | String c r => rev_onto r (String c acc)
  end.

Definition rev (s : string) : string := rev_onto s EmptyString.

(** [s.endswith(p)] *)
Definition endswith (s p : string) : bool := prefix (rev p) (rev s).

(** [sub in s] *)
Fixpoint contains (sub s : string) : bool :=
  (prefix sub s ||
   match s with
   | EmptyString => false
   | String _ r => contains sub r
   end)%bool.

Fixpoint lstrip (s : string) : string :=
  match s with
  | EmptyString => EmptyString
  | String c r => if isspace c then lstrip r else s
  end.

Definition rstrip (s : string) : string := rev (lstrip (rev s)).

(** [s.strip()] *)
Definition strip (s : string) : string := rstrip (lstrip s).

(** [s.split(sep)] for a one-character separator; the result is never
    empty.  [cur] is the segment under construction, reversed. *)
Fixpoint split_aux (sep : ascii) (s cur : string) : list string :=
  match s with
  | EmptyString => [rev cur]
  | String c r =>
      if Ascii.eqb c sep then rev cur :: split_aux sep r EmptyString
      else split_aux sep r (String c cur)
  end.

Definition split (sep : ascii) (s : string) : list string :=
  split_aux sep s EmptyString.

(** [s.split(sep)[-1]] *)
Definition last_segment (sep : ascii) (s : string) : string :=
  List.last (split sep s) EmptyString.

(** Equality of characters up to ASCII case. *)
Definition eqb_ci (a b : ascii) : bool :=
  Ascii.eqb (lower_char a) (lower_char b).

(** [p] is a prefix of [s] when case is ignored. *)
Fixpoint prefix_ci (p s : string) : bool :=
  match p, s with
  | EmptyString, _ => true
  | String a p', String b s' => (eqb_ci a b && prefix_ci p' s')%bool
  | String _ _, EmptyString => false
  end.

(** [s] ends with [p] when case is ignored. *)
Definition suffix_ci (p s : string) : bool := prefix_ci (rev p) (rev s).

End PyStr.

(* ================================================================== *)
(** ** Regular expressions ([re.compile(...).match]) *)

Module Re.

Inductive regex : Type :=
| Empty                          (* matches nothing *)
| Eps                            (* matches the empty string *)
| Chr (p : ascii -> bool)        (* one character of a class *)
| Cat (r1 r2 : regex)
| Alt (r1 r2 : regex)
| Star (r : regex).

Definition Opt (r : regex) : regex := Alt Eps r.
Definition Plus (r : regex) : regex := Cat r (Star r).

(** [r{0,n}] *)
Fixpoint UpTo (n : nat) (r : regex) : regex :=
  match n with
  | O => Eps
  | S k => Opt (Cat r (UpTo k r))
  end.

(** [r{n,n+m}] *)
Fixpoint Rep (n m : nat) (r : regex) : regex :=
  match n with
  | O => UpTo m r
  | S k => Cat r (Rep k m r)
  end.

(** A literal character under [re.IGNORECASE]. *)
Definition Lit (c : ascii) : regex := Chr (PyStr.eqb_ci c).

Fixpoint Word (s : string) : regex :=
  match s with
  | EmptyString => Eps
  | String c r => Cat (Lit c) (Word r)
  end.

Fixpoint nullable (r : regex) : bool :=
  match r with
  | Empty => false
  | Eps => true
  | Chr _ => false
  | Cat a b => (nullable a && nullable b)%bool
  | Alt a b => (nullable a || nullable b)%bool
  | Star _ => true
  end.

Definition cat (a b : regex) : regex :=
  match a, b with
  | Empty, _ => Empty
  | _, Empty => Empty
  | Eps, _ => b
  | _, Eps => a
  | _, _ => Cat a b
  end.

Definition alt (a b : regex) : regex :=
  match a, b with
  | Empty, _ => b
  | _, Empty => a
  | _, _ => Alt a b
  end.

(** Brzozowski derivative of [r] by the character [c]. *)
Fixpoint deriv (c : ascii) (r : regex) : regex :=
  match r with
  | Empty => Empty
  | Eps => Empty
  | Chr p => if p c then Eps else Empty
  | Cat a b =>
      if nullable a then alt (cat (deriv c a) b) (deriv c b)
      else cat (deriv c a) b
  | Alt a b => alt (deriv c a) (deriv c b)
  | Star a => cat (deriv c a) (Star a)
  end.

(** [r] matches the whole of [s]. *)
Fixpoint fullmatch (r : regex) (s : string) : bool :=
  match s with
  | EmptyString => nullable r
  | String c t => fullmatch (deriv c r) t
  end.

Definition newline : ascii := ascii_of_N 10.

(** [re.compile('^' r '$').match(s)] is not [None]: [$] holds at the end of
    the string and also just before a final newline. *)
Definition match_anchored (r : regex) (s : string) : bool :=
  (fullmatch r s || fullmatch (Cat r (Chr (Ascii.eqb newline))) s)%bool.

End Re.

(* ================================================================== *)
(** ** Python floats (IEEE 754 binary64, round to nearest, ties to even) *)

Module PyFloat.

Local Open Scope Z_scope.

(** [2^k <= n/d] *)
Definition pow2_le (k : Z) (n d : positive) : bool :=
  if 0 <=? k then 2 ^ k * Zpos d <=? Zpos n
  else Zpos d <=? Zpos n * 2 ^ (- k).

(** The integer part of the binary logarithm of [n/d]. *)
Definition ilog2 (n d : positive) : Z :=
  let k := Z.log2 (Zpos n) - Z.log2 (Zpos d) in
  if pow2_le k n d then k else k - 1.

(** The integer nearest to [a/b] for [0 < b], ties going to the even one. *)
Definition round_half_even (a b : Z) : Z :=
  let q := a / b in
  match 2 * (a mod b) ?= b with
  | Lt => q
  | Gt => q + 1
  | Eq => if Z.even q then q else q + 1
  end.

(** Exponent of the unit in the last place of [n/d]: 53 significant bits,
    and the fixed spacing [2^-1074] of the subnormal range. *)
Definition ulp_exp (n d : positive) : Z :=
  Z.max (ilog2 n d - 52) (- 1074).

(** [n/d] counted in units of [2^e], rounded to an integer. *)
Definition significand (n d : positive) (e : Z) : Z :=
  if 0 <=? e then round_half_even (Zpos n) (Zpos d * 2 ^ e)
  else round_half_even (Zpos n * 2 ^ (- e)) (Zpos d).

(** [m * 2^e] as a fraction in lowest terms. *)
Definition ldexp (m e : Z) : Q :=
  if 0 <=? e then inject_Z (m * 2 ^ e)
  else Qred (m # Z.to_pos (2 ^ (- e))).

Definition rnd_pos (n d : positive) : Q :=
  let e := ulp_exp n d in ldexp (significand n d e) e.

(** The binary64 value nearest to [x], the exponent not being bounded
    above; [overflows] tells when the result leaves the finite range. *)
Definition rnd (x : Q) : Q :=
  match Qnum x with
  | 0 => 0%Q
  | Zpos n => rnd_pos n (Qden x)
  | Zneg n => Qopp (rnd_pos n (Qden x))
  end.

Definition overflows (x : Q) : bool :=
  Qle_bool (inject_Z (2 ^ 1024)) (Qabs x).

Definition Qlt_bool (x y : Q) : bool := negb (Qle_bool y x).

(** A float: a finite value or an infinity.  No operation below yields a
    NaN. *)
Inductive pyfloat : Type :=
| Fin (q : Q)
| Inf (negative : bool).

(** [a / b] on two ints: the correctly rounded quotient; [None] is
    [ZeroDivisionError] or [OverflowError]. *)
Definition int_true_div (a b : Z) : option Q :=
  match b with
  | 0 => None
  | Zpos d => let r := rnd (a # d) in if overflows r then None else Some r
  | Zneg d => let r := rnd ((- a) # d) in if overflows r then None else Some r
  end.

(** [x * y] on two finite floats. *)
Definition fmul (x y : Q) : pyfloat :=
  let r := rnd (x * y) in
  if overflows r then Inf (Qlt_bool r 0) else Fin r.

(** [x / y] on finite floats where [1 <= |y|]: the quotient is no larger
    than [x], so it is finite. *)
Definition fdiv (x y : Q) : Q := rnd (x / y).

(** [int(x)]: truncation towards zero. *)
Definition trunc (x : Q) : Z :=
  if 0 <=? Qnum x then Qfloor x else Qceiling x.

(** C's [fmod]: exact, with the sign of [x]. *)
Definition fmod (x y : Q) : Q :=
  Qred (x - y * inject_Z (trunc (x / y))).

(** [x % y] on finite floats, [y] not zero: the result has the sign of
    [y]. *)
Definition float_mod (x y : Q) : Q :=
  let m := fmod x y in
  if Qeq_bool m 0 then 0%Q
  else if Bool.eqb (Qlt_bool y 0) (Qlt_bool m 0) then m
  else rnd (m + y).

(** [round(x, 1)]: the float nearest to the one-decimal number nearest to
    [x] (ties to even); infinities round to themselves. *)
Definition round1 (x : pyfloat) : pyfloat :=
  match x with
  | Fin q => Fin (rnd (round_half_even (Qnum q * 10) (QDen q) # 10))
  | Inf s => Inf s
  end.

(** Exact ordering of floats, as [<=] computes it. *)
Definition le (x y : pyfloat) : Prop :=
  match x, y with
  | Fin a, Fin b => (a <= b)%Q
  | Inf true, _ => True
  | _, Inf false => True
  | _, _ => False
  end.

Definition leb (x y : pyfloat) : bool :=
  match x, y with
  | Fin a, Fin b => Qle_bool a b
  | Inf true, _ => true
  | _, Inf false => true
  | _, _ => false
  end.

End PyFloat.


(* ================================================================== *)
(** ** Exceptions as [option], and Python conversions *)

Module Py.

Definition bind {A B : Type} (x : option A) (k : A -> option B) : option B :=
  match x with
  | Some a => k a
  | None => None
  end.

(** [dict.get(key, default)] on a key that may be absent. *)
Definition get {A : Type} (field : option A) (default : A) : A :=
  match field with
  | Some v => v
  | None => default
  end.

(** A JSON scalar read by [int(...)]. *)
Inductive jval : Type :=
| JStr (s : string)
| JInt (z : Z).

Definition digit_value (c : ascii) : Z := Z.of_N (PyStr.code c) - 48.

(** The digits of an integer literal: single underscores are allowed
    between digits.  [after_digit] tells that the previous character was a
    digit. *)
Fixpoint parse_digits (s : string) (acc : Z) (after_digit : bool) : option Z :=
  match s with
  | EmptyString => if after_digit then Some acc else None
  | String c r =>
      if PyStr.isdigit c then parse_digits r (acc * 10 + digit_value c) true
      else if (Ascii.eqb c "_" && after_digit)%bool then parse_digits r acc false
      else None
  end.

(** The white space [int] skips around a literal: the ASCII blanks
    0x09-0x0D and 0x20, and 0x85 and 0xA0, the two other white-space code
    points below 256.  The separators 0x1C-0x1F, which [str.strip]
    removes, are not skipped. *)
Definition int_space (c : ascii) : bool :=
  (PyStr.in_range 9 13 c || N.eqb (PyStr.code c) 32
   || N.eqb (PyStr.code c) 133 || N.eqb (PyStr.code c) 160)%bool.

Fixpoint int_lstrip (s : string) : string :=
  match s with
  | EmptyString => EmptyString
  | String c r => if int_space c then int_lstrip r else s
  end.

Definition int_strip (s : string) : string :=
  PyStr.rev (int_lstrip (PyStr.rev (int_lstrip s))).

(** The number of decimal digits of a literal. *)
Fixpoint count_digits (s : string) : Z :=
  match s with
  | EmptyString => 0
  | String c r => (if PyStr.isdigit c then 1 else 0) + count_digits r
  end.

(** [sys.int_info.default_max_str_digits] *)
Definition max_str_digits : Z := 4300.

(** [int(s)] for a string: surrounding white space, an optional sign,
    decimal digits, at most [max_str_digits] of them; [None] is
    [ValueError]. *)
Definition int_of_str (s : string) : option Z :=
  let literal := int_strip s in
  if (max_str_digits <? count_digits literal)%Z then None
  else
    match literal with
    | String "+" r => parse_digits r 0 false
    | String "-" r => option_map Z.opp (parse_digits r 0 false)
    | t => parse_digits t 0 false
    end.

(** [int(v)] *)
Definition int (v : jval) : option Z :=
  match v with
  | JInt z => Some z
  | JStr s => int_of_str s
  end.

(** A call that may raise an exception whose message is used. *)
Inductive result (A : Type) : Type :=
| Ok (a : A)
| Raise (message : string).

Arguments Ok {A} _.
Arguments Raise {A} _.

Definition rbind {A B : Type} (x : result A) (k : A -> result B) : result B :=
  match x with
  | Ok a => k a
  | Raise m => Raise m
  end.

(** [str(z)] and [f"{z}"] for an int. *)
Definition str_of_int (z : Z) : string :=
  DecimalString.NilZero.string_of_int (Z.to_int z).

End Py.

Notation "x <- e ;; k" := (Py.bind e (fun x => k))
  (at level 61, e at next level, right associativity).
Notation "x <~ e ;; k" := (Py.rbind e (fun x => k))
  (at level 61, e at next level, right associativity).

(* ================================================================== *)
(** ** config/settings.py *)

Module Config.

(** [Config.FILE_CATEGORIES], in the order of the dictionary. *)
Definition FILE_CATEGORIES : list (string * list string) :=
  [ ("video",    [".mp4"; ".avi"; ".mkv"; ".mov"; ".wmv"; ".flv"; ".webm"; ".m4v"]);
    ("audio",    [".mp3"; ".wav"; ".flac"; ".aac"; ".ogg"; ".wma"; ".m4a"]);
    ("image",    [".jpg"; ".jpeg"; ".png"; ".gif"; ".bmp"; ".svg"; ".webp"]);
    ("document", [".pdf"; ".doc"; ".docx"; ".txt"; ".rtf"; ".odt"]);
    ("archive",  [".zip"; ".rar"; ".7z"; ".tar"; ".gz"; ".bz2"]);
    ("software", [".exe"; ".msi"; ".deb"; ".rpm"; ".dmg"; ".pkg"]) ].

End Config.

(* ================================================================== *)
(** ** models/download.py *)

Inductive DownloadType : Type :=
| MAGNET | HTTP | HTTPS | FTP | FTPS | TORRENT.

Inductive DownloadStatus : Type :=
| WAITING | ACTIVE | PAUSED | COMPLETE | ERROR | REMOVED.

Definition DownloadType_eqb (a b : DownloadType) : bool :=
  match a, b with
  | MAGNET, MAGNET | HTTP, HTTP | HTTPS, HTTPS
  | FTP, FTP | FTPS, FTPS | TORRENT, TORRENT => true
  | _, _ => false
  end.

(** [DownloadType.value] *)
Definition DownloadType_value (t : DownloadType) : string :=
  match t with
  | MAGNET => "magnet" | HTTP => "http" | HTTPS => "https"
  | FTP => "ftp" | FTPS => "ftps" | TORRENT => "torrent"
  end.

(** [DownloadStatus(s)]: [None] is [ValueError]. *)
Definition DownloadStatus_of_value (s : string) : option DownloadStatus :=
  if s =? "waiting" then Some WAITING
  else if s =? "active" then Some ACTIVE
  else if s =? "paused" then Some PAUSED
  else if s =? "complete" then Some COMPLETE
  else if s =? "error" then Some ERROR
  else if s =? "removed" then Some REMOVED
  else None.

(** A JSON object of the engine, read through the keys the code asks for:
    the status record of one task, or the global statistics (the last
    three keys, with the two speeds); a field is [None] when its key is
    absent. *)
Record UriEntry : Type := { uri : option string }.

Record FileEntry : Type := {
  uris : option (list UriEntry);
  path : option string
}.

Record Aria2Data : Type := {
  gid : option string;
  files : option (list FileEntry);
  totalLength : option Py.jval;
  completedLength : option Py.jval;
  downloadSpeed : option Py.jval;
  uploadSpeed : option Py.jval;
  status : option string;
  connections : option Py.jval;
  numSeeders : option Py.jval;
  numLeechers : option Py.jval;
  numActive : option Py.jval;
  numWaiting : option Py.jval;
  numStopped : option Py.jval
}.

(** [DownloadTask]; the three timestamps ([created_at] is the clock at
    construction, the other two stay [None]) are left out. *)
Record DownloadTask : Type := {
  task_gid : string;
  task_url : string;
  task_download_type : DownloadType;
  task_status : DownloadStatus;
  task_file_name : string;
  task_file_path : string;
  task_total_length : Z;
  task_completed_length : Z;
  task_download_speed : Z;
  task_upload_speed : Z;
  task_progress : PyFloat.pyfloat;
  task_eta : string;
  task_connections : Z;
  task_num_seeders : Z;
  task_num_leechers : Z;
  task_error_message : string;
  task_retry_count : Z;
  task_priority : Z;
  task_category : string
}.

Module DownloadTaskM.

(** [DownloadTask.detect_download_type] *)
Definition detect_download_type (url : string) : DownloadType :=
  if PyStr.is_empty url then HTTP
  else
    let url_lower := PyStr.lower url in
    if PyStr.startswith url_lower "magnet:" then MAGNET
    else if PyStr.startswith url_lower "https:" then HTTPS
    else if PyStr.startswith url_lower "http:" then HTTP
    else if PyStr.startswith url_lower "ftps:" then FTPS
    else if PyStr.startswith url_lower "ftp:" then FTP
    else if PyStr.endswith url_lower ".torrent" then TORRENT
    else HTTP.

(** [DownloadTask.calculate_eta]; [None] is the [OverflowError] of the
    division. *)
Definition calculate_eta (total_length completed_length download_speed : Z)
  : option string :=
  if ((download_speed <=? 0) || (total_length <=? completed_length))%Z%bool
  then Some "unknown"
  else
    let remaining_bytes := (total_length - completed_length)%Z in
    remaining_seconds <- PyFloat.int_true_div remaining_bytes download_speed ;;
    if PyFloat.Qlt_bool remaining_seconds 60 then
      Some (Py.str_of_int (PyFloat.trunc remaining_seconds) ++ "s")
    else if PyFloat.Qlt_bool remaining_seconds 3600 then
      let minutes := PyFloat.trunc (PyFloat.fdiv remaining_seconds 60) in
      Some (Py.str_of_int minutes ++ "m")
    else
      let hours := PyFloat.trunc (PyFloat.fdiv remaining_seconds 3600) in
      let minutes :=
        PyFloat.trunc
          (PyFloat.fdiv (PyFloat.float_mod remaining_seconds 3600) 60) in
      Some (Py.str_of_int hours ++ "h " ++ Py.str_of_int minutes ++ "m").

Definition str_in (s : string) (l : list string) : bool :=
  existsb (String.eqb s) l.

Fixpoint first_category (ext : string) (table : list (string * list string))
  : string :=
  match table with
  | [] => "other"
  | (category, extensions) :: rest =>
      if str_in ext extensions then category else first_category ext rest
  end.

(** [DownloadTask.get_file_category] *)
Definition get_file_category (file_name : string) : string :=
  if PyStr.is_empty file_name then "other"
  else
    let file_ext :=
      if PyStr.contains "." file_name
      then "." ++ PyStr.lower (PyStr.last_segment "." file_name)
      else "" in
    first_category file_ext Config.FILE_CATEGORIES.

(** The progress computed inside [from_aria2_response], before rounding;
    [None] is the [OverflowError] of the division. *)
Definition raw_progress (total_length completed_length : Z)
  : option PyFloat.pyfloat :=
  if (0 <? total_length)%Z then
    q <- PyFloat.int_true_div completed_length total_length ;;
    Some (PyFloat.fmul q 100)
  else Some (PyFloat.Fin 0).

(** [aria2_data.get(key, 0)] passed to [int]. *)
Definition int_field (field : option Py.jval) : option Z :=
  Py.int (Py.get field (Py.JInt 0)).

(** [DownloadTask.from_aria2_response]; [None] is any exception raised on
    the way ([IndexError] on an empty [files] list, [ValueError] from
    [int], [OverflowError] from a division). *)
Definition from_aria2_response (aria2_data : Aria2Data) : option DownloadTask :=
  let gid := Py.get (gid aria2_data) "" in
  first_file <- hd_error (Py.get (files aria2_data) [ {| uris := None; path := None |} ]) ;;
  let uris := Py.get (uris first_file) [] in
  let url := match uris with
             | [] => ""
             | u :: _ => Py.get (uri u) ""
             end in
  let download_type := detect_download_type url in
  let files := Py.get (files aria2_data) [] in
  let file_path := match files with
                   | [] => ""
                   | f :: _ => Py.get (path f) ""
                   end in
  let file_name := match files with
                   | [] => ""
                   | _ :: _ =>
                       if PyStr.is_empty file_path then ""
                       else PyStr.last_segment "/" file_path
                   end in
  total_length <- int_field (totalLength aria2_data) ;;
  completed_length <- int_field (completedLength aria2_data) ;;
  download_speed <- int_field (downloadSpeed aria2_data) ;;
  upload_speed <- int_field (uploadSpeed aria2_data) ;;
  progress <- raw_progress total_length completed_length ;;
  let status_str := Py.get (status aria2_data) "waiting" in
  let status := match DownloadStatus_of_value status_str with
                | Some s => s
                | None => WAITING
                end in
  eta <- calculate_eta total_length completed_length download_speed ;;
  let category := get_file_category file_name in
  connections <- int_field (connections aria2_data) ;;
  num_seeders <- int_field (numSeeders aria2_data) ;;
  num_leechers <- int_field (numLeechers aria2_data) ;;
  Some {| task_gid := gid;
          task_url := url;
          task_download_type := download_type;
          task_status := status;
          task_file_name := file_name;
          task_file_path := file_path;
          task_total_length := total_length;
          task_completed_length := completed_length;
          task_download_speed := download_speed;
          task_upload_speed := upload_speed;
          task_progress := PyFloat.round1 progress;
          task_eta := eta;
          task_connections := connections;
          task_num_seeders := num_seeders;
          task_num_leechers := num_leechers;
          task_error_message := "";
          task_retry_count := 0;
          task_priority := 0;
          task_category := category |}.

End DownloadTaskM.

(** [UrlInfo] *)
Record UrlInfo : Type := {
  info_url : string;
  info_download_type : DownloadType;
  info_is_valid : bool;
  info_error_message : string;
  info_file_name : string;
  info_estimated_size : Z
}.

Module UrlPatterns.
Import Re.

Definition alpha (c : ascii) : bool :=
  (PyStr.isupper_ascii c || PyStr.islower_ascii c)%bool.

(** [[A-Z0-9]] under [re.IGNORECASE] *)
Definition alnum (c : ascii) : bool := (alpha c || PyStr.isdigit c)%bool.

(** [[A-Z0-9-]] *)
Definition alnum_dash (c : ascii) : bool := (alnum c || Ascii.eqb c "-")%bool.

(** [\S] *)
Definition nonspace (c : ascii) : bool := negb (PyStr.isspace c).

(** [.] without [re.DOTALL] *)
Definition dot (c : ascii) : bool := negb (Ascii.eqb c newline).

Definition slash_or_query (c : ascii) : bool :=
  (Ascii.eqb c "/" || Ascii.eqb c "?")%bool.

(** [(?:[A-Z0-9](?:[A-Z0-9-]{0,61}[A-Z0-9])?\.)] *)
Definition label : regex :=
  Cat (Chr alnum)
    (Cat (Opt (Cat (Rep 0 61 (Chr alnum_dash)) (Chr alnum))) (Lit ".")).

(** [(?:label)+[A-Z]{2,6}\.?] *)
Definition domain : regex :=
  Cat (Plus label) (Cat (Rep 2 4 (Chr alpha)) (Opt (Lit "."))).

(** [\d{1,3}] *)
Definition octet : regex := Rep 1 2 (Chr PyStr.isdigit).

(** [\d{1,3}\.\d{1,3}\.\d{1,3}\.\d{1,3}] *)
Definition ip : regex :=
  Cat octet (Cat (Lit ".") (Cat octet (Cat (Lit ".")
    (Cat octet (Cat (Lit ".") octet))))).

Definition host : regex := Alt domain (Alt (Word "localhost") ip).

(** [(?::\d+)?] *)
Definition port : regex := Opt (Cat (Lit ":") (Plus (Chr PyStr.isdigit))).

(** The pattern of [validate_url] for HTTP and HTTPS, between [^] and [$]:
    [https?://] host port [(?:/?|[/?]\S+)]. *)
Definition url_pattern : regex :=
  Cat (Word "http") (Cat (Opt (Lit "s")) (Cat (Word "://")
    (Cat host (Cat port
      (Alt (Opt (Lit "/")) (Cat (Chr slash_or_query) (Plus (Chr nonspace)))))))).

(** The pattern for FTP and FTPS: [ftps?://] host port, then optionally a
    slash followed by any characters other than a newline. *)
Definition ftp_pattern : regex :=
  Cat (Word "ftp") (Cat (Opt (Lit "s")) (Cat (Word "://")
    (Cat host (Cat port
      (Opt (Cat (Lit "/") (Star (Chr dot)))))))).

End UrlPatterns.

Module UrlInfoM.

(** [UrlInfo.validate_url] *)
Definition validate_url (url : string) (download_type : DownloadType)
  : bool * string :=
  if PyStr.is_empty url then (false, "URL cannot be empty")
  else
    match download_type with
    | MAGNET =>
        if negb (PyStr.startswith url "magnet:")
        then (false, "Invalid magnet link format")
        else if negb (PyStr.contains "xt=" url)
        then (false, "Magnet link missing hash information")
        else (true, "")
    | HTTP | HTTPS =>
        if negb (Re.match_anchored UrlPatterns.url_pattern url)
        then (false, "Invalid HTTP/HTTPS URL format")
        else (true, "")
    | FTP | FTPS =>
        if negb (Re.match_anchored UrlPatterns.ftp_pattern url)
        then (false, "Invalid FTP/FTPS URL format")
        else (true, "")
    | TORRENT => (true, "")
    end.

Section WithUrlparse.

(** [urllib.parse.urlparse(url).path]; [Raise] is the [ValueError] the
    library raises on some inputs. *)
Variable urlparse_path : string -> Py.result string.

(** [UrlInfo.from_url]; it raises when [urlparse] does. *)
Definition from_url (url : string) : Py.result UrlInfo :=
  let url := PyStr.strip url in
  let download_type := DownloadTaskM.detect_download_type url in
  let '(is_valid, error_message) := validate_url url download_type in
  file_name <~
    match download_type with
    | HTTP | HTTPS | FTP | FTPS =>
        parsed_path <~ urlparse_path url ;;
        Py.Ok (if PyStr.is_empty parsed_path then ""
               else PyStr.last_segment "/" parsed_path)
    | MAGNET | TORRENT => Py.Ok ""
    end ;;
  Py.Ok {| info_url := url;
          info_download_type := download_type;
          info_is_valid := is_valid;
          info_error_message := error_message;
          info_file_name := file_name;
          info_estimated_size := 0 |}.

End WithUrlparse.

End UrlInfoM.

(* ================================================================== *)
(** ** utils/validators.py *)

Module UrlValidator.

(** The loop over [required_params]: the first parameter [p] for which
    [p=] does not occur in the link. *)
Fixpoint first_missing_param (required_params : list string) (url : string)
  : option string :=
  match required_params with
  | [] => None
  | param :: rest =>
      if negb (PyStr.contains (param ++ "=") url) then Some param
      else first_missing_param rest url
  end.

(** [UrlValidator.validate_magnet] *)
Definition validate_magnet (url : string) : bool * string :=
  if negb (PyStr.startswith url "magnet:")
  then (false, "Invalid magnet link format")
  else if negb (PyStr.contains "xt=" url)
  then (false, "Magnet link missing hash information")
  else
    match first_missing_param ["xt"] url with
    | Some param =>
        (false, "Magnet link missing required parameter: " ++ param)
    | None => (true, "")
    end.

Section WithUrlparse.

Variable urlparse_path : string -> Py.result string.

(** [UrlValidator.validate_url_list]; it raises when [UrlInfo.from_url]
    raises on one of the entries. *)
Fixpoint validate_url_list (urls : list string) : Py.result (list UrlInfo) :=
  match urls with
  | [] => Py.Ok []
  | url :: rest =>
      let url := PyStr.strip url in
      if PyStr.is_empty url then validate_url_list rest
      else
        url_info <~ UrlInfoM.from_url urlparse_path url ;;
        results <~ validate_url_list rest ;;
        Py.Ok (url_info :: results)
  end.

End WithUrlparse.

End UrlValidator.

(* ================================================================== *)
(** ** utils/formatters.py *)

Module TimeFormatter.

(** [TimeFormatter.format_duration] on a float. *)
Definition format_duration (seconds : Q) : string :=
  if Qle_bool seconds 0 then "0s"
  else
    let seconds := PyFloat.trunc seconds in
    if (seconds <? 60)%Z then Py.str_of_int seconds ++ "s"
    else if (seconds <? 3600)%Z then
      let minutes := (seconds / 60)%Z in
      let remaining_seconds := (seconds mod 60)%Z in
      if (0 <? remaining_seconds)%Z
      then Py.str_of_int minutes ++ "m " ++ Py.str_of_int remaining_seconds ++ "s"
      else Py.str_of_int minutes ++ "m"
    else if (seconds <? 86400)%Z then
      let hours := (seconds / 3600)%Z in
      let remaining_minutes := ((seconds mod 3600) / 60)%Z in
      if (0 <? remaining_minutes)%Z
      then Py.str_of_int hours ++ "h " ++ Py.str_of_int remaining_minutes ++ "m"
      else Py.str_of_int hours ++ "h"
    else
      let days := (seconds / 86400)%Z in
      let remaining_hours := ((seconds mod 86400) / 3600)%Z in
      if (0 <? remaining_hours)%Z
      then Py.str_of_int days ++ "d " ++ Py.str_of_int remaining_hours ++ "h"
      else Py.str_of_int days ++ "d".

(** [TimeFormatter.format_eta]; [None] is the [OverflowError] of the
    division. *)
Definition format_eta (total_length completed_length download_speed : Z)
  : option string :=
  if ((download_speed <=? 0) || (total_length <=? completed_length))%Z%bool
  then Some "unknown"
  else
    let remaining_bytes := (total_length - completed_length)%Z in
    remaining_seconds <- PyFloat.int_true_div remaining_bytes download_speed ;;
    Some (format_duration remaining_seconds).

End TimeFormatter.

Module ProgressFormatter.

(** [ProgressFormatter.format_progress]; [None] is the [OverflowError] of
    the division. *)
Definition format_progress (completed total : Z) : option PyFloat.pyfloat :=
  if (total <=? 0)%Z then Some (PyFloat.Fin 0)
  else
    q <- PyFloat.int_true_div completed total ;;
    let progress := PyFloat.fmul q 100 in
    Some (PyFloat.round1 progress).

End ProgressFormatter.


(* ================================================================== *)
(** ** The engine and its environment *)

(** An option dictionary passed to the engine: keys in insertion order. *)
Definition Options : Type := list (string * string).

Module Dict.

(** [d[key] = value] *)
Fixpoint set (d : Options) (key value : string) : Options :=
  match d with
  | [] => [(key, value)]
  | (k, v) :: rest =>
      if k =? key then (k, value) :: rest else (k, v) :: set rest key value
  end.

(** [d.update(other)] *)
Definition update (d other : Options) : Options :=
  fold_left (fun acc kv => set acc (fst kv) (snd kv)) other d.

Fixpoint lookup (d : Options) (key : string) : option string :=
  match d with
  | [] => None
  | (k, v) :: rest => if k =? key then Some v else lookup rest key
  end.

End Dict.

Module Rpc.

(** A positional parameter of a remote call. *)
Inductive param : Type :=
| PStr (s : string)
| PInt (z : Z)
| PStrs (l : list string)
| POptions (o : Options).

(** The value under ["result"] in a response, when it is neither absent
    nor [null]. *)
Inductive reply : Type :=
| RStr (s : string)               (* a handle, or ["OK"] *)
| RTask (d : Aria2Data)           (* a JSON object: one status record, the statistics *)
| RTasks (l : list Aria2Data)     (* a list of status records *)
| ROther (truthy : bool).         (* any other JSON value *)

Definition is_empty_record (d : Aria2Data) : bool :=
  match gid d, files d, totalLength d, completedLength d, downloadSpeed d,
        uploadSpeed d, status d, connections d, numSeeders d, numLeechers d,
        numActive d, numWaiting d, numStopped d with
  | None, None, None, None, None, None, None, None, None, None,
    None, None, None => true
  | _, _, _, _, _, _, _, _, _, _, _, _, _ => false
  end.

(** Python truth value of a reply. *)
Definition truthy (r : reply) : bool :=
  match r with
  | RStr s => negb (PyStr.is_empty s)
  | RTask d => negb (is_empty_record d)
  | RTasks l => match l with [] => false | _ :: _ => true end
  | ROther b => b
  end.

(** What one HTTP exchange with the engine comes to. *)
Inductive outcome : Type :=
| TransportFailed                 (* [requests] raised, or an HTTP error status *)
| BodyNotJson                     (* [json.JSONDecodeError] *)
| BodyNotObject                   (* JSON, but not an object *)
| Body (has_error : bool) (result : option reply).

End Rpc.

(** The signals [stop_daemon] sends. *)
Inductive Signal : Type := SIGTERM | SIGKILL.

(** The world outside the process: the engine behind its RPC port, the file
    system, the clock and the process group of the daemon.  [None] is an
    exception of the operation. *)
Record Env (E : Type) : Type := {
  exchange : E -> string -> list Rpc.param -> Rpc.outcome * E;
  mkdir_downloads : E -> option E;
  session_file_exists : E -> bool;
  touch_session_file : E -> option E;
  aria2c_version : E -> bool * string;   (* what running [aria2c --version] comes to *)
  popen : E -> list string -> option E;
  sleep : E -> nat -> E;
  process_running : E -> bool;           (* [self.process.poll() is None] *)
  killpg : E -> Signal -> option E       (* [os.killpg(os.getpgid(pid), sig)] *)
}.

Arguments exchange {E} _ _ _ _.
Arguments mkdir_downloads {E} _ _.
Arguments session_file_exists {E} _ _.
Arguments touch_session_file {E} _ _.
Arguments aria2c_version {E} _ _.
Arguments popen {E} _ _ _.
Arguments sleep {E} _ _ _.
Arguments process_running {E} _ _.
Arguments killpg {E} _ _ _.

(** What the process did to the world, in order. *)
Inductive Event : Type :=
| EvRpc (method : string) (params : list Rpc.param)
| EvStartDaemon                     (* [start_daemon] was entered *)
| EvMkdir
| EvTouch
| EvPopen (cmd : list string)
| EvSleep (seconds : nat)
| EvRun (cmd : list string)          (* [subprocess.run]: a process run to its end *)
| EvKill (sig : Signal).

Record World (E : Type) : Type := {
  engine : E;
  trace : list Event
}.

Arguments engine {E} _.
Arguments trace {E} _.
Arguments Build_World {E} _ _.

(** Environment-supplied configuration ([Config] and the module constants
    of config/settings.py). *)
Record Settings : Type := {
  DOWNLOADS_DIR : string;
  ARIA2_RPC_PORT : Z;
  ARIA2_RPC_SECRET : option string;
  MAX_CONNECTIONS_PER_SERVER : Z;
  MAX_RETRIES : Z;
  RETRY_WAIT : Z;
  DOWNLOAD_TIMEOUT : Z;
  USER_AGENT : string;
  BT_MAX_PEERS : Z;
  SEED_RATIO : string;                (* [str(Config.SEED_RATIO)] *)
  SEED_TIME : Z;
  BT_LISTEN_PORT : option Z
}.

(* ================================================================== *)
(** ** config/aria2.py *)

Module Aria2Config.

(** The names the class [Aria2Config] defines. *)
Definition attributes : list string :=
  [ "RPC_HOST"; "RPC_PORT"; "RPC_SECRET"; "RPC_URL"; "DOWNLOAD_DIR";
    "MAX_CONCURRENT_DOWNLOADS"; "MAX_CONNECTION_PER_SERVER"; "MIN_SPLIT_SIZE";
    "SPLIT"; "MAX_OVERALL_DOWNLOAD_LIMIT"; "MAX_DOWNLOAD_LIMIT";
    "MAX_UPLOAD_LIMIT"; "BT_TRACKER_LIST"; "SEED_TIME"; "BT_MAX_PEERS";
    "LISTEN_PORT"; "DHT_LISTEN_PORT"; "TIMEOUT"; "RETRY_WAIT"; "MAX_TRIES";
    "SESSION_FILE"; "get_daemon_args"; "get_rpc_params" ].

(** Attribute lookup on the class succeeds for the names it defines;
    any other name raises [AttributeError]. *)
Definition defines (name : string) : bool :=
  DownloadTaskM.str_in name attributes.

End Aria2Config.

(* ================================================================== *)
(** ** services/aria2_service.py *)

Module Aria2Service.

Section Gateway.

Context {E : Type}.
Variable env : Env E.
Variable cfg : Settings.

(** The dictionary [Aria2Config.get_config()] would return, were the
    method defined. *)
Variable aria2_config : list (string * option string).

Definition log (ev : Event) (w : World E) : World E :=
  {| engine := engine w; trace := List.app (trace w) [ev] |}.

Definition session_file : string := DOWNLOADS_DIR cfg ++ "/aria2.session".

(** [if self.rpc_secret: params.insert(0, f"token:{self.rpc_secret}")] *)
Definition with_token (params : list Rpc.param) : list Rpc.param :=
  match ARIA2_RPC_SECRET cfg with
  | Some secret =>
      if PyStr.is_empty secret then params
      else Rpc.PStr ("token:" ++ secret) :: params
  | None => params
  end.

(** [Aria2Service.rpc_call]: every failure is turned into [None]. *)
Definition rpc_call (method : string) (params : list Rpc.param)
  (w : World E) : option Rpc.reply * World E :=
  let params := with_token params in
  let '(out, e) := exchange env (engine w) method params in
  let w := {| engine := e;
             trace := List.app (trace w) [EvRpc method params] |} in
  match out with
  | Rpc.Body false result => (result, w)
  | Rpc.Body true _ => (None, w)
  | Rpc.TransportFailed | Rpc.BodyNotJson | Rpc.BodyNotObject => (None, w)
  end.

(** [Aria2Service.is_daemon_running] *)
Definition is_daemon_running (w : World E) : bool * World E :=
  let '(response, w) := rpc_call "aria2.getVersion" [] w in
  (match response with Some _ => true | None => false end, w).

(** The options appended from the configuration dictionary. *)
Fixpoint config_args (items : list (string * option string)) : list string :=
  match items with
  | [] => []
  | (key, Some value) :: rest => ("--" ++ key ++ "=" ++ value) :: config_args rest
  | (_, None) :: rest => config_args rest
  end.

(** [Aria2Service._build_aria2_command]; [None] is the [AttributeError]
    of [Aria2Config.get_config]. *)
Definition _build_aria2_command : option (list string) :=
  let cmd :=
    [ "aria2c";
      "--enable-rpc";
      "--rpc-listen-port=" ++ Py.str_of_int (ARIA2_RPC_PORT cfg);
      "--rpc-allow-origin-all";
      "--dir=" ++ DOWNLOADS_DIR cfg;
      "--input-file=" ++ session_file;
      "--save-session=" ++ session_file;
      "--save-session-interval=60";
      "--daemon" ] in
  let cmd :=
    match ARIA2_RPC_SECRET cfg with
    | Some secret =>
        if PyStr.is_empty secret then cmd
        else List.app cmd ["--rpc-secret=" ++ secret]
    | None => cmd
    end in
  if Aria2Config.defines "get_config"
  then Some (List.app cmd (config_args aria2_config))
  else None.

(** The polling loop of [start_daemon]: [n] rounds of one second. *)
Fixpoint wait_for_daemon (n : nat) (w : World E) : bool * World E :=
  match n with
  | O => (false, w)
  | S k =>
      let w := log (EvSleep 1) {| engine := sleep env (engine w) 1;
                                  trace := trace w |} in
      let '(running, w) := is_daemon_running w in
      if running then (true, w) else wait_for_daemon k w
  end.

(** [Aria2Service.start_daemon].  The handle kept in [self.process] is
    read by [stop_daemon] alone, which takes it as an argument; it is not
    part of the world. *)
Definition start_daemon (w : World E) : bool * World E :=
  let w := log EvStartDaemon w in
  let '(running, w) := is_daemon_running w in
  if running then (true, w)
  else
    let w := log EvMkdir w in
    match mkdir_downloads env (engine w) with
    | None => (false, w)
    | Some e =>
        let w := {| engine := e; trace := trace w |} in
        let touched :=
          if session_file_exists env (engine w) then Some w
          else
            match touch_session_file env (engine w) with
            | None => None
            | Some e => Some (log EvTouch {| engine := e; trace := trace w |})
            end in
        match touched with
        | None => (false, w)
        | Some w =>
            match _build_aria2_command with
            | None => (false, w)
            | Some cmd =>
                let w := log (EvPopen cmd) w in
                match popen env (engine w) cmd with
                | None => (false, w)
                | Some e =>
                    wait_for_daemon 30 {| engine := e; trace := trace w |}
                end
            end
        end
    end.

(** [Aria2Service.stop_daemon]; [process] tells whether [self.process]
    holds a handle.  The engine is asked to shut down when it answers the
    probe; the process group is signalled when the handle is held and the
    process has not ended.  [false] is the exception of a signal. *)
Definition stop_daemon (process : bool) (w : World E) : bool * World E :=
  let '(running, w) := is_daemon_running w in
  let w :=
    if running then
      let '(_, w) := rpc_call "aria2.shutdown" [] w in
      log (EvSleep 2) {| engine := sleep env (engine w) 2; trace := trace w |}
    else w in
  if (process && process_running env (engine w))%bool then
    let w := log (EvKill SIGTERM) w in
    match killpg env (engine w) SIGTERM with
    | None => (false, w)
    | Some e =>
        let w := log (EvSleep 2) {| engine := sleep env e 2; trace := trace w |} in
        if process_running env (engine w) then
          let w := log (EvKill SIGKILL) w in
          match killpg env (engine w) SIGKILL with
          | None => (false, w)
          | Some e => (true, {| engine := e; trace := trace w |})
          end
        else (true, w)
    end
  else (true, w).

(** [Aria2Service.add_uri] *)
Definition add_uri (uris : list string) (options : Options) (w : World E)
  : option Rpc.reply * World E :=
  let '(result, w) :=
    rpc_call "aria2.addUri" [Rpc.PStrs uris; Rpc.POptions options] w in
  (match result with
   | Some r => if Rpc.truthy r then Some r else None
   | None => None
   end, w).

(** [x or []] followed by the use of the value as a list of records;
    [None] when the value is true but not a list, which raises in the
    code that follows. *)
Definition records_or_empty (x : option Rpc.reply) : option (list Aria2Data) :=
  match x with
  | None => Some []
  | Some r =>
      if Rpc.truthy r then
        match r with
        | Rpc.RTasks l => Some l
        | _ => None
        end
      else Some []
  end.

(** The loop of [get_downloads]: a record that fails to parse is
    skipped. *)
Fixpoint parse_all (all_downloads : list Aria2Data) : list DownloadTask :=
  match all_downloads with
  | [] => []
  | download_data :: rest =>
      match DownloadTaskM.from_aria2_response download_data with
      | Some download => download :: parse_all rest
      | None => parse_all rest
      end
  end.

Definition window : list Rpc.param := [Rpc.PInt 0; Rpc.PInt 100].

(** [Aria2Service.get_downloads] *)
Definition get_downloads (status : string) (w : World E)
  : list DownloadTask * World E :=
  let parsed (x : option (list Aria2Data)) :=
    match x with
    | Some all_downloads => parse_all all_downloads
    | None => []
    end in
  if status =? "all" then
    let '(active, w) := rpc_call "aria2.tellActive" [] w in
    let '(waiting, w) := rpc_call "aria2.tellWaiting" window w in
    let '(stopped, w) := rpc_call "aria2.tellStopped" window w in
    (parsed (active <- records_or_empty active ;;
             waiting <- records_or_empty waiting ;;
             stopped <- records_or_empty stopped ;;
             Some (List.app active (List.app waiting stopped))), w)
  else if status =? "active" then
    let '(r, w) := rpc_call "aria2.tellActive" [] w in
    (parsed (records_or_empty r), w)
  else if status =? "waiting" then
    let '(r, w) := rpc_call "aria2.tellWaiting" window w in
    (parsed (records_or_empty r), w)
  else if status =? "stopped" then
    let '(r, w) := rpc_call "aria2.tellStopped" window w in
    (parsed (records_or_empty r), w)
  else ([], w).

(** [Aria2Service.get_download] *)
Definition get_download (gid : string) (w : World E)
  : option DownloadTask * World E :=
  let '(download_data, w) := rpc_call "aria2.tellStatus" [Rpc.PStr gid] w in
  match download_data with
  | Some (Rpc.RTask d) =>
      if Rpc.truthy (Rpc.RTask d)
      then (DownloadTaskM.from_aria2_response d, w)
      else (None, w)
  | Some _ | None => (None, w)
  end.

Definition reply_is (result : option Rpc.reply) (s : string) : bool :=
  match result with
  | Some (Rpc.RStr r) => r =? s
  | _ => false
  end.

(** [Aria2Service.pause_download] *)
Definition pause_download (gid : string) (w : World E) : bool * World E :=
  let '(result, w) := rpc_call "aria2.pause" [Rpc.PStr gid] w in
  (reply_is result gid, w).

(** [Aria2Service.resume_download] *)
Definition resume_download (gid : string) (w : World E) : bool * World E :=
  let '(result, w) := rpc_call "aria2.unpause" [Rpc.PStr gid] w in
  (reply_is result gid, w).

(** [Aria2Service.remove_download] *)
Definition remove_download (gid : string) (force : bool) (w : World E)
  : bool * World E :=
  let method := if force then "aria2.forceRemove" else "aria2.remove" in
  let '(result, w) := rpc_call method [Rpc.PStr gid] w in
  (reply_is result gid, w).

(** The four operations that expect the answer ["OK"]. *)
Definition pause_all (w : World E) : bool * World E :=
  let '(result, w) := rpc_call "aria2.pauseAll" [] w in
  (reply_is result "OK", w).

Definition resume_all (w : World E) : bool * World E :=
  let '(result, w) := rpc_call "aria2.unpauseAll" [] w in
  (reply_is result "OK", w).

Definition purge_completed (w : World E) : bool * World E :=
  let '(result, w) := rpc_call "aria2.purgeDownloadResult" [] w in
  (reply_is result "OK", w).

(** [Aria2Service.get_version] *)
Definition get_version (w : World E) : option Rpc.reply * World E :=
  rpc_call "aria2.getVersion" [] w.

(** [Aria2Service.is_aria2_available]: [aria2c --version] is run to its
    end (or to the time limit of 10 seconds); the pair returned is what the
    run comes to. *)
Definition is_aria2_available (w : World E) : (bool * string) * World E :=
  (aria2c_version env (engine w), log (EvRun ["aria2c"; "--version"]) w).

(** [Aria2Service.test_connection], reduced to the three flags
    [aria2c_available], [daemon_running] and [rpc_status]. *)
Definition test_connection (w : World E) : (bool * bool * bool) * World E :=
  let '((aria2_available, _), w) := is_aria2_available w in
  if negb aria2_available then ((false, false, false), w)
  else
    let '(daemon_running, w) := is_daemon_running w in
    let '(daemon_running, w) :=
      if negb daemon_running then
        let '(started, w) := start_daemon w in
        (started, w)
      else (daemon_running, w) in
    if daemon_running then
      let '(version_info, w) := get_version w in
      ((true, true, match version_info with Some _ => true | None => false end), w)
    else ((true, false, false), w).

End Gateway.

End Aria2Service.

(* ================================================================== *)
(** ** models/download.py: serialisation *)

(** The dictionary [DownloadTask.to_dict] builds: the fields of the task and
    four formatted sizes. *)
Record TaskDict : Type := {
  dict_task : DownloadTask;
  formatted_total : string;
  formatted_completed : string;
  formatted_speed : string;
  formatted_upload_speed : string
}.

Module DownloadTaskDict.

(** [float(z)]; [None] is [OverflowError]. *)
Definition int_to_float (z : Z) : option Q :=
  let r := PyFloat.rnd (inject_Z z) in
  if PyFloat.overflows r then None else Some r.

(** [f"{x:.1f}"] *)
Definition format_1f (x : Q) : string :=
  let k := Z.abs (PyFloat.round_half_even (Qnum x * 10) (QDen x)) in
  (if PyFloat.Qlt_bool x 0 then "-" else "")
    ++ Py.str_of_int (k / 10) ++ "." ++ Py.str_of_int (k mod 10).

(** The loop of [format_size] from its second round on, where the size is
    a float. *)
Fixpoint format_units (size_bytes : Q) (units : list string) : string :=
  match units with
  | [] => format_1f size_bytes ++ " PB"
  | unit :: rest =>
      if PyFloat.Qlt_bool size_bytes 1024
      then format_1f size_bytes ++ " " ++ unit
      else format_units (PyFloat.fdiv size_bytes 1024) rest
  end.

(** [DownloadTask.format_size]; [None] is the [OverflowError] of turning
    the int into a float. *)
Definition format_size (size_bytes : Z) : option string :=
  if (size_bytes =? 0)%Z then Some "0 B"
  else
    x <- int_to_float size_bytes ;;
    if (size_bytes <? 1024)%Z then Some (format_1f x ++ " B")
    else Some (format_units (PyFloat.fdiv x 1024) ["KB"; "MB"; "GB"; "TB"]).

(** [DownloadTask.format_speed] *)
Definition format_speed (speed_bytes : Z) : option string :=
  s <- format_size speed_bytes ;; Some (s ++ "/s").

(** [DownloadTask.to_dict] *)
Definition to_dict (t : DownloadTask) : option TaskDict :=
  total <- format_size (task_total_length t) ;;
  completed <- format_size (task_completed_length t) ;;
  speed <- format_speed (task_download_speed t) ;;
  upload <- format_speed (task_upload_speed t) ;;
  Some {| dict_task := t;
          formatted_total := total;
          formatted_completed := completed;
          formatted_speed := speed;
          formatted_upload_speed := upload |}.

(** [[download.to_dict() for download in downloads]] *)
Fixpoint to_dicts (downloads : list DownloadTask) : option (list TaskDict) :=
  match downloads with
  | [] => Some []
  | d :: rest =>
      x <- to_dict d ;;
      xs <- to_dicts rest ;;
      Some (x :: xs)
  end.

End DownloadTaskDict.

(* ================================================================== *)
(** ** services/download_service.py *)

(** One entry of the [results] list of a batch. *)
Inductive BatchItem : Type :=
| ItemAdded (url : string) (task_id : Rpc.reply)
| ItemFailed (url : string) (error : string).

(** The dictionaries the facade returns, one constructor per shape. *)
Inductive Envelope : Type :=
| Added (task_id : Rpc.reply) (url : string) (download_type : string)
| Failure (error : string) (error_code : string)
| Batch (success : bool) (success_count fail_count total_count : Z)
        (results : list BatchItem)
| Downloads (downloads : list TaskDict) (count : Z)
| DownloadsFailure (error : string)   (* [UNKNOWN_ERROR], no downloads, count 0 *)
| Download (download : TaskDict)
| Done (message : string)
| Retried (task_id : Rpc.reply) (message : string).

(** [envelope['success']] *)
Definition success (r : Envelope) : bool :=
  match r with
  | Added _ _ _ | Downloads _ _ | Download _ | Done _ | Retried _ _ => true
  | Batch s _ _ _ _ => s
  | Failure _ _ | DownloadsFailure _ => false
  end.

Module DownloadService.

Section Facade.

Context {E : Type}.
Variable env : Env E.
Variable cfg : Settings.
Variable urlparse_path : string -> Py.result string.

(** [i18n.t]: the message stored under a key of the locale tables. *)
Variable i18n_t : string -> string.

(** [str(e)] for the [OverflowError] of [to_dict]. *)
Definition overflow_message : string := "int too large to convert to float".

(** [DownloadService._prepare_download_options] *)
Definition _prepare_download_options (url_info : UrlInfo)
  (custom_options : option Options) : Options :=
  let options := Dict.set [] "dir" (DOWNLOADS_DIR cfg) in
  let options :=
    if negb (PyStr.is_empty (info_file_name url_info))
    then Dict.set options "out" (info_file_name url_info)
    else options in
  let options := Dict.set options "user-agent" (USER_AGENT cfg) in
  let options :=
    match info_download_type url_info with
    | HTTP | HTTPS =>
        let o := Dict.set options "max-connection-per-server"
                   (Py.str_of_int (MAX_CONNECTIONS_PER_SERVER cfg)) in
        Dict.set o "split" (Py.str_of_int (MAX_CONNECTIONS_PER_SERVER cfg))
    | FTP | FTPS =>
        let o := Dict.set options "max-connection-per-server" "1" in
        Dict.set o "split" "1"
    | MAGNET | TORRENT => options
    end in
  let options := Dict.set options "timeout" (Py.str_of_int (DOWNLOAD_TIMEOUT cfg)) in
  let options := Dict.set options "max-tries" (Py.str_of_int (MAX_RETRIES cfg)) in
  let options := Dict.set options "retry-wait" (Py.str_of_int (RETRY_WAIT cfg)) in
  match custom_options with
  | Some (c :: cs) => Dict.update options (c :: cs)
  | Some [] | None => options
  end.

(** [DownloadService._prepare_bt_options] *)
Definition _prepare_bt_options (custom_options : option Options) : Options :=
  let options := Dict.set [] "dir" (DOWNLOADS_DIR cfg) in
  let options := Dict.set options "bt-max-peers" (Py.str_of_int (BT_MAX_PEERS cfg)) in
  let options := Dict.set options "seed-ratio" (SEED_RATIO cfg) in
  let options := Dict.set options "seed-time" (Py.str_of_int (SEED_TIME cfg)) in
  let options := Dict.set options "enable-dht" "true" in
  let options := Dict.set options "enable-peer-exchange" "true" in
  let options := Dict.set options "bt-enable-lpd" "true" in
  let options :=
    match BT_LISTEN_PORT cfg with
    | Some port =>
        if (port =? 0)%Z then options
        else Dict.set options "listen-port" (Py.str_of_int port)
    | None => options
    end in
  match custom_options with
  | Some (c :: cs) => Dict.update options (c :: cs)
  | Some [] | None => options
  end.

(** [DownloadService.add_url] *)
Definition add_url (url : string) (options : option Options) (w : World E)
  : Envelope * World E :=
  match UrlInfoM.from_url urlparse_path url with
  | Py.Raise message => (Failure message "UNKNOWN_ERROR", w)
  | Py.Ok url_info =>
      if negb (info_is_valid url_info)
      then (Failure (info_error_message url_info) "INVALID_URL", w)
      else
        let download_options := _prepare_download_options url_info options in
        let '(gid, w) := Aria2Service.add_uri env cfg [url] download_options w in
        match gid with
        | Some gid =>
            (Added gid url (DownloadType_value (info_download_type url_info)), w)
        | None =>
            (Failure (i18n_t "messages.aria2_unavailable") "ARIA2_ERROR", w)
        end
  end.

(** [DownloadService.add_magnet] *)
Definition add_magnet (magnet_url : string) (options : option Options)
  (w : World E) : Envelope * World E :=
  let '(is_valid, error_msg) := UrlValidator.validate_magnet magnet_url in
  if negb is_valid then (Failure error_msg "INVALID_MAGNET", w)
  else
    let download_options := _prepare_bt_options options in
    let '(gid, w) :=
      Aria2Service.add_uri env cfg [magnet_url] download_options w in
    match gid with
    | Some gid => (Added gid magnet_url "magnet", w)
    | None =>
        (Failure (i18n_t "messages.aria2_unavailable") "ARIA2_ERROR", w)
    end.

(** The loop of [add_batch_urls] over the validated entries; the counts
    and the results are threaded as accumulators. *)
Fixpoint add_each (url_infos : list UrlInfo) (options : option Options)
  (success_count fail_count : Z) (results : list BatchItem) (w : World E)
  : (Z * Z * list BatchItem) * World E :=
  match url_infos with
  | [] => ((success_count, fail_count, results), w)
  | url_info :: rest =>
      if info_is_valid url_info then
        let '(result, w) := add_url (info_url url_info) options w in
        match result with
        | Added task_id _ _ =>
            add_each rest options (success_count + 1) fail_count
              (List.app results [ItemAdded (info_url url_info) task_id]) w
        | Failure error _ =>
            add_each rest options success_count (fail_count + 1)
              (List.app results [ItemFailed (info_url url_info) error]) w
        | _ => ((success_count, fail_count, results), w)
        end
      else
        add_each rest options success_count (fail_count + 1)
          (List.app results
             [ItemFailed (info_url url_info) (info_error_message url_info)]) w
  end.

(** [DownloadService.add_batch_urls] *)
Definition add_batch_urls (urls : list string) (options : option Options)
  (w : World E) : Envelope * World E :=
  match UrlValidator.validate_url_list urlparse_path urls with
  | Py.Raise message => (Failure message "UNKNOWN_ERROR", w)
  | Py.Ok [] => (Failure (i18n_t "messages.no_urls_found") "NO_URLS", w)
  | Py.Ok url_infos =>
      let '((success_count, fail_count, results), w) :=
        add_each url_infos options 0 0 [] w in
      (Batch (0 <? success_count)%Z success_count fail_count
         (Z.of_nat (List.length url_infos)) results, w)
  end.

(** [DownloadService.get_downloads] *)
Definition get_downloads (status category : string) (limit : Z) (w : World E)
  : Envelope * World E :=
  let '(downloads, w) := Aria2Service.get_downloads env cfg status w in
  let downloads :=
    if negb (PyStr.is_empty category)
    then filter (fun d => task_category d =? category) downloads
    else downloads in
  let downloads :=
    if (0 <? limit)%Z then firstn (Z.to_nat limit) downloads else downloads in
  match DownloadTaskDict.to_dicts downloads with
  | Some dicts => (Downloads dicts (Z.of_nat (List.length downloads)), w)
  | None => (DownloadsFailure overflow_message, w)
  end.

(** [DownloadService.get_download] *)
Definition get_download (gid : string) (w : World E) : Envelope * World E :=
  let '(download, w) := Aria2Service.get_download env cfg gid w in
  match download with
  | Some download =>
      match DownloadTaskDict.to_dict download with
      | Some d => (Download d, w)
      | None => (Failure overflow_message "UNKNOWN_ERROR", w)
      end
  | None => (Failure "Download not found" "NOT_FOUND", w)
  end.

(** [DownloadService.pause_download] *)
Definition pause_download (gid : string) (w : World E) : Envelope * World E :=
  let '(ok, w) := Aria2Service.pause_download env cfg gid w in
  if ok then (Done (i18n_t "messages.download_paused"), w)
  else (Failure "Failed to pause download" "PAUSE_FAILED", w).

(** [DownloadService.resume_download] *)
Definition resume_download (gid : string) (w : World E) : Envelope * World E :=
  let '(ok, w) := Aria2Service.resume_download env cfg gid w in
  if ok then (Done (i18n_t "messages.download_resumed"), w)
  else (Failure "Failed to resume download" "RESUME_FAILED", w).

(** [DownloadService.remove_download] *)
Definition remove_download (gid : string) (force : bool) (w : World E)
  : Envelope * World E :=
  let '(ok, w) := Aria2Service.remove_download env cfg gid force w in
  if ok then (Done (i18n_t "messages.download_removed"), w)
  else (Failure "Failed to remove download" "REMOVE_FAILED", w).

(** [DownloadService.retry_download] *)
Definition retry_download (gid : string) (w : World E) : Envelope * World E :=
  let '(download, w) := Aria2Service.get_download env cfg gid w in
  match download with
  | None => (Failure "Download not found" "NOT_FOUND", w)
  | Some download =>
      let '(_, w) := Aria2Service.remove_download env cfg gid true w in
      let '(result, w) :=
        if DownloadType_eqb (task_download_type download) MAGNET
        then add_magnet (task_url download) None w
        else add_url (task_url download) None w in
      match result with
      | Added task_id _ _ =>
          (Retried task_id (i18n_t "messages.download_started"), w)
      | _ => (result, w)
      end
  end.

End Facade.

End DownloadService.

(* ================================================================== *)
(** ** Reference instances of the external collaborators

    The facade is parametric in [urlparse], in the locale tables and in the
    engine.  The instances below follow those collaborators: the parser is
    [urllib.parse.urlparse] of Python 3.11 with the checks it makes on a
    bracketed host, the engine follows the documentation of aria2.
    Statements are instantiated with them at concrete inputs. *)

Module Urllib.

(** The longest prefix without a character of the class [p], and the rest
    of the string from the first such character on. *)
Fixpoint span (p : ascii -> bool) (s : string) : string * string :=
  match s with
  | EmptyString => (EmptyString, EmptyString)
  | String c r =>
      if p c then (EmptyString, s)
      else let '(a, b) := span p r in (String c a, b)
  end.

Fixpoint all (p : ascii -> bool) (s : string) : bool :=
  match s with
  | EmptyString => true
  | String c r => (p c && all p r)%bool
  end.

Fixpoint remove (p : ascii -> bool) (s : string) : string :=
  match s with
  | EmptyString => EmptyString
  | String c r => if p c then remove p r else String c (remove p r)
  end.

Fixpoint lstrip_c0 (s : string) : string :=
  match s with
  | EmptyString => EmptyString
  | String c r => if N.leb (PyStr.code c) 32 then lstrip_c0 r else s
  end.

Definition one_of (chars : string) (c : ascii) : bool :=
  PyStr.contains (String c EmptyString) chars.

Definition scheme_char (c : ascii) : bool :=
  (UrlPatterns.alnum c || one_of "+-." c)%bool.

Definition uses_params : list string :=
  [ ""; "ftp"; "hdl"; "prospero"; "http"; "imap"; "https"; "shttp"; "rtsp";
    "rtspu"; "sip"; "sips"; "mms"; "sftp"; "tel" ].

(** The scheme of a URL and what follows its colon. *)
Definition split_scheme (url : string) : string * string :=
  let '(pre, rest) := span (Ascii.eqb ":") url in
  match pre, rest with
  | String c0 _, String _ after =>
      if (UrlPatterns.alpha c0 && all scheme_char pre)%bool
      then (PyStr.lower pre, after)
      else (EmptyString, url)
  | _, _ => (EmptyString, url)
  end.

(** [repr(s)] for a string. *)
Definition hex_char (n : N) : ascii :=
  match String.get (N.to_nat n) "0123456789abcdef" with
  | Some c => c
  | None => "0"%char
  end.

Definition printable (c : ascii) : bool :=
  (PyStr.in_range 32 126 c
   || (N.leb 161 (PyStr.code c) && negb (N.eqb (PyStr.code c) 173)))%bool.

Definition double_quote : ascii := ascii_of_N 34.

Definition repr_char (quote c : ascii) : string :=
  if (Ascii.eqb c quote || Ascii.eqb c "\")%bool
  then String "\" (String c EmptyString)
  else if N.eqb (PyStr.code c) 9 then "\t"
  else if N.eqb (PyStr.code c) 10 then "\n"
  else if N.eqb (PyStr.code c) 13 then "\r"
  else if printable c then String c EmptyString
  else "\x" ++ String (hex_char (PyStr.code c / 16))
                 (String (hex_char (PyStr.code c mod 16)) EmptyString).

Fixpoint repr_chars (quote : ascii) (s : string) : string :=
  match s with
  | EmptyString => EmptyString
  | String c r => repr_char quote c ++ repr_chars quote r
  end.

Definition repr (s : string) : string :=
  let quote :=
    if (PyStr.contains "'" s
        && negb (PyStr.contains (String double_quote EmptyString) s))%bool
    then double_quote else "'"%char in
  String quote (repr_chars quote s ++ String quote EmptyString).

Definition hex_digit (c : ascii) : bool :=
  (PyStr.isdigit c || PyStr.in_range 65 70 c || PyStr.in_range 97 102 c)%bool.

(** [ipaddress.IPv4Address._parse_octet] does not raise. *)
Definition valid_octet (octet_str : string) : bool :=
  (negb (PyStr.is_empty octet_str)
   && all PyStr.isdigit octet_str
   && (String.length octet_str <=? 3)%nat
   && ((octet_str =? "0") || negb (prefix "0" octet_str))
   && match Py.parse_digits octet_str 0 false with
      | Some octet_int => (octet_int <=? 255)%Z
      | None => false
      end)%bool.

(** [ipaddress.IPv4Address(address)] does not raise. *)
Definition valid_ipv4 (address : string) : bool :=
  (negb (PyStr.contains "/" address)
   && negb (PyStr.is_empty address)
   && let octets := PyStr.split "." address in
      ((List.length octets =? 4)%nat && forallb valid_octet octets))%bool.

(** [ipaddress.IPv6Address._parse_hextet] does not raise. *)
Definition valid_hextet (hextet_str : string) : bool :=
  (all hex_digit hextet_str
   && (String.length hextet_str <=? 4)%nat
   && negb (PyStr.is_empty hextet_str))%bool.

(** The indices from [i] on at which [parts] holds an empty string. *)
Fixpoint empty_at (i : nat) (parts : list string) : list nat :=
  match parts with
  | [] => []
  | p :: rest =>
      if PyStr.is_empty p then i :: empty_at (S i) rest
      else empty_at (S i) rest
  end.

(** [ipaddress.IPv6Address._ip_int_from_string] does not raise.  A dotted
    suffix that is an IPv4 address becomes two hextets; they are well
    formed whatever their value, so ["0"] stands for both. *)
Definition valid_ipv6_groups (ip_str : string) : bool :=
  if PyStr.is_empty ip_str then false
  else
    let parts := PyStr.split ":" ip_str in
    if (List.length parts <? 3)%nat then false
    else
      let with_ipv4 :=
        if PyStr.contains "." (List.last parts EmptyString) then
          if valid_ipv4 (List.last parts EmptyString)
          then Some (List.app (removelast parts) ["0"; "0"])
          else None
        else Some parts in
      match with_ipv4 with
      | None => false
      | Some parts =>
          let n := List.length parts in
          if (9 <? n)%nat then false
          else
            let first_empty := PyStr.is_empty (hd EmptyString parts) in
            let last_empty := PyStr.is_empty (List.last parts EmptyString) in
            match empty_at 1 (removelast (tl parts)) with
            | _ :: _ :: _ => false
            | [skip_index] =>
                let parts_hi := skip_index in
                let parts_lo := (n - skip_index - 1)%nat in
                if (first_empty && negb (parts_hi - 1 =? 0)%nat)%bool then false
                else if (last_empty && negb (parts_lo - 1 =? 0)%nat)%bool
                then false
                else
                  let parts_hi :=
                    if first_empty then (parts_hi - 1)%nat else parts_hi in
                  let parts_lo :=
                    if last_empty then (parts_lo - 1)%nat else parts_lo in
                  if (8 - (parts_hi + parts_lo) <? 1)%nat then false
                  else
                    (forallb valid_hextet (firstn parts_hi parts)
                     && forallb valid_hextet (skipn (n - parts_lo) parts))%bool
            | [] =>
                if negb (n =? 8)%nat then false
                else if (first_empty || last_empty)%bool then false
                else forallb valid_hextet parts
            end
      end.

(** [ipaddress.IPv6Address(address)] does not raise. *)
Definition valid_ipv6 (address : string) : bool :=
  if PyStr.contains "/" address then false
  else
    let '(addr_str, rest) := span (Ascii.eqb "%") address in
    match rest with
    | EmptyString => valid_ipv6_groups addr_str
    | String _ scope_id =>
        if (PyStr.is_empty scope_id || PyStr.contains "%" scope_id)%bool
        then false
        else valid_ipv6_groups addr_str
    end.

(** The pattern [\Av[a-fA-F0-9]+\..+\Z] matches. *)
Definition ipvfuture (hostname : string) : bool :=
  match hostname with
  | String "v" r =>
      let '(digits, rest) := span (fun c => negb (hex_digit c)) r in
      match rest with
      | String "." (String c tail) =>
          (negb (PyStr.is_empty digits)
           && all (fun c => negb (Ascii.eqb c Re.newline)) (String c tail))%bool
      | _ => false
      end
  | _ => false
  end.

(** [_check_bracketed_host]: [Some] is the message of the [ValueError]. *)
Definition check_bracketed_host (hostname : string) : option string :=
  if prefix "v" hostname then
    if ipvfuture hostname then None else Some "IPvFuture address is invalid"
  else if valid_ipv4 hostname
  then Some "An IPv4 address cannot be in brackets"
  else if valid_ipv6 hostname then None
  else Some (repr hostname ++ " does not appear to be an IPv4 or IPv6 address").

(** [s.rpartition(c)[2]] *)
Definition after_last (c : ascii) (s : string) : string :=
  let '(tail, rest) := span (Ascii.eqb c) (PyStr.rev s) in
  match rest with
  | EmptyString => s
  | String _ _ => PyStr.rev tail
  end.

(** [_check_bracketed_netloc] *)
Definition check_bracketed_netloc (netloc : string) : option string :=
  let hostname_and_port := after_last "@" netloc in
  let '(before_bracket, rest) := span (Ascii.eqb "[") hostname_and_port in
  match rest with
  | String _ bracketed =>
      if negb (PyStr.is_empty before_bracket) then Some "Invalid IPv6 URL"
      else
        let '(hostname, rest) := span (Ascii.eqb "]") bracketed in
        let port := match rest with
                    | String _ p => p
                    | EmptyString => EmptyString
                    end in
        if (negb (PyStr.is_empty port) && negb (prefix ":" port))%bool
        then Some "Invalid IPv6 URL"
        else check_bracketed_host hostname
  | EmptyString =>
      check_bracketed_host (fst (span (Ascii.eqb ":") hostname_and_port))
  end.

(** The authority after [//] and what follows it; [Raise] on brackets
    that do not pair and on a bracketed host that is neither an IPv6 nor
    an IPvFuture literal. *)
Definition split_netloc (url : string) : Py.result (string * string) :=
  match url with
  | String "/" (String "/" r) =>
      let '(netloc, rest) := span (one_of "/?#") r in
      if xorb (PyStr.contains "[" netloc) (PyStr.contains "]" netloc)
      then Py.Raise "Invalid IPv6 URL"
      else if PyStr.contains "[" netloc then
        match check_bracketed_netloc netloc with
        | Some message => Py.Raise message
        | None => Py.Ok (netloc, rest)
        end
      else Py.Ok (netloc, rest)
  | _ => Py.Ok (EmptyString, url)
  end.

(** The path without its parameters: cut at the first [;] of the last
    segment. *)
Definition strip_params (url : string) : string :=
  let '(rbase, rdir) := span (Ascii.eqb "/") (PyStr.rev url) in
  PyStr.rev rdir ++ fst (span (Ascii.eqb ";") (PyStr.rev rbase)).

(** [urllib.parse.urlparse(url).path] *)
Definition urlparse_path (url : string) : Py.result string :=
  let url := remove (one_of (String (ascii_of_N 9) (String (ascii_of_N 10)
               (String (ascii_of_N 13) EmptyString)))) (lstrip_c0 url) in
  let '(scheme, url) := split_scheme url in
  x <~ split_netloc url ;;
  let url := snd x in
  let url := fst (span (Ascii.eqb "#") url) in
  let url := fst (span (Ascii.eqb "?") url) in
  if (DownloadTaskM.str_in scheme uses_params && PyStr.contains ";" url)%bool
  then Py.Ok (strip_params url)
  else Py.Ok url.

End Urllib.

(** The locale tables are not loaded: [i18n.t] returns the key. *)
Definition i18n_key (key : string) : string := key.

Module RefEngine.

(** An engine with its three queues.  [up] tells whether the RPC port
    answers; [boot] is the number of seconds a launched daemon needs
    before it does. *)
Record state : Type := {
  up : bool;
  launching : option nat;
  boot : nat;
  active : list Aria2Data;
  waiting : list Aria2Data;
  stopped : list Aria2Data;
  next_gid : Z;
  session_file : bool
}.

Definition set_queues (s : state) (a w st : list Aria2Data) (n : Z) : state :=
  {| up := up s; launching := launching s; boot := boot s;
     active := a; waiting := w; stopped := st; next_gid := n;
     session_file := session_file s |}.

Definition has_gid (g : string) (d : Aria2Data) : bool :=
  match gid d with
  | Some x => x =? g
  | None => false
  end.

Definition new_task (g url : string) : Aria2Data :=
  {| gid := Some g;
     files := Some [ {| uris := Some [ {| uri := Some url |} ]; path := Some "" |} ];
     totalLength := Some (Py.JStr "0");
     completedLength := Some (Py.JStr "0");
     downloadSpeed := Some (Py.JStr "0");
     uploadSpeed := Some (Py.JStr "0");
     status := Some "waiting";
     connections := Some (Py.JStr "0");
     numSeeders := None;
     numLeechers := None; numActive := None;
     numWaiting := None; numStopped := None |}.

(** [tellWaiting(offset, num)] and [tellStopped(offset, num)] for an
    offset that is not negative. *)
Definition slice (offset num : Z) (l : list Aria2Data) : list Aria2Data :=
  firstn (Z.to_nat num) (skipn (Z.to_nat offset) l).

Definition drop_token (params : list Rpc.param) : list Rpc.param :=
  match params with
  | Rpc.PStr s :: rest => if prefix "token:" s then rest else params
  | _ => params
  end.

Definition error (s : state) : Rpc.outcome * state := (Rpc.Body true None, s).

Definition ok (r : Rpc.reply) (s : state) : Rpc.outcome * state :=
  (Rpc.Body false (Some r), s).

Definition exchange (s : state) (method : string) (params : list Rpc.param)
  : Rpc.outcome * state :=
  if negb (up s) then (Rpc.TransportFailed, s)
  else
    match drop_token params with
    | [] =>
        if method =? "aria2.getVersion" then ok (Rpc.ROther true) s
        else if method =? "aria2.tellActive" then ok (Rpc.RTasks (active s)) s
        else error s
    | [Rpc.PInt offset; Rpc.PInt num] =>
        if method =? "aria2.tellWaiting"
        then ok (Rpc.RTasks (slice offset num (waiting s))) s
        else if method =? "aria2.tellStopped"
        then ok (Rpc.RTasks (slice offset num (stopped s))) s
        else error s
    | [Rpc.PStr g] =>
        let all := List.app (active s) (List.app (waiting s) (stopped s)) in
        if negb (existsb (has_gid g) all) then error s
        else if method =? "aria2.tellStatus" then
          match find (has_gid g) all with
          | Some d => ok (Rpc.RTask d) s
          | None => error s
          end
        else if ((method =? "aria2.forceRemove") || (method =? "aria2.remove"))%bool
        then
          let keep := filter (fun d => negb (has_gid g d)) in
          ok (Rpc.RStr g)
             (set_queues s (keep (active s)) (keep (waiting s))
                (keep (stopped s)) (next_gid s))
        else error s
    | [Rpc.PStrs (url :: _); Rpc.POptions _] =>
        if method =? "aria2.addUri" then
          let g := Py.str_of_int (next_gid s) in
          ok (Rpc.RStr g)
             (set_queues s (active s) (List.app (waiting s) [new_task g url])
                (stopped s) (next_gid s + 1))
        else error s
    | _ => error s
    end.

Definition with_clock (s : state) (u : bool) (l : option nat) : state :=
  {| up := u; launching := l; boot := boot s;
     active := active s; waiting := waiting s; stopped := stopped s;
     next_gid := next_gid s; session_file := session_file s |}.

(** Time passes: a daemon that is starting comes up once its boot time has
    elapsed. *)
Definition sleep (s : state) (seconds : nat) : state :=
  match launching s with
  | Some remaining =>
      if (remaining <=? seconds)%nat then with_clock s true None
      else with_clock s (up s) (Some (remaining - seconds)%nat)
  | None => s
  end.

Definition popen (s : state) (cmd : list string) : option state :=
  Some (with_clock s (up s) (Some (boot s))).

Definition touch (s : state) : option state :=
  Some {| up := up s; launching := launching s; boot := boot s;
          active := active s; waiting := waiting s; stopped := stopped s;
          next_gid := next_gid s; session_file := true |}.

Definition env : Env state :=
  Build_Env state
    exchange                          (* exchange *)
    (fun s => Some s)                 (* mkdir_downloads *)
    session_file                      (* session_file_exists *)
    touch                             (* touch_session_file *)
    (fun s => (true, "1.36.0"))       (* aria2c_version *)
    popen
    sleep
    (fun s => up s)                   (* process_running *)
    (fun s _ => Some (with_clock s false None)).   (* killpg *)

(** An engine that is down, and would answer [boot] seconds after a
    launch. *)
Definition down (boot : nat) : state :=
  {| up := false; launching := None; boot := boot;
     active := []; waiting := []; stopped := []; next_gid := 1;
     session_file := false |}.

(** A running engine with the given queues. *)
Definition running (a w st : list Aria2Data) : state :=
  {| up := true; launching := None; boot := 0;
     active := a; waiting := w; stopped := st; next_gid := 1;
     session_file := true |}.

End RefEngine.

(** The configuration with the defaults of config/settings.py. *)
Definition default_settings : Settings :=
  {| DOWNLOADS_DIR := "downloads";
     ARIA2_RPC_PORT := 6800;
     ARIA2_RPC_SECRET := None;
     MAX_CONNECTIONS_PER_SERVER := 4;
     MAX_RETRIES := 3;
     RETRY_WAIT := 5;
     DOWNLOAD_TIMEOUT := 60;
     USER_AGENT := "Universal Download Manager/1.0";
     BT_MAX_PEERS := 50;
     SEED_RATIO := "1.0";
     SEED_TIME := 60;
     BT_LISTEN_PORT := None |}.

Definition initial_world {E : Type} (e : E) : World E :=
  {| engine := e; trace := [] |}.

(* ================================================================== *)
(** ** Notions used by the statements *)

Module Spec.

(** Number of times [start_daemon] was entered in a trace. *)
Fixpoint start_cycles (t : list Event) : nat :=
  match t with
  | [] => O
  | EvStartDaemon :: r => S (start_cycles r)
  | _ :: r => start_cycles r
  end.

(** Number of processes launched in a trace. *)
Fixpoint launches (t : list Event) : nat :=
  match t with
  | [] => O
  | EvPopen _ :: r => S (launches r)
  | _ :: r => launches r
  end.

(** Number of one-second polls in a trace. *)
Fixpoint polls (t : list Event) : nat :=
  match t with
  | [] => O
  | EvSleep _ :: r => S (polls r)
  | _ :: r => polls r
  end.

Definition is_rpc (ev : Event) : Prop :=
  match ev with
  | EvRpc _ _ => True
  | _ => False
  end.

(** [w'] extends the trace of [w] by remote calls only. *)
Definition rpc_only {E : Type} (w w' : World E) : Prop :=
  exists evs, trace w' = List.app (trace w) evs /\ Forall is_rpc evs.

(** Between [w] and [w'] no start-and-wait cycle was attempted. *)
Definition no_restart {E : Type} (w w' : World E) : Prop :=
  start_cycles (trace w') = start_cycles (trace w).

(** The rules of kind detection in the order of the specification: a
    test on the locator with case ignored, and the kind it selects. *)
Definition detection_rules : list ((string -> bool) * DownloadType) :=
  [ (PyStr.prefix_ci "magnet:", MAGNET);
    (PyStr.prefix_ci "https:", HTTPS);
    (PyStr.prefix_ci "http:", HTTP);
    (PyStr.prefix_ci "ftps:", FTPS);
    (PyStr.prefix_ci "ftp:", FTP);
    (PyStr.suffix_ci ".torrent", TORRENT) ].

(** The kind of the first rule that holds, [default] when none does. *)
Fixpoint first_match (rules : list ((string -> bool) * DownloadType))
  (url : string) (default : DownloadType) : DownloadType :=
  match rules with
  | [] => default
  | (test, kind) :: rest =>
      if test url then kind else first_match rest url default
  end.

Definition kind_of (url : string) : DownloadType :=
  first_match detection_rules url HTTP.

(** Progress as the specification words it: [completed/total*100] rounded
    to one decimal when [total > 0], else [0.0]. *)
Definition progress_of (completed total : Z) : option PyFloat.pyfloat :=
  if (0 <? total)%Z then
    option_map (fun q => PyFloat.round1 (PyFloat.fmul q 100))
      (PyFloat.int_true_div completed total)
  else Some (PyFloat.Fin 0).

(** [k/10] is the one-decimal number nearest to [x]: [k] is the integer
    nearest to [10 x], and the even one of the two when [10 x] lies half
    way. *)
Definition nearest_tenth (x : Q) (k : Z) : Prop :=
  (Qabs (x * 10 - inject_Z k) <= 1 # 2)%Q
  /\ ((Qabs (x * 10 - inject_Z k) == 1 # 2)%Q -> Z.even k = true).

(** [p] is [x] rounded to one decimal place: the float nearest to the
    one-decimal number nearest to [x]; an infinity stays what it is. *)
Definition rounded_to_one_decimal (x p : PyFloat.pyfloat) : Prop :=
  match x, p with
  | PyFloat.Fin a, PyFloat.Fin b =>
      exists k, nearest_tenth a k /\ b = PyFloat.rnd (k # 10)
  | PyFloat.Inf s, PyFloat.Inf s' => s = s'
  | _, _ => False
  end.

(** A float between 0.0 and 100.0. *)
Definition percentage (x : PyFloat.pyfloat) : Prop :=
  PyFloat.le (PyFloat.Fin 0) x /\ PyFloat.le x (PyFloat.Fin 100).

(** A locator the batch skips: empty once stripped. *)
Definition blank (url : string) : bool := PyStr.is_empty (PyStr.strip url).

(** The locators a batch keeps: those that are not blank. *)
Definition kept (urls : list string) : list string :=
  filter (fun u => negb (blank u)) urls.

(** [envelope['error']] *)
Definition error_of (r : Envelope) : string :=
  match r with
  | Failure error _ | DownloadsFailure error => error
  | _ => ""
  end.

(** The entry of the result list for a locator whose single add returned
    [r]. *)
Definition item_for (url : string) (r : Envelope) : BatchItem :=
  match r with
  | Added task_id _ _ => ItemAdded url task_id
  | _ => ItemFailed url (error_of r)
  end.

(** The per-item results of a batch, one entry per validated locator and
    in their order: an invalid locator is entered with its validation
    error, a valid one goes through the single add. *)
Fixpoint batch_items {E : Type} (env : Env E) (cfg : Settings)
  (urlparse_path : string -> Py.result string) (i18n_t : string -> string)
  (url_infos : list UrlInfo) (options : option Options) (w : World E)
  : list BatchItem * World E :=
  match url_infos with
  | [] => ([], w)
  | url_info :: rest =>
      if info_is_valid url_info then
        let '(r, w) :=
          DownloadService.add_url env cfg urlparse_path i18n_t
            (info_url url_info) options w in
        let '(items, w) :=
          batch_items env cfg urlparse_path i18n_t rest options w in
        (item_for (info_url url_info) r :: items, w)
      else
        let '(items, w) :=
          batch_items env cfg urlparse_path i18n_t rest options w in
        (ItemFailed (info_url url_info) (info_error_message url_info) :: items, w)
  end.

Fixpoint count_added (items : list BatchItem) : Z :=
  match items with
  | [] => 0
  | ItemAdded _ _ :: rest => 1 + count_added rest
  | ItemFailed _ _ :: rest => count_added rest
  end.

Fixpoint count_failed (items : list BatchItem) : Z :=
  match items with
  | [] => 0
  | ItemAdded _ _ :: rest => count_failed rest
  | ItemFailed _ _ :: rest => 1 + count_failed rest
  end.

(** The kinds whose locator [from_url] hands to the URL parser. *)
Definition parsed_kind (kind : DownloadType) : bool :=
  match kind with
  | HTTP | HTTPS | FTP | FTPS => true
  | MAGNET | TORRENT => false
  end.

(** Three locators, the second of them malformed. *)
Definition three_locators : list string :=
  [ "http://example.com/a.zip"; "not a url"; "https://example.org/b.iso" ].

Definition item_url (i : BatchItem) : string :=
  match i with
  | ItemAdded u _ => u
  | ItemFailed u _ => u
  end.

Definition item_failed_with (i : BatchItem) (url error : string) : Prop :=
  i = ItemFailed url error.

(** The records a listing with the given status can draw from, when the
    engine holds the three queues [a], [w] and [s]. *)
Definition listed (status : string) (a w s : list Aria2Data) : list Aria2Data :=
  if status =? "all" then List.app a (List.app (firstn 100 w) (firstn 100 s))
  else if status =? "active" then a
  else if status =? "waiting" then firstn 100 w
  else if status =? "stopped" then firstn 100 s
  else [].

(** The category filter and the cap of [get_downloads]. *)
Definition filter_and_cap (category : string) (limit : Z)
  (downloads : list DownloadTask) : list DownloadTask :=
  let downloads :=
    if PyStr.is_empty category then downloads
    else filter (fun d => task_category d =? category) downloads in
  if (0 <? limit)%Z then firstn (Z.to_nat limit) downloads else downloads.

(** A record that carries no source URI. *)
Definition no_uri (d : Aria2Data) : Prop :=
  match files d with
  | None => True
  | Some [] => False          (* reconciliation fails on it *)
  | Some (f :: _) =>
      match uris f with
      | None | Some [] => True
      | Some (u :: _) => uri u = None \/ uri u = Some ""
      end
  end.

(** Strings that [lower] leaves as they are. *)
Fixpoint lower_fixed (p : string) : bool :=
  match p with
  | EmptyString => true
  | String a r => (Ascii.eqb (PyStr.lower_char a) a && lower_fixed r)%bool
  end.

(** The two messages of a failed magnet validation. *)
Definition wrong_format_message : string := "Invalid magnet link format".
Definition missing_hash_message : string :=
  "Magnet link missing hash information".

(** A remote call a listing may make: [tellActive] without parameters, or
    [tellWaiting] and [tellStopped] with offset 0 and count 100. *)
Definition listing_call (cfg : Settings) (ev : Event) : Prop :=
  match ev with
  | EvRpc method params =>
      (method = "aria2.tellActive"
       /\ params = Aria2Service.with_token cfg [])
      \/ ((method = "aria2.tellWaiting" \/ method = "aria2.tellStopped")
          /\ params = Aria2Service.with_token cfg [Rpc.PInt 0; Rpc.PInt 100])
  | _ => False
  end.

(** A world whose engine is up and holds the queues [a], [wq], [s]. *)
Definition holds (w : World RefEngine.state) (a wq s : list Aria2Data) : Prop :=
  RefEngine.up (engine w) = true
  /\ RefEngine.active (engine w) = a
  /\ RefEngine.waiting (engine w) = wq
  /\ RefEngine.stopped (engine w) = s.

(** A queue of [n] waiting tasks with the handles [0], [1], ... *)
Definition waiting_queue (n : nat) : list Aria2Data :=
  map (fun i => RefEngine.new_task (Py.str_of_int (Z.of_nat i))
                  "http://example.com/file.zip")
      (seq 0 n).

(** How [retry_download] reports the outcome [r] of the new add. *)
Definition retried (i18n_t : string -> string) (r : Envelope) : Envelope :=
  match r with
  | Added task_id _ _ => Retried task_id (i18n_t "messages.download_started")
  | _ => r
  end.

(** The record of a task added from a torrent file: aria2 lists its files
    without any source URI. *)
Definition torrent_file_task : Aria2Data :=
  {| gid := Some "7";
     files := Some [ {| uris := Some []; path := Some "downloads/ubuntu.iso" |} ];
     totalLength := Some (Py.JStr "4000");
     completedLength := Some (Py.JStr "1000");
     downloadSpeed := Some (Py.JStr "0");
     uploadSpeed := Some (Py.JStr "0");
     status := Some "error";
     connections := Some (Py.JStr "0");
     numSeeders := Some (Py.JStr "0");
     numLeechers := None; numActive := None;
     numWaiting := None; numStopped := None |}.

(** A record that carries only the three counters, the way aria2 sends
    them (decimal strings). *)
Definition record_with (total completed speed : string) : Aria2Data :=
  {| gid := Some "2089b05ecca3d829";
     files := None;
     totalLength := Some (Py.JStr total);
     completedLength := Some (Py.JStr completed);
     downloadSpeed := Some (Py.JStr speed);
     uploadSpeed := None;
     status := Some "active";
     connections := None;
     numSeeders := None;
     numLeechers := None; numActive := None;
     numWaiting := None; numStopped := None |}.

End Spec.

(* ================================================================== *)
(** ** Further notions used by the statements *)

Module Extra.

(** [DownloadStatus.value] *)
Definition DownloadStatus_value (s : DownloadStatus) : string :=
  match s with
  | WAITING => "waiting" | ACTIVE => "active" | PAUSED => "paused"
  | COMPLETE => "complete" | ERROR => "error" | REMOVED => "removed"
  end.

(** The record [d] with its status field replaced. *)
Definition with_status (d : Aria2Data) (s : option string) : Aria2Data :=
  {| gid := gid d; files := files d; totalLength := totalLength d;
     completedLength := completedLength d; downloadSpeed := downloadSpeed d;
     uploadSpeed := uploadSpeed d; status := s; connections := connections d;
     numSeeders := numSeeders d; numLeechers := numLeechers d;
     numActive := numActive d; numWaiting := numWaiting d;
     numStopped := numStopped d |}.

(** The categories a file can fall in. *)
Definition categories : list string :=
  [ "video"; "audio"; "image"; "document"; "archive"; "software"; "other" ].

(** The character [c] does not occur in [s]. *)
Fixpoint free_of (c : ascii) (s : string) : bool :=
  match s with
  | EmptyString => true
  | String a r => (negb (Ascii.eqb a c) && free_of c r)%bool
  end.

(** A record whose [files] list is empty, and one whose total length is
    not a number: neither reconciles. *)
Definition record_without_files : Aria2Data :=
  {| gid := Some "a1"; files := Some []; totalLength := Some (Py.JStr "10");
     completedLength := None; downloadSpeed := None; uploadSpeed := None;
     status := Some "active"; connections := None; numSeeders := None;
     numLeechers := None; numActive := None;
     numWaiting := None; numStopped := None |}.

Definition record_with_bad_length : Aria2Data :=
  {| gid := Some "a2"; files := None; totalLength := Some (Py.JStr "ten");
     completedLength := None; downloadSpeed := None; uploadSpeed := None;
     status := Some "active"; connections := None; numSeeders := None;
     numLeechers := None; numActive := None;
     numWaiting := None; numStopped := None |}.

(** The tasks a list of records reconciles to: the records on which
    reconciliation fails are left out, the others keep their order. *)
Definition reconciliations (records : list Aria2Data) : list DownloadTask :=
  flat_map (fun d => match DownloadTaskM.from_aria2_response d with
                     | Some t => [t]
                     | None => []
                     end) records.

(** The answer [r] to a listing call brings the records [records]: it is
    that list, or it is absent or false and there are none. *)
Definition listing (r : option Rpc.reply) (records : list Aria2Data) : Prop :=
  match r with
  | Some (Rpc.RTasks l) => records = l
  | Some r' => Rpc.truthy r' = false /\ records = []
  | None => records = []
  end.

(** Two well-formed records around the two malformed ones. *)
Definition mixed_queue : list Aria2Data :=
  [ RefEngine.new_task "1" "http://example.com/a.zip";
    record_without_files;
    record_with_bad_length;
    RefEngine.new_task "2" "http://example.com/b.zip" ].

(** An event that runs no process, launches none, signals none and does
    not sleep. *)
Definition quiet (ev : Event) : Prop :=
  match ev with
  | EvRun _ | EvPopen _ | EvSleep _ | EvKill _ => False
  | EvRpc _ _ | EvStartDaemon | EvMkdir | EvTouch => True
  end.

(** [w'] extends the trace of [w] by quiet events only. *)
Definition quietly {E : Type} (w w' : World E) : Prop :=
  exists evs, trace w' = List.app (trace w) evs /\ Forall quiet evs.

(** The statuses [get_downloads] knows. *)
Definition known_status (status : string) : bool :=
  ((status =? "all") || (status =? "active") || (status =? "waiting")
   || (status =? "stopped"))%bool.

(** The strings a pattern denotes. *)
Inductive matches : Re.regex -> string -> Prop :=
| MEps : matches Re.Eps ""
| MChr p c : p c = true -> matches (Re.Chr p) (String c "")
| MCat a b s1 s2 :
    matches a s1 -> matches b s2 -> matches (Re.Cat a b) (s1 ++ s2)
| MAltL a b s : matches a s -> matches (Re.Alt a b) s
| MAltR a b s : matches b s -> matches (Re.Alt a b) s
| MStar0 a : matches (Re.Star a) ""
| MStarS a s1 s2 :
    matches a s1 -> matches (Re.Star a) s2 -> matches (Re.Star a) (s1 ++ s2).

(** What a valid locator of each kind looks like. *)
Definition well_formed (kind : DownloadType) (u : string) : bool :=
  match kind with
  | HTTP => PyStr.prefix_ci "http://" u
  | HTTPS => PyStr.prefix_ci "https://" u
  | FTP => PyStr.prefix_ci "ftp://" u
  | FTPS => PyStr.prefix_ci "ftps://" u
  | MAGNET => (prefix "magnet:" u && PyStr.contains "xt=" u)%bool
  | TORRENT => PyStr.suffix_ci ".torrent" u
  end.

(** No character of [s] is white space. *)
Fixpoint no_space (s : string) : bool :=
  match s with
  | EmptyString => true
  | String c r => (negb (PyStr.isspace c) && no_space r)%bool
  end.

(** A list file: a comment, a locator followed by a remark, a blank
    line, an indented locator. *)
Definition sample_list : string :=
  let nl := String Re.newline "" in
  "# mirrors" ++ nl ++ "http://example.com/a.zip  first" ++ nl ++ "   " ++ nl
  ++ "  ftp://example.org/b.iso".

(** A torrent upload: a bencoded dictionary. *)
Definition sample_torrent : list Byte.byte :=
  map byte_of_ascii (list_ascii_of_string "d4:infod4:name5:b.isoee").

(** An engine that answers every call with the same handle. *)
Definition accepting_env : Env unit :=
  Build_Env unit
    (fun s _ _ => (Rpc.Body false (Some (Rpc.RStr "2089b05ecca3d829")), s))
    (fun s => Some s)
    (fun _ => true)
    (fun s => Some s)
    (fun _ => (true, "1.36.0"))
    (fun s _ => Some s)
    (fun s _ => s)
    (fun _ => true)
    (fun s _ => Some s).

(** A byte count between 0 and [2^52] (4 PiB). *)
Definition within (z : Z) : bool := ((0 <=? z) && (z <=? 2 ^ 52))%Z%bool.

(** A task whose sizes and speeds are such byte counts. *)
Definition plausible (t : DownloadTask) : bool :=
  (within (task_total_length t) && within (task_completed_length t)
   && within (task_download_speed t) && within (task_upload_speed t))%bool.

(** [format_size] shows [n] as a whole number of bytes. *)
Definition shown_in_bytes (n : Z) : bool :=
  match DownloadTaskDict.format_size n with
  | Some s => s =? Py.str_of_int n ++ ".0 B"
  | None => false
  end.

(** Every character class of the pattern holds no white space. *)
Fixpoint solid (r : Re.regex) : Prop :=
  match r with
  | Re.Empty | Re.Eps => True
  | Re.Chr p => forall c, p c = true -> PyStr.isspace c = false
  | Re.Cat a b | Re.Alt a b => solid a /\ solid b
  | Re.Star a => solid a
  end.

(** The class [p] holds no white space, checked on the 256 characters. *)
Definition class_is_solid (p : ascii -> bool) : bool :=
  forallb (fun n => implb (p (ascii_of_nat n))
                      (negb (PyStr.isspace (ascii_of_nat n))))
    (seq 0 256).

(** The literal of [n] digits 1. *)
Fixpoint ones (n : nat) : string :=
  match n with
  | O => EmptyString
  | S k => String "1" (ones k)
  end.

End Extra.

(* ================================================================== *)
(** ** utils/validators.py: uploaded files *)

Module UrlListParser.

(** [s.split()]: the maximal runs of characters that are not white
    space.  [cur] is the run under construction, reversed. *)
Fixpoint split_whitespace_aux (s cur : string) : list string :=
  match s with
  | EmptyString => if PyStr.is_empty cur then [] else [PyStr.rev cur]
  | String c r =>
      if PyStr.isspace c then
        if PyStr.is_empty cur then split_whitespace_aux r EmptyString
        else PyStr.rev cur :: split_whitespace_aux r EmptyString
      else split_whitespace_aux r (String c cur)
  end.

Definition split_whitespace (s : string) : list string :=
  split_whitespace_aux s EmptyString.

(** The loop of [parse_url_file] over the lines. *)
Fixpoint parse_lines (lines : list string) : list string :=
  match lines with
  | [] => []
  | line :: rest =>
      let line := PyStr.strip line in
      if (PyStr.is_empty line || PyStr.startswith line "#")%bool
      then parse_lines rest
      else
        let url := match split_whitespace line with
                   | token :: _ => token
                   | [] => line
                   end in
        if PyStr.is_empty url then parse_lines rest
        else url :: parse_lines rest
  end.

(** [UrlValidator.parse_url_file] *)
Definition parse_url_file (content : string) : list string :=
  parse_lines (PyStr.split Re.newline content).

End UrlListParser.

Module FileValidator.

(** [ALLOWED_EXTENSIONS['url_list']] *)
Definition url_list_extensions : list string := [".txt"; ".urls"; ".list"].

Definition MAX_FILE_SIZE : Z := 10 * 1024 * 1024.

(** [sep.join(l)] *)
Fixpoint join (sep : string) (l : list string) : string :=
  match l with
  | [] => ""
  | x :: rest =>
      match rest with
      | [] => x
      | _ :: _ => x ++ sep ++ join sep rest
      end
  end.

(** [len(content.encode())]: the length of the UTF-8 encoding, one byte
    for a code point below 128 and two for the others below 256. *)
Fixpoint utf8_length (s : string) : Z :=
  match s with
  | EmptyString => 0
  | String c r => (if (PyStr.code c <? 128)%N then 1 else 2) + utf8_length r
  end.

(** [FileValidator.validate_torrent_file] *)
Definition validate_torrent_file (filename : string) (content : list Byte.byte)
  : bool * string :=
  if negb (PyStr.endswith (PyStr.lower filename) ".torrent")
  then (false, "File must have .torrent extension")
  else if (MAX_FILE_SIZE <? Z.of_nat (List.length content))%Z
  then (false, "File too large (max 10MB)")
  else if negb match content with
               | b :: _ => Ascii.eqb (ascii_of_byte b) "d"
               | [] => false
               end
  then (false, "Invalid torrent file format")
  else (true, "").

(** [FileValidator.validate_url_list_file] *)
Definition validate_url_list_file (filename content : string) : bool * string :=
  let allowed_exts := url_list_extensions in
  if negb (existsb (fun ext => PyStr.endswith (PyStr.lower filename) ext)
             allowed_exts)
  then (false, "File must have one of these extensions: "
               ++ join ", " allowed_exts)
  else if (MAX_FILE_SIZE <? utf8_length content)%Z
  then (false, "File too large (max 10MB)")
  else
    match UrlListParser.parse_url_file content with
    | [] => (false, "File contains no valid URLs")
    | _ :: _ => (true, "")
    end.

End FileValidator.

(* ================================================================== *)
(** ** Uploads: [add_torrent], [add_torrent_file], [add_url_list_file] *)

Module Base64.

Definition alphabet : string :=
  "ABCDEFGHIJKLMNOPQRSTUVWXYZabcdefghijklmnopqrstuvwxyz0123456789+/".

Definition digit (n : N) : ascii :=
  match String.get (N.to_nat n) alphabet with
  | Some c => c
  | None => "="%char
  end.

Definition value (b : Byte.byte) : N := PyStr.code (ascii_of_byte b).

(** [base64.b64encode(data).decode('utf-8')] *)
Fixpoint b64encode (data : list Byte.byte) : string :=
  match data with
  | [] => ""
  | a :: rest1 =>
      match rest1 with
      | [] =>
          String (digit (value a / 4))
            (String (digit (value a mod 4 * 16)) "==")
      | b :: rest2 =>
          match rest2 with
          | [] =>
              String (digit (value a / 4))
                (String (digit (value a mod 4 * 16 + value b / 16))
                   (String (digit (value b mod 16 * 4)) "="))
          | c :: rest =>
              String (digit (value a / 4))
                (String (digit (value a mod 4 * 16 + value b / 16))
                   (String (digit (value b mod 16 * 4 + value c / 64))
                      (String (digit (value c mod 64)) (b64encode rest))))
          end
      end
  end%N.

End Base64.

(** The dictionaries the upload operations return: the success of
    [add_torrent_file] names the file, every other answer is one of the
    facade's. *)
Inductive UploadEnvelope : Type :=
| TorrentAdded (task_id : Rpc.reply) (filename : string) (download_type : string)
| Answer (r : Envelope).

Module Uploads.

Section Facade.

Context {E : Type}.
Variable env : Env E.
Variable cfg : Settings.
Variable urlparse_path : string -> Py.result string.
Variable i18n_t : string -> string.

(** [Aria2Service.add_torrent] *)
Definition add_torrent (torrent_data : list Byte.byte) (options : Options)
  (w : World E) : option Rpc.reply * World E :=
  let torrent_b64 := Base64.b64encode torrent_data in
  let '(result, w) :=
    Aria2Service.rpc_call env cfg "aria2.addTorrent"
      [Rpc.PStr torrent_b64; Rpc.PStrs []; Rpc.POptions options] w in
  (match result with
   | Some r => if Rpc.truthy r then Some r else None
   | None => None
   end, w).

(** [Aria2Service.add_metalink] *)
Definition add_metalink (metalink_data : list Byte.byte) (options : Options)
  (w : World E) : option Rpc.reply * World E :=
  let metalink_b64 := Base64.b64encode metalink_data in
  let '(result, w) :=
    Aria2Service.rpc_call env cfg "aria2.addMetalink"
      [Rpc.PStr metalink_b64; Rpc.POptions options] w in
  (match result with
   | Some r => if Rpc.truthy r then Some r else None
   | None => None
   end, w).

(** [DownloadService.add_torrent_file] *)
Definition add_torrent_file (file_content : list Byte.byte) (filename : string)
  (options : option Options) (w : World E) : UploadEnvelope * World E :=
  let '(is_valid, error_msg) :=
    FileValidator.validate_torrent_file filename file_content in
  if negb is_valid then (Answer (Failure error_msg "INVALID_TORRENT"), w)
  else
    let download_options := DownloadService._prepare_bt_options cfg options in
    let '(gid, w) := add_torrent file_content download_options w in
    match gid with
    | Some gid => (TorrentAdded gid filename "torrent", w)
    | None =>
        (Answer (Failure (i18n_t "messages.aria2_unavailable") "ARIA2_ERROR"), w)
    end.

(** [DownloadService.add_url_list_file] *)
Definition add_url_list_file (file_content filename : string)
  (options : option Options) (w : World E) : Envelope * World E :=
  let '(is_valid, error_msg) :=
    FileValidator.validate_url_list_file filename file_content in
  if negb is_valid then (Failure error_msg "INVALID_FILE", w)
  else
    let urls := UrlListParser.parse_url_file file_content in
    match urls with
    | [] => (Failure (i18n_t "messages.no_urls_found") "NO_URLS", w)
    | _ :: _ =>
        DownloadService.add_batch_urls env cfg urlparse_path i18n_t urls
          options w
    end.

End Facade.

End Uploads.

(* ================================================================== *)
(** ** Statistics: [SizeFormatter], [get_stats], [get_statistics] *)

Module SizeFormatter.

(** [SizeFormatter.format_bytes]; [None] is the [OverflowError] of turning
    the int into a float. *)
Definition format_bytes (size_bytes : Z) : option string :=
  if (size_bytes =? 0)%Z then Some "0 B"
  else
    x <- DownloadTaskDict.int_to_float size_bytes ;;
    if (size_bytes <? 1024)%Z then Some (DownloadTaskDict.format_1f x ++ " B")
    else Some (DownloadTaskDict.format_units (PyFloat.fdiv x 1024)
                 ["KB"; "MB"; "GB"; "TB"]).

(** [SizeFormatter.format_speed] *)
Definition format_speed (speed_bytes : Z) : option string :=
  s <- format_bytes speed_bytes ;; Some (s ++ "/s").

End SizeFormatter.

(** The dictionary [Aria2Service.get_stats] returns. *)
Record Stats : Type := {
  stat_download_speed : Z;
  stat_upload_speed : Z;
  stat_active_downloads : Z;
  stat_waiting_downloads : Z;
  stat_stopped_downloads : Z;
  stat_formatted_download_speed : string;
  stat_formatted_upload_speed : string
}.

(** The dictionaries [DownloadService.get_statistics] returns; the second
    is the one of its exception handler. *)
Inductive StatisticsEnvelope : Type :=
| StatisticsOk (statistics : Stats)
| StatisticsFailure (error : string).

Module Statistics.

(** The dictionary returned when the engine gave no usable answer. *)
Definition no_stats : Stats :=
  {| stat_download_speed := 0;
     stat_upload_speed := 0;
     stat_active_downloads := 0;
     stat_waiting_downloads := 0;
     stat_stopped_downloads := 0;
     stat_formatted_download_speed := "0 B/s";
     stat_formatted_upload_speed := "0 B/s" |}.

(** The dictionary built from the engine's answer; [None] is any exception
    raised on the way ([ValueError] from [int], [OverflowError] from the
    formatter). *)
Definition read_stats (stats : Aria2Data) : option Stats :=
  download_speed <- DownloadTaskM.int_field (downloadSpeed stats) ;;
  upload_speed <- DownloadTaskM.int_field (uploadSpeed stats) ;;
  active_downloads <- DownloadTaskM.int_field (numActive stats) ;;
  waiting_downloads <- DownloadTaskM.int_field (numWaiting stats) ;;
  stopped_downloads <- DownloadTaskM.int_field (numStopped stats) ;;
  formatted_download_speed <- SizeFormatter.format_speed download_speed ;;
  formatted_upload_speed <- SizeFormatter.format_speed upload_speed ;;
  Some {| stat_download_speed := download_speed;
          stat_upload_speed := upload_speed;
          stat_active_downloads := active_downloads;
          stat_waiting_downloads := waiting_downloads;
          stat_stopped_downloads := stopped_downloads;
          stat_formatted_download_speed := formatted_download_speed;
          stat_formatted_upload_speed := formatted_upload_speed |}.

Section Facade.

Context {E : Type}.
Variable env : Env E.
Variable cfg : Settings.

(** [Aria2Service.get_stats]: an answer that is false, that is not an
    object ([stats.get] raises), or on which a conversion raises, gives the
    dictionary of zeros. *)
Definition get_stats (w : World E) : Stats * World E :=
  let '(stats, w) := Aria2Service.rpc_call env cfg "aria2.getGlobalStat" [] w in
  (match stats with
   | Some r =>
       if Rpc.truthy r then
         match r with
         | Rpc.RTask d =>
             match read_stats d with
             | Some s => s
             | None => no_stats
             end
         | _ => no_stats
         end
       else no_stats
   | None => no_stats
   end, w).

(** [DownloadService.get_statistics]; [get_stats] raises nothing, so the
    handler is never entered. *)
Definition get_statistics (w : World E) : StatisticsEnvelope * World E :=
  let '(stats, w) := get_stats w in
  (StatisticsOk stats, w).

End Facade.

End Statistics.

(* ================================================================== *)
(** * Properties *)

(** ** The reference instances at a few inputs *)

(** [int()] strips the white space of its own set, not the separators
    0x1C-0x1F, and reads at most 4300 digits. *)
Lemma int_of_str_literals :
  Py.int_of_str " 7 " = Some 7%Z
  /\ Py.int_of_str (String (ascii_of_N 133) "-7") = Some (-7)%Z
  /\ Py.int_of_str (String (ascii_of_N 28) "7") = None
  /\ Py.int_of_str "7 7" = None
  /\ Py.int_of_str (Extra.ones 4300) <> None
  /\ Py.int_of_str (Extra.ones 4301) = None.
Proof.
  repeat split; try (vm_compute; reflexivity).
  vm_compute. discriminate.
Qed.

(** The parser lets IPv6 and IPvFuture literals in brackets through and
    raises on anything else in brackets. *)
Lemma urlparse_path_bracketed_hosts :
  Urllib.urlparse_path "http://[::1]:80/x;p?q" = Py.Ok "/x"
  /\ Urllib.urlparse_path "http://[v1.x]/y" = Py.Ok "/y"
  /\ Urllib.urlparse_path "http://[abc]/x"
     = Py.Raise "'abc' does not appear to be an IPv4 or IPv6 address"
  /\ Urllib.urlparse_path "http://[1.2.3.4]/"
     = Py.Raise "An IPv4 address cannot be in brackets"
  /\ Urllib.urlparse_path "http://[vx]/"
     = Py.Raise "IPvFuture address is invalid"
  /\ Urllib.urlparse_path "http://a[::1]/" = Py.Raise "Invalid IPv6 URL"
  /\ Urllib.urlparse_path "http://[" = Py.Raise "Invalid IPv6 URL".
Proof. vm_compute. repeat split; reflexivity. Qed.

(** ** Strings *)

Section StringFacts.

Lemma prefix_cons (a b : ascii) (p s : string) :
  prefix (String a p) (String b s) = (Ascii.eqb a b && prefix p s)%bool.
Proof.
  simpl. destruct (ascii_dec a b) as [->|n].
  - now rewrite Ascii.eqb_refl.
  - apply Ascii.eqb_neq in n. now rewrite n.
Qed.

Lemma prefix_app (p s : string) :
  prefix p s = true <-> exists r, s = p ++ r.
Proof.
  revert s. induction p as [|a p IH]; intros s.
  - split; [intros _; exists s; reflexivity | intros _; now destruct s].
  - destruct s as [|b s].
    + split; [discriminate | intros [r H]; discriminate].
    + rewrite prefix_cons, andb_true_iff, Ascii.eqb_eq, IH. split.
      * intros [-> [r ->]]. now exists r.
      * intros [r H]. injection H as -> ->. split; [reflexivity | now exists r].
Qed.

Lemma contains_app (sub s : string) :
  PyStr.contains sub s = true <-> exists a b, s = a ++ sub ++ b.
Proof.
  induction s as [|c s IH].
  - cbn [PyStr.contains]. rewrite orb_false_r, prefix_app. split.
    + intros [r H]. exists EmptyString, r. exact H.
    + intros [a [b H]]. destruct a; [now exists b | discriminate].
  - cbn [PyStr.contains]. rewrite orb_true_iff, prefix_app, IH. split.
    + intros [[r H] | [a [b H]]].
      * exists EmptyString, r. exact H.
      * exists (String c a), b. simpl. now rewrite H.
    + intros [a [b H]]. destruct a as [|c' a].
      * left. now exists b.
      * right. injection H as _ H. now exists a, b.
Qed.

Lemma prefix_lower (p s : string) :
  Spec.lower_fixed p = true -> prefix p (PyStr.lower s) = PyStr.prefix_ci p s.
Proof.
  revert s. induction p as [|a p IH]; intros s Hp.
  - now destruct s.
  - simpl in Hp. apply andb_true_iff in Hp as [Ha Hp].
    apply Ascii.eqb_eq in Ha.
    destruct s as [|b s]; [reflexivity|].
    cbn [PyStr.lower]. rewrite prefix_cons. cbn [PyStr.prefix_ci].
    unfold PyStr.eqb_ci. rewrite Ha, (IH s Hp). reflexivity.
Qed.

Lemma rev_onto_lower (s acc : string) :
  PyStr.rev_onto (PyStr.lower s) (PyStr.lower acc)
  = PyStr.lower (PyStr.rev_onto s acc).
Proof.
  revert acc. induction s as [|c s IH]; intros acc; [reflexivity|].
  simpl. apply (IH (String c acc)).
Qed.

Lemma rev_lower (s : string) :
  PyStr.rev (PyStr.lower s) = PyStr.lower (PyStr.rev s).
Proof. exact (rev_onto_lower s EmptyString). Qed.

Lemma endswith_lower (p s : string) :
  Spec.lower_fixed (PyStr.rev p) = true ->
  PyStr.endswith (PyStr.lower s) p = PyStr.suffix_ci p s.
Proof.
  intros Hp. unfold PyStr.endswith, PyStr.suffix_ci.
  rewrite rev_lower. now apply prefix_lower.
Qed.

End StringFacts.

(** ** Kind detection *)

(** C6. Kind detection tries, with case ignored and in this order, the
    prefixes [magnet:], [https:], [http:], [ftps:], [ftp:], then the suffix
    [.torrent]; the first test that holds decides, and every other locator,
    the empty one included, is of kind HTTP. *)
Theorem detect_download_type_precedence :
  (forall url, DownloadTaskM.detect_download_type url = Spec.kind_of url)
  /\ DownloadTaskM.detect_download_type "" = HTTP
  /\ DownloadTaskM.detect_download_type "MaGnEt:?xt=urn:btih:abc.torrent" = MAGNET
  /\ DownloadTaskM.detect_download_type "HTTPS://example.com/a.torrent" = HTTPS
  /\ DownloadTaskM.detect_download_type "ftps://example.com/" = FTPS
  /\ DownloadTaskM.detect_download_type "Ubuntu.TORRENT" = TORRENT
  /\ DownloadTaskM.detect_download_type "example.com/file.zip" = HTTP.
Proof.
  split; [|repeat split; reflexivity].
  intros url. unfold DownloadTaskM.detect_download_type, Spec.kind_of.
  destruct url as [|c url]; [reflexivity|].
  cbn [PyStr.is_empty Spec.first_match Spec.detection_rules].
  unfold PyStr.startswith.
  rewrite !prefix_lower by reflexivity.
  rewrite endswith_lower by reflexivity.
  reflexivity.
Qed.

(** ** Magnet validation *)

Lemma first_missing_param_xt (url : string) :
  PyStr.contains "xt=" url = true ->
  UrlValidator.first_missing_param ["xt"] url = None.
Proof. intros H. simpl. now rewrite H. Qed.

(** C7. Magnet validation accepts exactly the strings that start with
    [magnet:] and contain [xt=]; without the prefix the answer is the
    wrong-format message, with the prefix and without [xt=] it is the
    missing-hash message, and the two messages differ.  [UrlInfo.validate_url]
    gives the same answers on every non-empty locator of kind magnet. *)
Theorem validate_magnet_exact (url : string) :
  (UrlValidator.validate_magnet url = (true, "")
   <-> (exists rest, url = "magnet:" ++ rest)
       /\ (exists a b, url = a ++ "xt=" ++ b))
  /\ (fst (UrlValidator.validate_magnet url) = true
      -> UrlValidator.validate_magnet url = (true, ""))
  /\ ((~ exists rest, url = "magnet:" ++ rest)
      -> UrlValidator.validate_magnet url = (false, Spec.wrong_format_message))
  /\ ((exists rest, url = "magnet:" ++ rest)
      -> (~ exists a b, url = a ++ "xt=" ++ b)
      -> UrlValidator.validate_magnet url = (false, Spec.missing_hash_message))
  /\ Spec.wrong_format_message <> Spec.missing_hash_message
  /\ (url <> ""
      -> UrlInfoM.validate_url url MAGNET = UrlValidator.validate_magnet url).
Proof.
  unfold UrlValidator.validate_magnet, UrlInfoM.validate_url, PyStr.startswith.
  rewrite <- (prefix_app "magnet:" url), <- (contains_app "xt=" url).
  destruct (prefix "magnet:" url) eqn:Hp;
    destruct (PyStr.contains "xt=" url) eqn:Hc; cbn [negb];
    try rewrite (first_missing_param_xt url Hc).
  all: repeat split; try discriminate; try tauto; try congruence.
  all: try (intros [H1 H2]; discriminate).
  all: try (intros Hne; destruct url; [congruence | reflexivity]).
Qed.

(** ** Floats: rounding stays within integer bounds *)

Section FloatBounds.

Local Open Scope Z_scope.

Lemma round_half_even_nonneg (a b : Z) :
  0 <= a -> 0 < b -> 0 <= PyFloat.round_half_even a b.
Proof.
  intros Ha Hb. unfold PyFloat.round_half_even.
  assert (0 <= a / b) by (apply Z.div_pos; lia).
  destruct (2 * (a mod b) ?= b); [destruct (Z.even (a / b))| |]; lia.
Qed.

Lemma round_half_even_le (a b N : Z) :
  0 < b -> a <= N * b -> PyFloat.round_half_even a b <= N.
Proof.
  intros Hb Ha. unfold PyFloat.round_half_even.
  pose proof (Z.div_mod a b ltac:(lia)) as Hdm.
  pose proof (Z.mod_pos_bound a b Hb) as Hr.
  assert (Hq : a / b <= N) by (apply Z.div_le_upper_bound; lia).
  assert (Hlt : 0 < a mod b -> a / b < N) by nia.
  destruct (2 * (a mod b) ?= b) eqn:Hc.
  - apply Z.compare_eq in Hc. destruct (Z.even (a / b)); lia.
  - lia.
  - apply Z.compare_gt_iff in Hc. lia.
Qed.

Lemma ilog2_le (n d : positive) (j : Z) :
  0 <= j -> Zpos n <= 2 ^ j * Zpos d -> PyFloat.ilog2 n d <= j.
Proof.
  intros Hj H. unfold PyFloat.ilog2.
  assert (Hk : Z.log2 (Zpos n) - Z.log2 (Zpos d) <= j).
  { pose proof (Z.log2_le_mono _ _ H) as Hm.
    rewrite Z.mul_comm, Z.log2_mul_pow2 in Hm by lia. lia. }
  destruct (PyFloat.pow2_le _ n d); lia.
Qed.

Lemma ulp_exp_nonpos (n d : positive) (K : Z) :
  0 <= K <= 2 ^ 52 -> Zpos n <= K * Zpos d -> PyFloat.ulp_exp n d <= 0.
Proof.
  intros HK H. unfold PyFloat.ulp_exp.
  assert (PyFloat.ilog2 n d <= 52) by (apply ilog2_le; nia).
  lia.
Qed.

Lemma rnd_pos_bounds (n d : positive) (K : Z) :
  0 <= K <= 2 ^ 52 -> Zpos n <= K * Zpos d ->
  (0 <= PyFloat.rnd_pos n d /\ PyFloat.rnd_pos n d <= inject_Z K)%Q.
Proof.
  intros HK H. pose proof (ulp_exp_nonpos n d K HK H) as He.
  unfold PyFloat.rnd_pos, PyFloat.significand, PyFloat.ldexp.
  set (e := PyFloat.ulp_exp n d) in *.
  destruct (0 <=? e) eqn:Hpos.
  - apply Z.leb_le in Hpos. assert (e = 0) as -> by lia.
    rewrite Z.pow_0_r, !Z.mul_1_r.
    split; [change 0%Q with (inject_Z 0)|]; rewrite <- Zle_Qle.
    + apply round_half_even_nonneg; lia.
    + apply round_half_even_le; lia.
  - apply Z.leb_gt in Hpos.
    assert (HP : 0 < 2 ^ (- e)) by (apply Z.pow_pos_nonneg; lia).
    set (P := 2 ^ (- e)) in *.
    assert (H0 : 0 <= PyFloat.round_half_even (Zpos n * P) (Zpos d))
      by (apply round_half_even_nonneg; nia).
    assert (H1 : PyFloat.round_half_even (Zpos n * P) (Zpos d) <= K * P)
      by (apply round_half_even_le; nia).
    rewrite !Qred_correct. unfold Qle. cbn [Qnum Qden inject_Z].
    rewrite Z2Pos.id by exact HP. lia.
Qed.

(** A value between 0 and an integer [K] of at most 52 bits rounds to a
    value in the same interval. *)
Lemma rnd_bounds (x : Q) (K : Z) :
  0 <= K <= 2 ^ 52 -> (0 <= x)%Q -> (x <= inject_Z K)%Q ->
  (0 <= PyFloat.rnd x /\ PyFloat.rnd x <= inject_Z K)%Q.
Proof.
  intros HK H0 H1. destruct x as [[|n|n] d]; unfold PyFloat.rnd; cbn [Qnum Qden].
  - split; [apply Qle_refl | change 0%Q with (inject_Z 0); rewrite <- Zle_Qle; lia].
  - apply rnd_pos_bounds; [exact HK|].
    unfold Qle in H1. cbn [Qnum Qden inject_Z] in H1. lia.
  - unfold Qle in H0. cbn in H0. lia.
Qed.

Lemma small_does_not_overflow (x : Q) :
  (0 <= x)%Q -> (x <= 100)%Q -> PyFloat.overflows x = false.
Proof.
  intros H0 H1. unfold PyFloat.overflows.
  destruct (Qle_bool (inject_Z (2 ^ 1024)) (Qabs x)) eqn:Hb; [|reflexivity].
  apply Qle_bool_iff in Hb. rewrite (Qabs_pos x H0) in Hb.
  assert (Hlt : (100 < inject_Z (2 ^ 1024))%Q).
  { change 100%Q with (inject_Z 100). rewrite <- Zlt_Qlt.
    apply Z.lt_le_trans with (2 ^ 7); [reflexivity|].
    apply Z.pow_le_mono_r; lia. }
  exfalso. apply (Qlt_irrefl 100).
  eapply Qlt_le_trans; [exact Hlt|]. eapply Qle_trans; eassumption.
Qed.

End FloatBounds.

(** ** Reconciliation *)

Ltac destruct_binds H :=
  repeat match type of H with
         | context [match ?x with _ => _ end] =>
             destruct x eqn:?; try discriminate H
         end.

(** What a successful reconciliation tells about the task it returns. *)
Lemma from_aria2_response_inv (d : Aria2Data) (t : DownloadTask) :
  DownloadTaskM.from_aria2_response d = Some t ->
  DownloadTaskM.int_field (totalLength d) = Some (task_total_length t)
  /\ DownloadTaskM.int_field (completedLength d) = Some (task_completed_length t)
  /\ DownloadTaskM.int_field (downloadSpeed d) = Some (task_download_speed t)
  /\ (exists p, DownloadTaskM.raw_progress (task_total_length t)
                  (task_completed_length t) = Some p
                /\ task_progress t = PyFloat.round1 p)
  /\ DownloadTaskM.calculate_eta (task_total_length t) (task_completed_length t)
       (task_download_speed t) = Some (task_eta t)
  /\ task_download_type t = DownloadTaskM.detect_download_type (task_url t).
Proof.
  unfold DownloadTaskM.from_aria2_response, Py.bind. intros H.
  destruct (hd_error _); [|discriminate].
  destruct (DownloadTaskM.int_field (totalLength d)) as [total|]; [|discriminate].
  destruct (DownloadTaskM.int_field (completedLength d)) as [completed|]; [|discriminate].
  destruct (DownloadTaskM.int_field (downloadSpeed d)) as [speed|]; [|discriminate].
  destruct (DownloadTaskM.int_field (uploadSpeed d)); [|discriminate].
  destruct (DownloadTaskM.raw_progress total completed) as [p|] eqn:Hp; [|discriminate].
  destruct (DownloadTaskM.calculate_eta total completed speed) eqn:Heta; [|discriminate].
  destruct (DownloadTaskM.int_field (connections d)); [|discriminate].
  destruct (DownloadTaskM.int_field (numSeeders d)); [|discriminate].
  destruct (DownloadTaskM.int_field (numLeechers d)); [|discriminate].
  injection H as <-. cbn.
  repeat split; try reflexivity; try assumption.
  exists p. split; [assumption | reflexivity].
Qed.

Lemma round1_zero : PyFloat.round1 (PyFloat.Fin 0) = PyFloat.Fin 0.
Proof. reflexivity. Qed.

Lemma Qmult_100_bounds (q : Q) :
  (0 <= q)%Q -> (q <= 1)%Q -> (0 <= q * 100 /\ q * 100 <= 100)%Q.
Proof.
  intros H0 H1. unfold Qle in *. destruct q as [n d].
  cbn [Qnum Qden Qmult inject_Z] in *. split; nia.
Qed.

Lemma round1_percentage (r : Q) :
  (0 <= r)%Q -> (r <= 100)%Q ->
  Spec.percentage (PyFloat.round1 (PyFloat.Fin r)).
Proof.
  intros H0 H1. unfold Spec.percentage, PyFloat.round1, PyFloat.le.
  set (k := PyFloat.round_half_even (Qnum r * 10) (QDen r)).
  assert (Hk : (0 <= k <= 1000)%Z).
  { unfold Qle in H0, H1. cbn [Qnum Qden inject_Z] in H0, H1. subst k. split.
    - apply round_half_even_nonneg; lia.
    - apply round_half_even_le; lia. }
  change 100%Q with (inject_Z 100).
  apply rnd_bounds.
  - split; [lia | apply Z.lt_le_incl; reflexivity].
  - unfold Qle. cbn. lia.
  - unfold Qle. cbn. lia.
Qed.

Lemma int_true_div_unit (completed total : Z) (q : Q) :
  (0 <= completed <= total)%Z ->
  PyFloat.int_true_div completed total = Some q ->
  (0 <= q /\ q <= 1)%Q.
Proof.
  intros Hc H. unfold PyFloat.int_true_div in H.
  destruct total as [|d|d]; [discriminate | | lia].
  destruct (PyFloat.overflows _); [discriminate|]. injection H as <-.
  change 1%Q with (inject_Z 1). apply rnd_bounds.
  - split; [lia | apply Z.lt_le_incl; reflexivity].
  - unfold Qle. cbn. lia.
  - unfold Qle. cbn. lia.
Qed.

Lemma raw_progress_percentage (completed total : Z) (p : PyFloat.pyfloat) :
  (total <= 0 \/ 0 <= completed <= total)%Z ->
  DownloadTaskM.raw_progress total completed = Some p ->
  Spec.percentage (PyFloat.round1 p).
Proof.
  intros Hc H. unfold DownloadTaskM.raw_progress, Py.bind in H.
  destruct (Z.ltb_spec 0 total) as [Hpos|Hneg].
  - assert (Hc' : (0 <= completed <= total)%Z) by lia.
    destruct (PyFloat.int_true_div completed total) as [q|] eqn:Hq; [|discriminate].
    injection H as <-.
    destruct (int_true_div_unit _ _ _ Hc' Hq) as [Hq0 Hq1].
    destruct (Qmult_100_bounds q Hq0 Hq1) as [Hm0 Hm1].
    change 100%Q with (inject_Z 100) in Hm1.
    destruct (rnd_bounds (q * 100) 100
                ltac:(split; [lia | apply Z.lt_le_incl; reflexivity]) Hm0 Hm1)
      as [Hr0 Hr1].
    unfold PyFloat.fmul.
    rewrite (small_does_not_overflow _ Hr0 Hr1).
    apply round1_percentage; assumption.
  - injection H as <-. rewrite round1_zero.
    split; unfold PyFloat.le, Qle; cbn; lia.
Qed.

(** C4 (amended). For every raw engine record whose reconciliation yields a
    task with [total_length <= 0] or [0 <= completed_length <= total_length],
    the progress of the task lies between 0.0 and 100.0 inclusive: without a
    positive total the progress is 0.0 whatever the completed length is,
    and with one the three roundings on the way keep the quotient within
    the bounds. *)
Theorem progress_within_bounds (d : Aria2Data) (t : DownloadTask) :
  DownloadTaskM.from_aria2_response d = Some t ->
  (task_total_length t <= 0
   \/ 0 <= task_completed_length t <= task_total_length t)%Z ->
  Spec.percentage (task_progress t)
  /\ ((task_total_length t <= 0)%Z -> task_progress t = PyFloat.Fin 0).
Proof.
  intros H Hc.
  destruct (from_aria2_response_inv d t H) as (_ & _ & _ & (p & Hp & ->) & _).
  split; [exact (raw_progress_percentage _ _ p Hc Hp)|].
  intros Hneg. unfold DownloadTaskM.raw_progress in Hp.
  destruct (Z.ltb_spec 0 (task_total_length t)); [lia|].
  injection Hp as <-. apply round1_zero.
Qed.

Lemma progress_within_bounds_witness :
  (exists t,
      DownloadTaskM.from_aria2_response (Spec.record_with "200" "50" "10") = Some t
      /\ Spec.percentage (task_progress t))
  /\ (exists t,
         DownloadTaskM.from_aria2_response (Spec.record_with "0" "500" "10") = Some t
         /\ task_progress t = PyFloat.Fin 0).
Proof.
  split.
  - eexists. split; [reflexivity|].
    refine (proj1 (progress_within_bounds (Spec.record_with "200" "50" "10") _
                     eq_refl _)).
    right. cbn. lia.
  - eexists. split; [reflexivity|].
    refine (proj2 (progress_within_bounds (Spec.record_with "0" "500" "10") _
                     eq_refl _) _).
    + left. cbn. lia.
    + cbn. lia.
Defined.

(** C4 (as stated) fails: with [totalLength = 100] and
    [completedLength = 200] the reconciled progress is 200.0. *)
Lemma progress_exceeds_100_when_overshot :
  option_map task_progress
    (DownloadTaskM.from_aria2_response (Spec.record_with "100" "200" "0"))
  = Some (PyFloat.Fin 200)
  /\ ~ Spec.percentage (PyFloat.Fin 200).
Proof.
  split; [reflexivity|].
  intros [_ H]. unfold PyFloat.le, Qle in H. cbn in H. lia.
Qed.

Lemma round_half_even_nearest (a b : Z) :
  (0 < b)%Z ->
  let r := PyFloat.round_half_even a b in
  (Z.abs (2 * a - 2 * r * b) <= b)%Z
  /\ (Z.abs (2 * a - 2 * r * b) = b -> Z.even r = true)%Z.
Proof.
  intros Hb. cbv zeta. unfold PyFloat.round_half_even.
  pose proof (Z.div_mod a b ltac:(lia)) as Hdm.
  pose proof (Z.mod_pos_bound a b Hb) as Hr.
  set (q := (a / b)%Z) in *. set (m := (a mod b)%Z) in *.
  clearbody q m.
  assert (H0 : (2 * a - 2 * q * b = 2 * m)%Z) by (rewrite Hdm; ring).
  assert (H1 : (2 * a - 2 * (q + 1) * b = 2 * m - 2 * b)%Z) by (rewrite Hdm; ring).
  destruct (Z.compare_spec (2 * m) b) as [Hc|Hc|Hc].
  - destruct (Z.even q) eqn:He.
    + rewrite H0. split; [lia | intros _; exact He].
    + rewrite H1. split; [lia|]. intros _. rewrite Z.even_add, He. reflexivity.
  - rewrite H0. split; [lia | intros H; exfalso; lia].
  - rewrite H1. split; [lia | intros H; exfalso; lia].
Qed.

Lemma tenth_in_Z (x : Q) (k : Z) :
  Spec.nearest_tenth x k
  <-> (Z.abs (2 * (Qnum x * 10) - 2 * k * QDen x) <= QDen x)%Z
      /\ (Z.abs (2 * (Qnum x * 10) - 2 * k * QDen x) = QDen x -> Z.even k = true)%Z.
Proof.
  unfold Spec.nearest_tenth. destruct x as [n d].
  unfold Qminus, Qplus, Qmult, Qopp, inject_Z, Qabs, Qle, Qeq. cbn [Qnum Qden].
  rewrite !Pos.mul_1_r, !Z.mul_1_r, !Z.mul_1_l.
  split; intros [H1 H2]; (split; [lia | intros H; apply H2; lia]).
Qed.

Lemma round1_rounds (x : PyFloat.pyfloat) :
  Spec.rounded_to_one_decimal x (PyFloat.round1 x).
Proof.
  destruct x as [q|s]; [|reflexivity]. cbn [PyFloat.round1 Spec.rounded_to_one_decimal].
  exists (PyFloat.round_half_even (Qnum q * 10) (QDen q)). split; [|reflexivity].
  apply tenth_in_Z. apply round_half_even_nearest. lia.
Qed.

Lemma nearest_tenth_unique (x : Q) (k k' : Z) :
  Spec.nearest_tenth x k -> Spec.nearest_tenth x k' -> k = k'.
Proof.
  rewrite !tenth_in_Z. set (N := (Qnum x * 10)%Z). set (D := QDen x).
  assert (HD : (0 < D)%Z) by (subst D; lia).
  intros [H1 E1] [H2 E2].
  assert (Hclose : (k' = k \/ k' = k + 1 \/ k' = k - 1)%Z) by nia.
  destruct Hclose as [->|[->| ->]]; [reflexivity | |]; exfalso.
  - assert (T1 : (Z.abs (2 * N - 2 * k * D) = D)%Z) by nia.
    assert (T2 : (Z.abs (2 * N - 2 * (k + 1) * D) = D)%Z) by nia.
    specialize (E1 T1). specialize (E2 T2).
    rewrite Z.even_add, E1 in E2. discriminate E2.
  - assert (T1 : (Z.abs (2 * N - 2 * k * D) = D)%Z) by nia.
    assert (T2 : (Z.abs (2 * N - 2 * (k - 1) * D) = D)%Z) by nia.
    specialize (E1 T1). specialize (E2 T2).
    rewrite Z.even_sub, E1 in E2. discriminate E2.
Qed.

(** C8. Reconciliation computes the progress as [completed/total*100]
    rounded to one decimal whenever [total > 0]: the quotient is the float
    nearest to [completed/total], its product by 100 is a float again, and
    the progress is the float nearest to the one-decimal number nearest to
    that product (the even tenth on a tie), which determines it.  Whenever
    [total] is not positive the progress is exactly 0.0 and no division
    takes place; [ProgressFormatter.format_progress] computes the same
    value.  With [total = 200] and [completed = 50] the progress is 25.0,
    with both 0 it is 0.0; with [total = 3] and [completed = 1] it is 33.3,
    which the unrounded product is not. *)
Theorem progress_computation :
  (forall d t,
      DownloadTaskM.from_aria2_response d = Some t ->
      Spec.progress_of (task_completed_length t) (task_total_length t)
      = Some (task_progress t))
  /\ (forall d t,
         DownloadTaskM.from_aria2_response d = Some t ->
         (0 < task_total_length t)%Z ->
         let quotient :=
           PyFloat.rnd (task_completed_length t # Z.to_pos (task_total_length t)) in
         PyFloat.int_true_div (task_completed_length t) (task_total_length t)
         = Some quotient
         /\ Spec.rounded_to_one_decimal (PyFloat.fmul quotient 100)
              (task_progress t))
  /\ (forall x k k',
         Spec.nearest_tenth x k -> Spec.nearest_tenth x k' -> k = k')
  /\ (forall completed total,
         (total <= 0)%Z ->
         DownloadTaskM.raw_progress total completed = Some (PyFloat.Fin 0)
         /\ Spec.progress_of completed total = Some (PyFloat.Fin 0))
  /\ (forall completed total,
         ProgressFormatter.format_progress completed total
         = Spec.progress_of completed total)
  /\ option_map task_progress
       (DownloadTaskM.from_aria2_response (Spec.record_with "200" "50" "0"))
     = Some (PyFloat.Fin 25)
  /\ option_map task_progress
       (DownloadTaskM.from_aria2_response (Spec.record_with "0" "0" "0"))
     = Some (PyFloat.Fin 0)
  /\ option_map task_progress
       (DownloadTaskM.from_aria2_response (Spec.record_with "3" "1" "0"))
     = Some (PyFloat.Fin (PyFloat.rnd (333 # 10)))
  /\ DownloadTaskM.raw_progress 3 1
     <> Some (PyFloat.Fin (PyFloat.rnd (333 # 10))).
Proof.
  split; [|split; [|split; [|split; [|split; [|split; [|split; [|split]]]]]]].
  - intros d t H.
    destruct (from_aria2_response_inv d t H) as (_ & _ & _ & (p & Hp & ->) & _).
    unfold DownloadTaskM.raw_progress, Py.bind in Hp. unfold Spec.progress_of.
    destruct (0 <? task_total_length t)%Z.
    + destruct (PyFloat.int_true_div _ _); [|discriminate].
      injection Hp as <-. reflexivity.
    + injection Hp as <-. now rewrite round1_zero.
  - intros d t H Hpos. cbv zeta.
    destruct (from_aria2_response_inv d t H) as (_ & _ & _ & (p & Hp & ->) & _).
    unfold DownloadTaskM.raw_progress, Py.bind in Hp.
    apply Z.ltb_lt in Hpos as Hb. rewrite Hb in Hp.
    destruct (PyFloat.int_true_div _ _) as [q|] eqn:Hq; [|discriminate].
    injection Hp as <-.
    unfold PyFloat.int_true_div in Hq.
    destruct (task_total_length t) as [|total|total]; [lia | | lia].
    cbv zeta in Hq. destruct (PyFloat.overflows _); [discriminate|].
    injection Hq as <-. cbn [Z.to_pos].
    split; [reflexivity | apply round1_rounds].
  - exact nearest_tenth_unique.
  - intros completed total Ht.
    unfold DownloadTaskM.raw_progress, Spec.progress_of.
    destruct (0 <? total)%Z eqn:Hlt; [apply Z.ltb_lt in Hlt; lia|].
    split; reflexivity.
  - intros completed total.
    unfold ProgressFormatter.format_progress, Spec.progress_of, Py.bind.
    rewrite Z.leb_antisym. destruct (0 <? total)%Z; cbn [negb].
    + now destruct (PyFloat.int_true_div completed total).
    + reflexivity.
  - vm_compute. reflexivity.
  - vm_compute. reflexivity.
  - vm_compute. reflexivity.
  - intros H. vm_compute in H. discriminate H.
Qed.

(** ** Estimated time of arrival *)

(** C3 (amended). The derived ETA is ["unknown"] for (total=1000,
    completed=0, speed=0) and for (total=1000, completed=1000, speed=10),
    as it is whenever the speed is not positive or nothing remains; for
    (total=1000, completed=0, speed=10), 100 seconds remain and the
    reconciler renders them in whole minutes, ["1m"]
    ([TimeFormatter.format_eta] renders them as ["1m 40s"]). *)
Theorem eta_examples :
  DownloadTaskM.calculate_eta 1000 0 0 = Some "unknown"
  /\ DownloadTaskM.calculate_eta 1000 1000 10 = Some "unknown"
  /\ DownloadTaskM.calculate_eta 1000 0 10 = Some "1m"
  /\ option_map task_eta
       (DownloadTaskM.from_aria2_response (Spec.record_with "1000" "0" "10"))
     = Some "1m"
  /\ TimeFormatter.format_eta 1000 0 0 = Some "unknown"
  /\ TimeFormatter.format_eta 1000 1000 10 = Some "unknown"
  /\ TimeFormatter.format_eta 1000 0 10 = Some "1m 40s"
  /\ (forall total completed speed,
         (speed <= 0 \/ total <= completed)%Z ->
         DownloadTaskM.calculate_eta total completed speed = Some "unknown"
         /\ TimeFormatter.format_eta total completed speed = Some "unknown").
Proof.
  repeat (split; [reflexivity|]).
  intros total completed speed H.
  unfold DownloadTaskM.calculate_eta, TimeFormatter.format_eta.
  assert (((speed <=? 0) || (total <=? completed))%Z%bool = true) as ->.
  { apply orb_true_iff. destruct H; [left | right]; now apply Z.leb_le. }
  split; reflexivity.
Qed.

(** C3 (as stated) fails: for (total=1000, completed=0, speed=10) the
    derived ETA is not ["100s"]. *)
Lemma eta_of_100_seconds_is_not_100s :
  DownloadTaskM.calculate_eta 1000 0 10 <> Some "100s"
  /\ TimeFormatter.format_eta 1000 0 10 <> Some "100s"
  /\ option_map task_eta
       (DownloadTaskM.from_aria2_response (Spec.record_with "1000" "0" "10"))
     <> Some "100s".
Proof.
  repeat split; intros H; vm_compute in H; discriminate H.
Qed.

(** ** The gateway *)

Section GatewayFacts.

Context {E : Type}.
Variable env : Env E.
Variable cfg : Settings.
Variable aria2_config : list (string * option string).

Lemma rpc_only_refl (w : World E) : Spec.rpc_only w w.
Proof. exists []. split; [now rewrite app_nil_r | constructor]. Qed.

Lemma rpc_only_trans (w1 w2 w3 : World E) :
  Spec.rpc_only w1 w2 -> Spec.rpc_only w2 w3 -> Spec.rpc_only w1 w3.
Proof.
  intros [a [Ha Fa]] [b [Hb Fb]]. exists (List.app a b). split.
  - now rewrite Hb, Ha, app_assoc.
  - apply Forall_app. now split.
Qed.

Lemma rpc_call_trace (method : string) (params : list Rpc.param) (w : World E) :
  trace (snd (Aria2Service.rpc_call env cfg method params w))
  = List.app (trace w) [EvRpc method (Aria2Service.with_token cfg params)].
Proof.
  unfold Aria2Service.rpc_call.
  destruct (exchange env (engine w) method _) as [out e].
  destruct out as [ | | |[|] r]; reflexivity.
Qed.

Lemma rpc_call_rpc_only (method : string) (params : list Rpc.param) (w : World E) :
  Spec.rpc_only w (snd (Aria2Service.rpc_call env cfg method params w)).
Proof.
  eexists. split; [apply rpc_call_trace|]. repeat constructor.
Qed.

Lemma start_cycles_app (a b : list Event) :
  Spec.start_cycles (List.app a b)
  = (Spec.start_cycles a + Spec.start_cycles b)%nat.
Proof.
  induction a as [|ev a IH]; [reflexivity|].
  destruct ev; simpl; rewrite IH; reflexivity.
Qed.

Lemma launches_app (a b : list Event) :
  Spec.launches (List.app a b) = (Spec.launches a + Spec.launches b)%nat.
Proof.
  induction a as [|ev a IH]; [reflexivity|].
  destruct ev; simpl; rewrite IH; reflexivity.
Qed.

Lemma polls_app (a b : list Event) :
  Spec.polls (List.app a b) = (Spec.polls a + Spec.polls b)%nat.
Proof.
  induction a as [|ev a IH]; [reflexivity|].
  destruct ev; simpl; rewrite IH; reflexivity.
Qed.

Lemma rpc_events_count (evs : list Event) :
  Forall Spec.is_rpc evs ->
  Spec.start_cycles evs = O /\ Spec.launches evs = O /\ Spec.polls evs = O.
Proof.
  induction 1 as [|ev evs Hev _ IH]; [repeat split|].
  destruct ev; try contradiction. exact IH.
Qed.

(** Remote calls start nothing, launch nothing and never wait. *)
Lemma rpc_only_counts (w w' : World E) :
  Spec.rpc_only w w' ->
  Spec.start_cycles (trace w') = Spec.start_cycles (trace w)
  /\ Spec.launches (trace w') = Spec.launches (trace w)
  /\ Spec.polls (trace w') = Spec.polls (trace w).
Proof.
  intros [evs [-> F]]. destruct (rpc_events_count evs F) as (H1 & H2 & H3).
  rewrite start_cycles_app, launches_app, polls_app, H1, H2, H3.
  repeat split; apply Nat.add_0_r.
Qed.

Lemma is_daemon_running_rpc_only (w : World E) :
  Spec.rpc_only w (snd (Aria2Service.is_daemon_running env cfg w)).
Proof.
  unfold Aria2Service.is_daemon_running.
  pose proof (rpc_call_rpc_only "aria2.getVersion" [] w) as H.
  destruct (Aria2Service.rpc_call env cfg "aria2.getVersion" [] w). exact H.
Qed.

Lemma build_aria2_command_raises :
  Aria2Service._build_aria2_command cfg aria2_config = None.
Proof. reflexivity. Qed.

(** [start_daemon] never reaches the launch: its trace is the start
    marker, the first probe, and at most the two file-system steps. *)
Lemma start_daemon_trace (w : World E) :
  let r := Aria2Service.start_daemon env cfg aria2_config w in
  fst r = fst (Aria2Service.is_daemon_running env cfg
                 (Aria2Service.log EvStartDaemon w))
  /\ exists tail,
      trace (snd r)
      = List.app (trace w)
          (EvStartDaemon
             :: EvRpc "aria2.getVersion" (Aria2Service.with_token cfg [])
             :: tail)
      /\ (tail = [] \/ tail = [EvMkdir] \/ tail = [EvMkdir; EvTouch]).
Proof.
  unfold Aria2Service.start_daemon. rewrite build_aria2_command_raises.
  unfold Aria2Service.is_daemon_running.
  pose proof (rpc_call_trace "aria2.getVersion" []
                (Aria2Service.log EvStartDaemon w)) as Ht.
  destruct (Aria2Service.rpc_call env cfg "aria2.getVersion" []
              (Aria2Service.log EvStartDaemon w)) as [response w1].
  cbn [fst snd] in *. unfold Aria2Service.log in Ht. cbn [trace] in Ht.
  rewrite <- app_assoc in Ht. cbn [List.app] in Ht.
  destruct response as [r|]; cbn [fst snd].
  - split; [reflexivity|]. exists []. split; [exact Ht | now left].
  - unfold Aria2Service.log. cbn [engine trace].
    destruct (mkdir_downloads env (engine w1)) as [e|]; cbn [fst snd engine trace].
    + destruct (session_file_exists env e); cbn [fst snd engine trace].
      * split; [reflexivity|]. exists [EvMkdir].
        split; [rewrite Ht, <- app_assoc; reflexivity | right; now left].
      * destruct (touch_session_file env e) as [e'|]; cbn [fst snd engine trace];
          (split; [reflexivity|]).
        -- exists [EvMkdir; EvTouch].
           split; [rewrite Ht, <- !app_assoc; reflexivity | right; now right].
        -- exists [EvMkdir].
           split; [rewrite Ht, <- app_assoc; reflexivity | right; now left].
    + split; [reflexivity|]. exists [EvMkdir].
      split; [rewrite Ht, <- app_assoc; reflexivity | right; now left].
Qed.

Lemma start_daemon_counts (w : World E) :
  let r := Aria2Service.start_daemon env cfg aria2_config w in
  Spec.launches (trace (snd r)) = Spec.launches (trace w)
  /\ Spec.polls (trace (snd r)) = Spec.polls (trace w)
  /\ Spec.start_cycles (trace (snd r)) = S (Spec.start_cycles (trace w)).
Proof.
  pose proof (start_daemon_trace w) as H. cbv zeta in *.
  destruct H as (_ & tail & -> & Htail).
  rewrite launches_app, polls_app, start_cycles_app.
  destruct Htail as [-> | [-> | ->]]; cbn; repeat split; lia.
Qed.

End GatewayFacts.

Ltac rpc_step env cfg :=
  match goal with
  | |- context [Aria2Service.rpc_call env cfg ?m ?p ?w] =>
      let H := fresh "Hrpc" in
      pose proof (rpc_call_rpc_only env cfg m p w) as H;
      destruct (Aria2Service.rpc_call env cfg m p w) as [? ?];
      cbn [fst snd] in H |- *
  end.

Ltac rpc_chain :=
  cbn [fst snd];
  solve [ eauto using rpc_only_refl, rpc_only_trans ].

Section GatewayCalls.

Context {E : Type}.
Variable env : Env E.
Variable cfg : Settings.

Lemma add_uri_rpc_only uris options (w : World E) :
  Spec.rpc_only w (snd (Aria2Service.add_uri env cfg uris options w)).
Proof. unfold Aria2Service.add_uri. rpc_step env cfg. rpc_chain. Qed.

Lemma gateway_get_downloads_rpc_only status (w : World E) :
  Spec.rpc_only w (snd (Aria2Service.get_downloads env cfg status w)).
Proof.
  unfold Aria2Service.get_downloads.
  repeat match goal with
         | |- context [if ?b then _ else _] => destruct b
         end;
    repeat rpc_step env cfg; rpc_chain.
Qed.

Lemma gateway_get_download_rpc_only gid (w : World E) :
  Spec.rpc_only w (snd (Aria2Service.get_download env cfg gid w)).
Proof.
  unfold Aria2Service.get_download. rpc_step env cfg.
  repeat match goal with
         | |- context [match ?x with _ => _ end] => destruct x
         end; rpc_chain.
Qed.

Lemma gateway_pause_rpc_only gid (w : World E) :
  Spec.rpc_only w (snd (Aria2Service.pause_download env cfg gid w)).
Proof. unfold Aria2Service.pause_download. rpc_step env cfg. rpc_chain. Qed.

Lemma gateway_resume_rpc_only gid (w : World E) :
  Spec.rpc_only w (snd (Aria2Service.resume_download env cfg gid w)).
Proof. unfold Aria2Service.resume_download. rpc_step env cfg. rpc_chain. Qed.

Lemma gateway_remove_rpc_only gid force (w : World E) :
  Spec.rpc_only w (snd (Aria2Service.remove_download env cfg gid force w)).
Proof. unfold Aria2Service.remove_download. rpc_step env cfg. rpc_chain. Qed.

End GatewayCalls.

(** ** The facade *)

Ltac gateway_step H :=
  match goal with
  | |- context [let '(_, _) := ?c in _] =>
      let H' := fresh "Hgw" in
      pose proof H as H'; destruct c as [? ?]; cbn [fst snd] in H' |- *
  end.

Section FacadeFacts.

Context {E : Type}.
Variable env : Env E.
Variable cfg : Settings.
Variable urlparse_path : string -> Py.result string.
Variable i18n_t : string -> string.

Local Abbreviation add_url := (DownloadService.add_url env cfg urlparse_path i18n_t).
Local Abbreviation add_magnet := (DownloadService.add_magnet env cfg i18n_t).
Local Abbreviation add_each := (DownloadService.add_each env cfg urlparse_path i18n_t).
Local Abbreviation add_batch_urls :=
  (DownloadService.add_batch_urls env cfg urlparse_path i18n_t).
Local Abbreviation retry_download :=
  (DownloadService.retry_download env cfg urlparse_path i18n_t).

Lemma add_url_rpc_only url options (w : World E) :
  Spec.rpc_only w (snd (add_url url options w)).
Proof.
  unfold DownloadService.add_url.
  destruct (UrlInfoM.from_url urlparse_path url) as [info|m];
    [|apply rpc_only_refl].
  destruct (negb (info_is_valid info)); [apply rpc_only_refl|].
  pose proof (add_uri_rpc_only env cfg [url]
                (DownloadService._prepare_download_options cfg info options) w) as H.
  destruct (Aria2Service.add_uri env cfg [url] _ w) as [[g|] w']; exact H.
Qed.

Lemma add_magnet_rpc_only url options (w : World E) :
  Spec.rpc_only w (snd (add_magnet url options w)).
Proof.
  unfold DownloadService.add_magnet.
  destruct (UrlValidator.validate_magnet url) as [ok msg].
  destruct (negb ok); [apply rpc_only_refl|].
  pose proof (add_uri_rpc_only env cfg [url]
                (DownloadService._prepare_bt_options cfg options) w) as H.
  destruct (Aria2Service.add_uri env cfg [url] _ w) as [[g|] w']; exact H.
Qed.

Lemma add_each_rpc_only infos options sc fc results (w : World E) :
  Spec.rpc_only w (snd (add_each infos options sc fc results w)).
Proof.
  revert sc fc results w.
  induction infos as [|info infos IH]; intros sc fc results w;
    [apply rpc_only_refl|].
  cbn [DownloadService.add_each].
  destruct (info_is_valid info); [|apply IH].
  pose proof (add_url_rpc_only (info_url info) options w) as H.
  destruct (add_url (info_url info) options w) as [r w'].
  cbn [snd] in H.
  destruct r; try exact H; eapply rpc_only_trans; try exact H; apply IH.
Qed.

Lemma add_batch_urls_rpc_only urls options (w : World E) :
  Spec.rpc_only w (snd (add_batch_urls urls options w)).
Proof.
  unfold DownloadService.add_batch_urls.
  destruct (UrlValidator.validate_url_list urlparse_path urls) as [[|i l]|m];
    try apply rpc_only_refl.
  pose proof (add_each_rpc_only (i :: l) options 0 0 [] w) as H.
  destruct (add_each (i :: l) options 0 0 [] w) as [[[sc fc] rs] w'].
  exact H.
Qed.

Lemma get_downloads_rpc_only status category limit (w : World E) :
  Spec.rpc_only w
    (snd (DownloadService.get_downloads env cfg status category limit w)).
Proof.
  unfold DownloadService.get_downloads.
  pose proof (gateway_get_downloads_rpc_only env cfg status w) as H.
  destruct (Aria2Service.get_downloads env cfg status w) as [ds w'].
  destruct (DownloadTaskDict.to_dicts _); exact H.
Qed.

Lemma get_download_rpc_only gid (w : World E) :
  Spec.rpc_only w (snd (DownloadService.get_download env cfg gid w)).
Proof.
  unfold DownloadService.get_download.
  pose proof (gateway_get_download_rpc_only env cfg gid w) as H.
  destruct (Aria2Service.get_download env cfg gid w) as [[d|] w'];
    [destruct (DownloadTaskDict.to_dict d)|]; exact H.
Qed.

Lemma pause_download_rpc_only gid (w : World E) :
  Spec.rpc_only w (snd (DownloadService.pause_download env cfg i18n_t gid w)).
Proof.
  unfold DownloadService.pause_download.
  pose proof (gateway_pause_rpc_only env cfg gid w) as H.
  destruct (Aria2Service.pause_download env cfg gid w) as [[|] w']; exact H.
Qed.

Lemma resume_download_rpc_only gid (w : World E) :
  Spec.rpc_only w (snd (DownloadService.resume_download env cfg i18n_t gid w)).
Proof.
  unfold DownloadService.resume_download.
  pose proof (gateway_resume_rpc_only env cfg gid w) as H.
  destruct (Aria2Service.resume_download env cfg gid w) as [[|] w']; exact H.
Qed.

Lemma remove_download_rpc_only gid force (w : World E) :
  Spec.rpc_only w
    (snd (DownloadService.remove_download env cfg i18n_t gid force w)).
Proof.
  unfold DownloadService.remove_download.
  pose proof (gateway_remove_rpc_only env cfg gid force w) as H.
  destruct (Aria2Service.remove_download env cfg gid force w) as [[|] w'];
    exact H.
Qed.

Lemma retry_download_rpc_only gid (w : World E) :
  Spec.rpc_only w (snd (retry_download gid w)).
Proof.
  unfold DownloadService.retry_download.
  pose proof (gateway_get_download_rpc_only env cfg gid w) as H1.
  destruct (Aria2Service.get_download env cfg gid w) as [[d|] w1];
    [|exact H1].
  pose proof (gateway_remove_rpc_only env cfg gid true w1) as H2.
  destruct (Aria2Service.remove_download env cfg gid true w1) as [ok w2].
  cbn [snd] in H1, H2.
  assert (H3 : Spec.rpc_only w2
                 (snd (if DownloadType_eqb (task_download_type d) MAGNET
                       then add_magnet (task_url d) None w2
                       else add_url (task_url d) None w2))).
  { destruct (DownloadType_eqb _ _);
      [apply add_magnet_rpc_only | apply add_url_rpc_only]. }
  destruct (if DownloadType_eqb (task_download_type d) MAGNET
            then add_magnet (task_url d) None w2
            else add_url (task_url d) None w2) as [r w3].
  cbn [snd] in H3.
  assert (Spec.rpc_only w w3) by eauto using rpc_only_trans.
  destruct r; assumption.
Qed.

End FacadeFacts.

(** ** Recovery from an unreachable engine *)

Lemma rpc_only_no_restart {E : Type} (w w' : World E) :
  Spec.rpc_only w w' -> Spec.no_restart w w'.
Proof. intros H. exact (proj1 (rpc_only_counts w w' H)). Qed.

Section OtherCalls.

Context {E : Type}.
Variable env : Env E.
Variable cfg : Settings.
Variable urlparse_path : string -> Py.result string.
Variable i18n_t : string -> string.

Lemma pause_all_rpc_only (w : World E) :
  Spec.rpc_only w (snd (Aria2Service.pause_all env cfg w)).
Proof. unfold Aria2Service.pause_all. rpc_step env cfg. rpc_chain. Qed.

Lemma resume_all_rpc_only (w : World E) :
  Spec.rpc_only w (snd (Aria2Service.resume_all env cfg w)).
Proof. unfold Aria2Service.resume_all. rpc_step env cfg. rpc_chain. Qed.

Lemma purge_completed_rpc_only (w : World E) :
  Spec.rpc_only w (snd (Aria2Service.purge_completed env cfg w)).
Proof. unfold Aria2Service.purge_completed. rpc_step env cfg. rpc_chain. Qed.

Lemma get_version_rpc_only (w : World E) :
  Spec.rpc_only w (snd (Aria2Service.get_version env cfg w)).
Proof. apply rpc_call_rpc_only. Qed.

Lemma add_torrent_rpc_only data options (w : World E) :
  Spec.rpc_only w (snd (Uploads.add_torrent env cfg data options w)).
Proof. unfold Uploads.add_torrent. cbv zeta. rpc_step env cfg. rpc_chain. Qed.

Lemma add_metalink_rpc_only data options (w : World E) :
  Spec.rpc_only w (snd (Uploads.add_metalink env cfg data options w)).
Proof. unfold Uploads.add_metalink. cbv zeta. rpc_step env cfg. rpc_chain. Qed.

Lemma get_stats_rpc_only (w : World E) :
  Spec.rpc_only w (snd (Statistics.get_stats env cfg w)).
Proof. unfold Statistics.get_stats. rpc_step env cfg. rpc_chain. Qed.

Lemma get_statistics_rpc_only (w : World E) :
  Spec.rpc_only w (snd (Statistics.get_statistics env cfg w)).
Proof.
  unfold Statistics.get_statistics.
  pose proof (get_stats_rpc_only w) as H.
  destruct (Statistics.get_stats env cfg w) as [stats w']. exact H.
Qed.

Lemma add_torrent_file_rpc_only content filename options (w : World E) :
  Spec.rpc_only w
    (snd (Uploads.add_torrent_file env cfg i18n_t content filename options w)).
Proof.
  unfold Uploads.add_torrent_file.
  destruct (FileValidator.validate_torrent_file filename content) as [ok msg].
  destruct (negb ok); [apply rpc_only_refl|]. cbv zeta.
  pose proof (add_torrent_rpc_only content
                (DownloadService._prepare_bt_options cfg options) w) as H.
  destruct (Uploads.add_torrent env cfg content _ w) as [[g|] w']; exact H.
Qed.

Lemma add_url_list_file_rpc_only content filename options (w : World E) :
  Spec.rpc_only w
    (snd (Uploads.add_url_list_file env cfg urlparse_path i18n_t content
            filename options w)).
Proof.
  unfold Uploads.add_url_list_file.
  destruct (FileValidator.validate_url_list_file filename content) as [ok msg].
  destruct (negb ok); [apply rpc_only_refl|]. cbv zeta.
  destruct (UrlListParser.parse_url_file content); [apply rpc_only_refl|].
  apply add_batch_urls_rpc_only.
Qed.

End OtherCalls.

(** Stopping the daemon and probing the command start nothing. *)

Section StopFacts.

Context {E : Type}.
Variable env : Env E.
Variable cfg : Settings.

Lemma no_restart_trans (w1 w2 w3 : World E) :
  Spec.no_restart w1 w2 -> Spec.no_restart w2 w3 -> Spec.no_restart w1 w3.
Proof. unfold Spec.no_restart. intros H1 H2. now rewrite H2. Qed.

Lemma no_restart_trace (w w' : World E) :
  trace w' = trace w -> Spec.no_restart w w'.
Proof. unfold Spec.no_restart. now intros ->. Qed.

Lemma log_no_restart (ev : Event) (w : World E) :
  ev <> EvStartDaemon -> Spec.no_restart w (Aria2Service.log ev w).
Proof.
  intros Hev. unfold Spec.no_restart, Aria2Service.log. simpl.
  rewrite start_cycles_app. destruct ev; simpl; try lia. now contradict Hev.
Qed.

Lemma is_aria2_available_no_restart (w : World E) :
  Spec.no_restart w (snd (Aria2Service.is_aria2_available env w)).
Proof. apply log_no_restart. discriminate. Qed.

Lemma stop_daemon_no_restart (process : bool) (w : World E) :
  Spec.no_restart w (snd (Aria2Service.stop_daemon env cfg process w)).
Proof.
  unfold Aria2Service.stop_daemon.
  pose proof (rpc_only_no_restart _ _ (is_daemon_running_rpc_only env cfg w))
    as H0.
  destruct (Aria2Service.is_daemon_running env cfg w) as [running w0].
  simpl in H0.
  set (w1 := if running then _ else w0).
  assert (H1 : Spec.no_restart w w1).
  { subst w1. destruct running; [|exact H0].
    pose proof (rpc_only_no_restart _ _
                  (rpc_call_rpc_only env cfg "aria2.shutdown" [] w0)) as Hs.
    destruct (Aria2Service.rpc_call env cfg "aria2.shutdown" [] w0) as [r w'].
    simpl in Hs.
    apply (no_restart_trans _ _ _ H0). apply (no_restart_trans _ _ _ Hs).
    eapply no_restart_trans; [apply no_restart_trace
                             |apply log_no_restart; discriminate].
    reflexivity. }
  clearbody w1.
  destruct (process && process_running env (engine w1))%bool; [|exact H1].
  assert (H2 : Spec.no_restart w (Aria2Service.log (EvKill SIGTERM) w1))
    by (apply (no_restart_trans _ _ _ H1), log_no_restart; discriminate).
  cbv zeta.
  destruct (killpg env (engine (Aria2Service.log (EvKill SIGTERM) w1)) SIGTERM)
    as [e|]; [|exact H2].
  set (w2 := Aria2Service.log (EvSleep 2) _).
  assert (H3 : Spec.no_restart w w2).
  { apply (no_restart_trans _ _ _ H2). subst w2.
    eapply no_restart_trans; [apply no_restart_trace
                             |apply log_no_restart; discriminate].
    reflexivity. }
  clearbody w2.
  destruct (process_running env (engine w2)); [|exact H3].
  assert (H4 : Spec.no_restart w (Aria2Service.log (EvKill SIGKILL) w2))
    by (apply (no_restart_trans _ _ _ H3), log_no_restart; discriminate).
  destruct (killpg env (engine (Aria2Service.log (EvKill SIGKILL) w2)) SIGKILL)
    as [e'|]; [|exact H4].
  apply (no_restart_trans _ _ _ H4). now apply no_restart_trace.
Qed.

End StopFacts.

(** [test_connection] enters [start_daemon] exactly when the command is
    available and the first probe gets no answer, and then once. *)
Lemma test_connection_start_cycles {E : Type} (env : Env E) (cfg : Settings)
  (aria2_config : list (string * option string)) (w : World E) :
  let first_probe :=
    Aria2Service.is_daemon_running env cfg
      (snd (Aria2Service.is_aria2_available env w)) in
  Spec.start_cycles
    (trace (snd (Aria2Service.test_connection env cfg aria2_config w)))
  = if (fst (aria2c_version env (engine w)) && negb (fst first_probe))%bool
    then S (Spec.start_cycles (trace w))
    else Spec.start_cycles (trace w).
Proof.
  cbv zeta. unfold Aria2Service.test_connection, Aria2Service.is_aria2_available.
  destruct (aria2c_version env (engine w)) as [available version].
  cbn [fst snd].
  set (w0 := Aria2Service.log (EvRun ["aria2c"; "--version"]) w).
  assert (H0 : Spec.start_cycles (trace w0) = Spec.start_cycles (trace w)).
  { subst w0. unfold Aria2Service.log. cbn [trace].
    rewrite start_cycles_app. cbn. lia. }
  destruct available; cbn [negb andb]; [|exact H0].
  pose proof (is_daemon_running_rpc_only env cfg w0) as H1.
  destruct (Aria2Service.is_daemon_running env cfg w0) as [running w1].
  cbn [fst snd] in *. apply rpc_only_no_restart in H1. unfold Spec.no_restart in H1.
  destruct running; cbn [negb].
  - pose proof (get_version_rpc_only env cfg w1) as H2.
    destruct (Aria2Service.get_version env cfg w1) as [v w2].
    cbn [snd] in *. apply rpc_only_no_restart in H2. unfold Spec.no_restart in H2.
    lia.
  - pose proof (start_daemon_counts env cfg aria2_config w1) as H2.
    cbv zeta in H2. destruct H2 as (_ & _ & H2).
    destruct (Aria2Service.start_daemon env cfg aria2_config w1) as [started w2].
    cbn [snd] in H2. destruct started.
    + pose proof (get_version_rpc_only env cfg w2) as H3.
      destruct (Aria2Service.get_version env cfg w2) as [v w3].
      cbn [snd] in *. apply rpc_only_no_restart in H3. unfold Spec.no_restart in H3.
      lia.
    + cbn [snd]. lia.
Qed.



(** ** Starting the daemon *)

(** C2 (the code departs from it). [start_daemon] answers what its first
    health probe answers: with the probe succeeding it returns success and
    launches nothing; with the probe failing it returns failure, because
    [_build_aria2_command] raises before the launch, so no process is
    started and no poll is made.  On an engine that is down and would
    answer three seconds after a launch, thirty polls after a launch would
    succeed, yet [start_daemon] fails. *)
Theorem start_daemon_never_launches :
  (forall (E : Type) (env : Env E) (cfg : Settings)
          (aria2_config : list (string * option string)) (w : World E),
      let r := Aria2Service.start_daemon env cfg aria2_config w in
      fst r = fst (Aria2Service.is_daemon_running env cfg
                     (Aria2Service.log EvStartDaemon w))
      /\ Spec.launches (trace (snd r)) = Spec.launches (trace w)
      /\ Spec.polls (trace (snd r)) = Spec.polls (trace w))
  /\ (let r := Aria2Service.start_daemon RefEngine.env default_settings []
                 (initial_world (RefEngine.down 3)) in
      fst r = false
      /\ trace (snd r)
         = [EvStartDaemon; EvRpc "aria2.getVersion" []; EvMkdir; EvTouch])
  /\ (forall cmd,
         option_map
           (fun e => fst (Aria2Service.wait_for_daemon RefEngine.env
                            default_settings 30 (initial_world e)))
           (popen RefEngine.env (RefEngine.down 3) cmd)
         = Some true).
Proof.
  split; [|split].
  - intros E env cfg aria2_config w.
    pose proof (start_daemon_trace env cfg aria2_config w) as H1.
    pose proof (start_daemon_counts env cfg aria2_config w) as H2.
    cbv zeta in *. destruct H1 as [H1 _]. destruct H2 as (H2 & H3 & _).
    repeat split; assumption.
  - vm_compute. split; reflexivity.
  - intros cmd. vm_compute. reflexivity.
Qed.

(** ** Stripping is idempotent *)

Section StripFacts.

Lemma append_assoc (a b c : string) : (a ++ b) ++ c = a ++ (b ++ c).
Proof. induction a as [|x a IH]; [reflexivity|]. simpl. now rewrite IH. Qed.

Lemma append_empty_r (a : string) : a ++ "" = a.
Proof. induction a as [|x a IH]; [reflexivity|]. simpl. now rewrite IH. Qed.

Lemma rev_onto_app (s acc : string) :
  PyStr.rev_onto s acc = PyStr.rev s ++ acc.
Proof.
  revert acc. induction s as [|c s IH]; intros acc; [reflexivity|].
  unfold PyStr.rev. cbn [PyStr.rev_onto].
  rewrite (IH (String c acc)), (IH (String c EmptyString)).
  now rewrite append_assoc.
Qed.

Lemma rev_cons (c : ascii) (s : string) :
  PyStr.rev (String c s) = PyStr.rev s ++ String c "".
Proof. unfold PyStr.rev at 1. cbn [PyStr.rev_onto]. apply rev_onto_app. Qed.

Lemma rev_append (a b : string) :
  PyStr.rev (a ++ b) = PyStr.rev b ++ PyStr.rev a.
Proof.
  induction a as [|x a IH].
  - simpl. now rewrite append_empty_r.
  - simpl. now rewrite !rev_cons, IH, append_assoc.
Qed.

Lemma rev_involutive (s : string) : PyStr.rev (PyStr.rev s) = s.
Proof.
  induction s as [|c s IH]; [reflexivity|].
  now rewrite rev_cons, rev_append, IH.
Qed.

Lemma lstrip_head (s : string) (c : ascii) (r : string) :
  PyStr.lstrip s = String c r -> PyStr.isspace c = false.
Proof.
  induction s as [|d s IH]; [discriminate|]. cbn [PyStr.lstrip].
  destruct (PyStr.isspace d) eqn:Hd; [exact IH|].
  intros H. injection H as <- _. exact Hd.
Qed.

Lemma lstrip_keeps_last (a : string) (c : ascii) :
  PyStr.isspace c = false ->
  exists y, PyStr.lstrip (a ++ String c "") = y ++ String c "".
Proof.
  intros Hc. induction a as [|d a IH].
  - exists EmptyString. simpl. now rewrite Hc.
  - cbn [append PyStr.lstrip]. destruct (PyStr.isspace d); [exact IH|].
    now exists (String d a).
Qed.

Lemma rstrip_keeps_head (c : ascii) (r : string) :
  PyStr.isspace c = false ->
  exists z, PyStr.rstrip (String c r) = String c z.
Proof.
  intros Hc. unfold PyStr.rstrip. rewrite rev_cons.
  destruct (lstrip_keeps_last (PyStr.rev r) c Hc) as [y ->].
  rewrite rev_append. now exists (PyStr.rev y).
Qed.

Lemma lstrip_idempotent (s : string) :
  PyStr.lstrip (PyStr.lstrip s) = PyStr.lstrip s.
Proof.
  induction s as [|c s IH]; [reflexivity|]. cbn [PyStr.lstrip].
  destruct (PyStr.isspace c) eqn:Hc; [exact IH|].
  cbn [PyStr.lstrip]. now rewrite Hc.
Qed.

Lemma rstrip_idempotent (s : string) :
  PyStr.rstrip (PyStr.rstrip s) = PyStr.rstrip s.
Proof.
  unfold PyStr.rstrip. now rewrite rev_involutive, lstrip_idempotent.
Qed.

Lemma strip_idempotent (s : string) :
  PyStr.strip (PyStr.strip s) = PyStr.strip s.
Proof.
  unfold PyStr.strip.
  destruct (PyStr.lstrip s) as [|c r] eqn:Hs; [reflexivity|].
  pose proof (lstrip_head s c r Hs) as Hc.
  destruct (rstrip_keeps_head c r Hc) as [z Hz].
  rewrite Hz. cbn [PyStr.lstrip]. rewrite Hc, <- Hz.
  apply rstrip_idempotent.
Qed.

End StripFacts.

(** ** Batch add *)

Section BatchFacts.

Context {E : Type}.
Variable env : Env E.
Variable cfg : Settings.
Variable urlparse_path : string -> Py.result string.
Variable i18n_t : string -> string.

Local Abbreviation from_url := (UrlInfoM.from_url urlparse_path).
Local Abbreviation add_url := (DownloadService.add_url env cfg urlparse_path i18n_t).
Local Abbreviation add_each := (DownloadService.add_each env cfg urlparse_path i18n_t).
Local Abbreviation batch_items := (Spec.batch_items env cfg urlparse_path i18n_t).

Lemma from_url_strip (u : string) : from_url (PyStr.strip u) = from_url u.
Proof. unfold UrlInfoM.from_url. now rewrite strip_idempotent. Qed.

Lemma from_url_url (u : string) (info : UrlInfo) :
  from_url u = Py.Ok info -> info_url info = PyStr.strip u.
Proof.
  unfold UrlInfoM.from_url, Py.rbind. intros H.
  destruct (UrlInfoM.validate_url _ _) as [ok msg].
  destruct (DownloadTaskM.detect_download_type _);
    try destruct (urlparse_path _); try discriminate H;
    injection H as <-; reflexivity.
Qed.

Lemma validate_url_list_spec (urls : list string) (infos : list UrlInfo) :
  UrlValidator.validate_url_list urlparse_path urls = Py.Ok infos ->
  Forall2 (fun u info => from_url u = Py.Ok info) (Spec.kept urls) infos.
Proof.
  revert infos. induction urls as [|u urls IH]; intros infos H.
  - injection H as <-. constructor.
  - cbn [UrlValidator.validate_url_list] in H. unfold Spec.kept.
    cbn [filter]. unfold Spec.blank at 1.
    destruct (PyStr.is_empty (PyStr.strip u)); cbn [negb].
    + apply IH, H.
    + unfold Py.rbind in H. rewrite from_url_strip in H.
      destruct (from_url u) as [info|] eqn:Hu; [|discriminate].
      destruct (UrlValidator.validate_url_list urlparse_path urls) as [rest|];
        [|discriminate].
      injection H as <-. constructor; [exact Hu | now apply IH].
Qed.

Lemma add_url_shape url options (w : World E) :
  (exists g u t, fst (add_url url options w) = Added g u t)
  \/ (exists e c, fst (add_url url options w) = Failure e c).
Proof.
  unfold DownloadService.add_url.
  destruct (from_url url) as [info|m]; [|right; now eexists _, _].
  destruct (negb (info_is_valid info)); [right; now eexists _, _|].
  destruct (Aria2Service.add_uri env cfg [url] _ w) as [[g|] w'].
  - left. now eexists _, _, _.
  - right. now eexists _, _.
Qed.

Lemma add_each_spec infos options sc fc acc (w : World E) :
  add_each infos options sc fc acc w
  = ((sc + Spec.count_added (fst (batch_items infos options w)),
      fc + Spec.count_failed (fst (batch_items infos options w)),
      List.app acc (fst (batch_items infos options w))),
     snd (batch_items infos options w))%Z.
Proof.
  revert sc fc acc w. induction infos as [|info infos IH]; intros sc fc acc w.
  - cbn. now rewrite !Z.add_0_r, app_nil_r.
  - cbn [DownloadService.add_each Spec.batch_items].
    destruct (info_is_valid info).
    + destruct (add_url_shape (info_url info) options w)
        as [(g & u & t & Hr) | (e & c & Hr)];
        destruct (add_url (info_url info) options w) as [r w1];
        cbn [fst] in Hr; subst r; rewrite IH;
        destruct (batch_items infos options w1) as [items w2];
        cbn [fst snd Spec.item_for Spec.error_of Spec.count_added Spec.count_failed];
        rewrite <- app_assoc, <- ?Z.add_assoc; reflexivity.
    + rewrite IH. destruct (batch_items infos options w) as [items w2].
      cbn [fst snd Spec.count_added Spec.count_failed].
      rewrite <- app_assoc, <- ?Z.add_assoc. reflexivity.
Qed.

Lemma counts_total (items : list BatchItem) :
  (Spec.count_added items + Spec.count_failed items
   = Z.of_nat (List.length items)
   /\ 0 <= Spec.count_added items)%Z.
Proof.
  induction items as [|[u g|u e] items [IH1 IH2]];
    cbn [Spec.count_added Spec.count_failed List.length]; lia.
Qed.

Lemma batch_items_urls infos options (w : World E) :
  map Spec.item_url (fst (batch_items infos options w)) = map info_url infos.
Proof.
  revert w. induction infos as [|info infos IH]; intros w; [reflexivity|].
  cbn [Spec.batch_items]. destruct (info_is_valid info).
  - destruct (add_url (info_url info) options w) as [r w1].
    specialize (IH w1). destruct (batch_items infos options w1) as [items w2].
    cbn [fst map] in *. rewrite IH. f_equal. now destruct r.
  - specialize (IH w). destruct (batch_items infos options w) as [items w2].
    cbn [fst map] in *. now rewrite IH.
Qed.

Lemma batch_items_invalid infos options (w : World E) (i : nat) (info : UrlInfo) :
  nth_error infos i = Some info -> info_is_valid info = false ->
  nth_error (fst (batch_items infos options w)) i
  = Some (ItemFailed (info_url info) (info_error_message info)).
Proof.
  revert w i. induction infos as [|x infos IH]; intros w i Hn Hv.
  - now destruct i.
  - cbn [Spec.batch_items]. destruct i as [|i].
    + injection Hn as ->. rewrite Hv.
      now destruct (batch_items infos options w).
    + cbn [nth_error] in Hn. destruct (info_is_valid x).
      * destruct (add_url (info_url x) options w) as [r w1].
        specialize (IH w1 i Hn Hv).
        now destruct (batch_items infos options w1).
      * specialize (IH w i Hn Hv). now destruct (batch_items infos options w).
Qed.

Lemma Forall2_urls (urls : list string) (infos : list UrlInfo) :
  Forall2 (fun u info => from_url u = Py.Ok info) urls infos ->
  map info_url infos = map PyStr.strip urls.
Proof.
  induction 1 as [|u info urls infos H _ IH]; [reflexivity|].
  cbn [map]. now rewrite IH, (from_url_url u info H).
Qed.

(** [from_url] raises exactly when the URL parser does, which it is asked
    only for the kinds that have a path. *)
Lemma from_url_raise (u m : string) :
  from_url u = Py.Raise m
  <-> Spec.parsed_kind (DownloadTaskM.detect_download_type (PyStr.strip u)) = true
      /\ urlparse_path (PyStr.strip u) = Py.Raise m.
Proof.
  unfold UrlInfoM.from_url, Py.rbind.
  destruct (UrlInfoM.validate_url _ _) as [ok msg].
  destruct (DownloadTaskM.detect_download_type _); cbn [Spec.parsed_kind];
    try (destruct (urlparse_path _) as [path|m']);
    split; try discriminate; try (intros [H _]; discriminate H);
    try (intros [_ H]; discriminate H).
  all: first [ intros H; injection H as ->; now split
             | intros [_ H]; injection H as ->; reflexivity ].
Qed.

Lemma validate_url_list_raise (urls : list string) (m : string) :
  UrlValidator.validate_url_list urlparse_path urls = Py.Raise m ->
  exists before u after,
    Spec.kept urls = List.app before (u :: after)
    /\ from_url u = Py.Raise m
    /\ Forall (fun v => exists info, from_url v = Py.Ok info) before.
Proof.
  induction urls as [|u urls IH]; [discriminate|].
  cbn [UrlValidator.validate_url_list]. unfold Spec.kept. cbn [filter].
  unfold Spec.blank at 1.
  destruct (PyStr.is_empty (PyStr.strip u)); cbn [negb]; [exact IH|].
  unfold Py.rbind. rewrite from_url_strip.
  destruct (from_url u) as [info|m'] eqn:Hu.
  - destruct (UrlValidator.validate_url_list urlparse_path urls) as [rest|m''];
      [discriminate|].
    intros H. injection H as ->.
    destruct (IH eq_refl) as (before & v & after & Hk & Hv & Hb).
    exists (u :: before), v, after. unfold Spec.kept in Hk. rewrite Hk.
    split; [reflexivity|]. split; [exact Hv|].
    constructor; [now exists info | exact Hb].
  - intros H. injection H as ->. exists [], u, (Spec.kept urls).
    split; [reflexivity|]. split; [exact Hu | constructor].
Qed.

Lemma Forall2_in_left {A B : Type} (R : A -> B -> Prop) (l : list A)
  (l' : list B) (a : A) :
  Forall2 R l l' -> In a l -> exists b, R a b.
Proof.
  induction 1 as [|x y l l' Hxy _ IH]; [intros []|].
  intros [<-|Hin]; [now exists y | now apply IH].
Qed.

End BatchFacts.



(** The parser raising on one locator aborts the batch: nothing is sent
    for the valid locator before it either. *)
Lemma add_batch_urls_aborts_when_parser_raises :
  DownloadService.add_batch_urls RefEngine.env default_settings
    Urllib.urlparse_path i18n_key
    [ "http://example.com/a.zip"; "http://[" ] None
    (initial_world (RefEngine.running [] [] []))
  = (Failure "Invalid IPv6 URL" "UNKNOWN_ERROR",
     initial_world (RefEngine.running [] [] [])).
Proof. vm_compute. reflexivity. Qed.


(** ** Retry *)

Lemma from_aria2_response_url (d : Aria2Data) (t : DownloadTask) :
  DownloadTaskM.from_aria2_response d = Some t ->
  exists f,
    hd_error (Py.get (files d) [ {| uris := None; path := None |} ]) = Some f
    /\ task_url t = match Py.get (uris f) [] with
                    | [] => ""
                    | u :: _ => Py.get (uri u) ""
                    end.
Proof.
  unfold DownloadTaskM.from_aria2_response, Py.bind. intros H.
  destruct (hd_error _) as [f|]; [|discriminate]. exists f.
  destruct (DownloadTaskM.int_field (totalLength d)) as [total|]; [|discriminate].
  destruct (DownloadTaskM.int_field (completedLength d)) as [completed|]; [|discriminate].
  destruct (DownloadTaskM.int_field (downloadSpeed d)) as [speed|]; [|discriminate].
  destruct (DownloadTaskM.int_field (uploadSpeed d)); [|discriminate].
  destruct (DownloadTaskM.raw_progress total completed); [|discriminate].
  destruct (DownloadTaskM.calculate_eta total completed speed); [|discriminate].
  destruct (DownloadTaskM.int_field (connections d)); [|discriminate].
  destruct (DownloadTaskM.int_field (numSeeders d)); [|discriminate].
  destruct (DownloadTaskM.int_field (numLeechers d)); [|discriminate].
  injection H as <-. split; reflexivity.
Qed.

(** A record without a source URI reconciles to the empty locator. *)
Lemma no_uri_url (d : Aria2Data) (t : DownloadTask) :
  DownloadTaskM.from_aria2_response d = Some t -> Spec.no_uri d ->
  task_url t = "".
Proof.
  intros H Hn. destruct (from_aria2_response_url d t H) as (f & Hf & ->).
  unfold Spec.no_uri in Hn. destruct (files d) as [[|f0 fs]|]; cbn in Hf.
  - discriminate.
  - injection Hf as <-.
    destruct (uris f0) as [[|u us]|]; cbn; try reflexivity.
    destruct Hn as [-> | ->]; reflexivity.
  - injection Hf as <-. reflexivity.
Qed.

Section RetryFacts.

Context {E : Type}.
Variable env : Env E.
Variable cfg : Settings.
Variable urlparse_path : string -> Py.result string.
Variable i18n_t : string -> string.

Lemma gateway_get_download_some gid (w w1 : World E) (d : Aria2Data) :
  Aria2Service.rpc_call env cfg "aria2.tellStatus" [Rpc.PStr gid] w
  = (Some (Rpc.RTask d), w1) ->
  Rpc.is_empty_record d = false ->
  Aria2Service.get_download env cfg gid w
  = (DownloadTaskM.from_aria2_response d, w1).
Proof.
  intros H Hd. unfold Aria2Service.get_download. rewrite H.
  cbn [Rpc.truthy]. now rewrite Hd.
Qed.

Lemma remove_download_trace gid force (w : World E) :
  trace (snd (Aria2Service.remove_download env cfg gid force w))
  = List.app (trace w)
      [EvRpc (if force then "aria2.forceRemove" else "aria2.remove")
         (Aria2Service.with_token cfg [Rpc.PStr gid])].
Proof.
  unfold Aria2Service.remove_download.
  pose proof (rpc_call_trace env cfg
                (if force then "aria2.forceRemove" else "aria2.remove")
                [Rpc.PStr gid] w) as H.
  destruct (Aria2Service.rpc_call env cfg _ [Rpc.PStr gid] w) as [r w'].
  exact H.
Qed.

Lemma add_url_empty options (w : World E) (p : string) :
  urlparse_path "" = Py.Ok p ->
  DownloadService.add_url env cfg urlparse_path i18n_t "" options w
  = (Failure "URL cannot be empty" "INVALID_URL", w).
Proof.
  intros Hp. unfold DownloadService.add_url, UrlInfoM.from_url.
  change (PyStr.strip "") with "".
  change (DownloadTaskM.detect_download_type "") with HTTP.
  change (UrlInfoM.validate_url "" HTTP) with (false, "URL cannot be empty").
  rewrite Hp. reflexivity.
Qed.

End RetryFacts.

(** C10. [retry_download] fetches the task, force-removes the old handle
    and then dispatches only on the reconciled kind: a magnet task goes
    through [add_magnet], every other task (torrent-file tasks included)
    through [add_url], both with the reconciled source URI.  When the
    engine record carries no URI that locator is empty, so the add fails
    URL validation with "URL cannot be empty" and INVALID_URL; the handle
    was force-removed before and nothing is sent after. *)
Theorem retry_download_dispatch
  (E : Type) (env : Env E) (cfg : Settings)
  (urlparse_path : string -> Py.result string) (i18n_t : string -> string)
  (gid : string) (w w1 : World E) (d : Aria2Data) (t : DownloadTask) :
  Aria2Service.rpc_call env cfg "aria2.tellStatus" [Rpc.PStr gid] w
  = (Some (Rpc.RTask d), w1) ->
  Rpc.is_empty_record d = false ->
  DownloadTaskM.from_aria2_response d = Some t ->
  let retry := DownloadService.retry_download env cfg urlparse_path i18n_t in
  let w2 := snd (Aria2Service.remove_download env cfg gid true w1) in
  let finish (x : Envelope * World E) := (Spec.retried i18n_t (fst x), snd x) in
  trace w2
  = List.app (trace w)
      [ EvRpc "aria2.tellStatus" (Aria2Service.with_token cfg [Rpc.PStr gid]);
        EvRpc "aria2.forceRemove" (Aria2Service.with_token cfg [Rpc.PStr gid]) ]
  /\ (task_download_type t = MAGNET ->
      retry gid w
      = finish (DownloadService.add_magnet env cfg i18n_t (task_url t) None w2))
  /\ (task_download_type t <> MAGNET ->
      retry gid w
      = finish (DownloadService.add_url env cfg urlparse_path i18n_t
                  (task_url t) None w2))
  /\ (Spec.no_uri d ->
      task_url t = ""
      /\ task_download_type t = HTTP
      /\ forall p, urlparse_path "" = Py.Ok p ->
                   retry gid w
                   = (Failure "URL cannot be empty" "INVALID_URL", w2)).
Proof.
  intros Hcall Hd Ht retry w2 finish.
  assert (Hget := gateway_get_download_some env cfg gid w w1 d Hcall Hd).
  rewrite Ht in Hget.
  assert (Hretry : forall x,
             x = (if DownloadType_eqb (task_download_type t) MAGNET
                  then DownloadService.add_magnet env cfg i18n_t (task_url t) None w2
                  else DownloadService.add_url env cfg urlparse_path i18n_t
                         (task_url t) None w2) ->
             retry gid w = finish x).
  { intros x ->. subst retry finish w2.
    unfold DownloadService.retry_download. rewrite Hget.
    destruct (Aria2Service.remove_download env cfg gid true w1) as [ok w2].
    cbn [snd].
    destruct (if DownloadType_eqb (task_download_type t) MAGNET
              then DownloadService.add_magnet env cfg i18n_t (task_url t) None w2
              else DownloadService.add_url env cfg urlparse_path i18n_t
                     (task_url t) None w2) as [r w3].
    now destruct r. }
  assert (Hkind : Spec.no_uri d ->
                  task_url t = "" /\ task_download_type t = HTTP).
  { intros Hn. pose proof (no_uri_url d t Ht Hn) as Hu.
    destruct (from_aria2_response_inv d t Ht) as (_ & _ & _ & _ & _ & Hk).
    rewrite Hu in Hk. now split. }
  split; [|split; [|split]].
  - subst w2. rewrite remove_download_trace.
    pose proof (rpc_call_trace env cfg "aria2.tellStatus" [Rpc.PStr gid] w) as H.
    rewrite Hcall in H. cbn [snd] in H. rewrite H, <- app_assoc. reflexivity.
  - intros Hm. apply Hretry. now rewrite Hm.
  - intros Hm. apply Hretry.
    destruct (task_download_type t); try reflexivity. now contradiction Hm.
  - intros Hn. destruct (Hkind Hn) as [Hu Hk].
    split; [exact Hu|]. split; [exact Hk|]. intros p Hp.
    rewrite (Hretry _ eq_refl), Hk, Hu. cbn [DownloadType_eqb].
    rewrite (add_url_empty env cfg urlparse_path i18n_t None w2 p Hp).
    reflexivity.
Qed.

Lemma retry_download_dispatch_witness :
  let w := initial_world (RefEngine.running [] [] [Spec.torrent_file_task]) in
  let r := DownloadService.retry_download RefEngine.env default_settings
             Urllib.urlparse_path i18n_key "7" w in
  Spec.no_uri Spec.torrent_file_task
  /\ fst r = Failure "URL cannot be empty" "INVALID_URL"
  /\ RefEngine.stopped (engine w) = [Spec.torrent_file_task]
  /\ RefEngine.stopped (engine (snd r)) = []
  /\ RefEngine.waiting (engine (snd r)) = []
  /\ trace (snd r)
     = [ EvRpc "aria2.tellStatus" [Rpc.PStr "7"];
         EvRpc "aria2.forceRemove" [Rpc.PStr "7"] ].
Proof.
  cbv zeta.
  set (w := initial_world (RefEngine.running [] [] [Spec.torrent_file_task])).
  match eval vm_compute in
        (Aria2Service.rpc_call RefEngine.env default_settings
           "aria2.tellStatus" [Rpc.PStr "7"] w)
  with
  | (_, ?w1) =>
      assert (H1 : Aria2Service.rpc_call RefEngine.env default_settings
                     "aria2.tellStatus" [Rpc.PStr "7"] w
                   = (Some (Rpc.RTask Spec.torrent_file_task), w1))
        by (vm_compute; reflexivity)
  end.
  match eval vm_compute in
        (DownloadTaskM.from_aria2_response Spec.torrent_file_task)
  with
  | Some ?t =>
      assert (H3 : DownloadTaskM.from_aria2_response Spec.torrent_file_task
                   = Some t)
        by (vm_compute; reflexivity)
  end.
  assert (Hn : Spec.no_uri Spec.torrent_file_task) by exact I.
  pose proof (retry_download_dispatch _ RefEngine.env default_settings
                Urllib.urlparse_path i18n_key "7" w _ _ _ H1 eq_refl H3) as H.
  cbv zeta in H. destruct H as (_ & _ & _ & H).
  destruct (H Hn) as (_ & _ & Hr).
  rewrite (Hr "" eq_refl).
  split; [exact Hn|]. vm_compute. repeat split; reflexivity.
Defined.

(** ** Listing *)

Section ListingCalls.

Context {E : Type}.
Variable env : Env E.
Variable cfg : Settings.

Lemma gateway_get_downloads_calls status (w : World E) :
  exists evs,
    trace (snd (Aria2Service.get_downloads env cfg status w))
    = List.app (trace w) evs
    /\ Forall (Spec.listing_call cfg) evs.
Proof.
  unfold Aria2Service.get_downloads.
  repeat match goal with
         | |- context [if ?b then _ else _] => destruct b
         end;
    repeat match goal with
      | |- context [Aria2Service.rpc_call env cfg ?m ?p ?w] =>
          let H := fresh "Ht" in
          pose proof (rpc_call_trace env cfg m p w) as H;
          destruct (Aria2Service.rpc_call env cfg m p w) as [? ?];
          cbn [fst snd] in H |- *
      end;
    repeat match goal with H : trace _ = _ |- _ => rewrite H; clear H end;
    rewrite <- ?app_assoc; cbn [List.app];
    first [ solve [ eexists; split; [reflexivity|]; repeat constructor; cbn; auto ]
          | exists []; split; [now rewrite app_nil_r | constructor] ].
Qed.

End ListingCalls.

Section ListingOnQueues.

Variable cfg : Settings.

Lemma drop_with_token (params : list Rpc.param) :
  match params with Rpc.PStr _ :: _ => False | _ => True end ->
  RefEngine.drop_token (Aria2Service.with_token cfg params) = params.
Proof.
  intros Hp. unfold Aria2Service.with_token.
  destruct (ARIA2_RPC_SECRET cfg) as [secret|].
  - destruct (PyStr.is_empty secret).
    + destruct params as [|[]]; try reflexivity. contradiction.
    + unfold RefEngine.drop_token.
      assert (prefix "token:" ("token:" ++ secret) = true) as ->
          by (apply prefix_app; now exists secret).
      reflexivity.
  - destruct params as [|[]]; try reflexivity. contradiction.
Qed.

Lemma slice_window (l : list Aria2Data) : RefEngine.slice 0 100 l = firstn 100 l.
Proof. reflexivity. Qed.

Lemma records_of_list (l : list Aria2Data) :
  Aria2Service.records_or_empty (Some (Rpc.RTasks l)) = Some l.
Proof. now destruct l. Qed.

Lemma tell_active (w : World RefEngine.state) a wq s :
  Spec.holds w a wq s ->
  exists w', Aria2Service.rpc_call RefEngine.env cfg "aria2.tellActive" [] w
             = (Some (Rpc.RTasks a), w')
             /\ Spec.holds w' a wq s.
Proof.
  intros (Hup & Ha & Hw & Hs). unfold Aria2Service.rpc_call.
  cbn [exchange RefEngine.env]. unfold RefEngine.exchange.
  rewrite Hup, (drop_with_token [] I). cbn. rewrite Ha.
  eexists. split; [reflexivity|]. repeat split; assumption.
Qed.

Lemma tell_waiting (w : World RefEngine.state) a wq s :
  Spec.holds w a wq s ->
  exists w', Aria2Service.rpc_call RefEngine.env cfg "aria2.tellWaiting"
               Aria2Service.window w
             = (Some (Rpc.RTasks (firstn 100 wq)), w')
             /\ Spec.holds w' a wq s.
Proof.
  intros (Hup & Ha & Hw & Hs). unfold Aria2Service.rpc_call.
  cbn [exchange RefEngine.env]. unfold RefEngine.exchange, Aria2Service.window.
  rewrite Hup, (drop_with_token [Rpc.PInt 0; Rpc.PInt 100] I).
  cbn -[RefEngine.slice firstn]. rewrite slice_window, Hw.
  eexists. split; [reflexivity|]. repeat split; assumption.
Qed.

Lemma tell_stopped (w : World RefEngine.state) a wq s :
  Spec.holds w a wq s ->
  exists w', Aria2Service.rpc_call RefEngine.env cfg "aria2.tellStopped"
               Aria2Service.window w
             = (Some (Rpc.RTasks (firstn 100 s)), w')
             /\ Spec.holds w' a wq s.
Proof.
  intros (Hup & Ha & Hw & Hs). unfold Aria2Service.rpc_call.
  cbn [exchange RefEngine.env]. unfold RefEngine.exchange, Aria2Service.window.
  rewrite Hup, (drop_with_token [Rpc.PInt 0; Rpc.PInt 100] I).
  cbn -[RefEngine.slice firstn]. rewrite slice_window, Hs.
  eexists. split; [reflexivity|]. repeat split; assumption.
Qed.

Lemma gateway_get_downloads_listed status (w : World RefEngine.state) a wq s :
  Spec.holds w a wq s ->
  fst (Aria2Service.get_downloads RefEngine.env cfg status w)
  = Aria2Service.parse_all (Spec.listed status a wq s).
Proof.
  intros H. unfold Aria2Service.get_downloads, Spec.listed.
  destruct (status =? "all").
  - destruct (tell_active w a wq s H) as (w1 & -> & H1).
    destruct (tell_waiting w1 a wq s H1) as (w2 & -> & H2).
    destruct (tell_stopped w2 a wq s H2) as (w3 & -> & H3).
    rewrite !records_of_list. reflexivity.
  - destruct (status =? "active").
    + destruct (tell_active w a wq s H) as (w1 & -> & H1).
      now rewrite records_of_list.
    + destruct (status =? "waiting").
      * destruct (tell_waiting w a wq s H) as (w1 & -> & H1).
        now rewrite records_of_list.
      * destruct (status =? "stopped"); [|reflexivity].
        destruct (tell_stopped w a wq s H) as (w1 & -> & H1).
        now rewrite records_of_list.
Qed.

Lemma listed_window status (a wq s : list Aria2Data) :
  Spec.listed status a (firstn 100 wq) (firstn 100 s) = Spec.listed status a wq s
  /\ (List.length (Spec.listed status a wq s) <= List.length a + 200)%nat.
Proof.
  unfold Spec.listed. rewrite !firstn_firstn. change (Nat.min 100 100) with 100%nat.
  split; [reflexivity|].
  pose proof (firstn_le_length 100 wq). pose proof (firstn_le_length 100 s).
  repeat match goal with
         | |- context [if ?b then _ else _] => destruct b
         end; rewrite ?length_app; cbn [List.length]; lia.
Qed.

Lemma facade_get_downloads_listed status category limit
  (w : World RefEngine.state) a wq s :
  Spec.holds w a wq s ->
  let tasks := Spec.filter_and_cap category limit
                 (Aria2Service.parse_all (Spec.listed status a wq s)) in
  fst (DownloadService.get_downloads RefEngine.env cfg status category limit w)
  = match DownloadTaskDict.to_dicts tasks with
    | Some dicts => Downloads dicts (Z.of_nat (List.length tasks))
    | None => DownloadsFailure DownloadService.overflow_message
    end.
Proof.
  intros H tasks. unfold DownloadService.get_downloads.
  pose proof (gateway_get_downloads_listed status w a wq s H) as Hg.
  destruct (Aria2Service.get_downloads RefEngine.env cfg status w) as [ds w'].
  cbn [fst] in Hg. subst ds tasks. unfold Spec.filter_and_cap.
  destruct (PyStr.is_empty category); cbn [negb];
    destruct (DownloadTaskDict.to_dicts _); reflexivity.
Qed.

End ListingOnQueues.

(** C9. A listing asks for waiting and stopped tasks with the fixed window
    of offset 0 and count 100, whatever the status filter, the category and
    the limit.  On an engine that holds the queues [a], [wq] and [s], the
    returned list is therefore drawn from the active tasks, the first 100
    waiting and the first 100 stopped ones only: the category filter and the
    cap apply to that truncated list, the answer is the same as if the
    queues ended after their first 100 entries, and of 150 waiting tasks
    100 are returned under a limit of 1000. *)
Theorem get_downloads_window :
  (forall (E : Type) (env : Env E) cfg status category limit (w : World E),
      exists evs,
        trace (snd (DownloadService.get_downloads env cfg status category limit w))
        = List.app (trace w) evs
        /\ Forall (Spec.listing_call cfg) evs)
  /\ (forall cfg a wq s status category limit,
         let get queues :=
           fst (DownloadService.get_downloads RefEngine.env cfg status category
                  limit (initial_world queues)) in
         let tasks := Spec.filter_and_cap category limit
                        (Aria2Service.parse_all (Spec.listed status a wq s)) in
         get (RefEngine.running a wq s)
         = match DownloadTaskDict.to_dicts tasks with
           | Some dicts => Downloads dicts (Z.of_nat (List.length tasks))
           | None => DownloadsFailure DownloadService.overflow_message
           end
         /\ get (RefEngine.running a wq s)
            = get (RefEngine.running a (firstn 100 wq) (firstn 100 s))
         /\ (List.length (Spec.listed status a wq s) <= List.length a + 200)%nat)
  /\ (exists dicts,
         fst (DownloadService.get_downloads RefEngine.env default_settings
                "waiting" "" 1000
                (initial_world (RefEngine.running [] (Spec.waiting_queue 150) [])))
         = Downloads dicts 100
         /\ List.length dicts = 100%nat).
Proof.
  split; [|split].
  - intros E env cfg status category limit w.
    unfold DownloadService.get_downloads.
    pose proof (gateway_get_downloads_calls env cfg status w) as H.
    destruct (Aria2Service.get_downloads env cfg status w) as [ds w'].
    destruct (DownloadTaskDict.to_dicts _); exact H.
  - intros cfg a wq s status category limit get tasks. subst get.
    assert (Hh : forall x y z,
               Spec.holds (initial_world (RefEngine.running x y z)) x y z)
      by (intros; repeat split).
    pose proof (facade_get_downloads_listed cfg status category limit _ _ _ _
                  (Hh a wq s)) as H1.
    pose proof (facade_get_downloads_listed cfg status category limit _ _ _ _
                  (Hh a (firstn 100 wq) (firstn 100 s))) as H2.
    cbv zeta in H1, H2. destruct (listed_window status a wq s) as [Hw Hl].
    rewrite Hw in H2. cbv beta. rewrite H1, H2.
    split; [reflexivity|]. split; [reflexivity | exact Hl].
  - eexists. split; [vm_compute; reflexivity|]. vm_compute. reflexivity.
Qed.

(* ================================================================== *)
(** * Further properties of the code *)

(** ** Reconciliation: status, file name, category *)

(** X1. The status string never makes a reconciliation fail: a record
    reconciles or not whatever its status field holds; one of the six
    status values is mapped to its status, a missing or unrecognised one to
    [WAITING]. *)
Theorem reconcile_status_is_lenient (d : Aria2Data) :
  (forall s,
      DownloadTaskM.from_aria2_response (Extra.with_status d s) = None
      <-> DownloadTaskM.from_aria2_response d = None)
  /\ (forall st,
         option_map task_status
           (DownloadTaskM.from_aria2_response
              (Extra.with_status d (Some (Extra.DownloadStatus_value st))))
         = option_map (fun _ => st) (DownloadTaskM.from_aria2_response d))
  /\ (forall s,
         (forall st, s <> Some (Extra.DownloadStatus_value st)) ->
         option_map task_status
           (DownloadTaskM.from_aria2_response (Extra.with_status d s))
         = option_map (fun _ => WAITING) (DownloadTaskM.from_aria2_response d)).
Proof.
  assert (Hgen : forall s,
             DownloadTaskM.from_aria2_response (Extra.with_status d s)
             = option_map
                 (fun t =>
                    {| task_gid := task_gid t; task_url := task_url t;
                       task_download_type := task_download_type t;
                       task_status :=
                         match DownloadStatus_of_value (Py.get s "waiting") with
                         | Some x => x
                         | None => WAITING
                         end;
                       task_file_name := task_file_name t;
                       task_file_path := task_file_path t;
                       task_total_length := task_total_length t;
                       task_completed_length := task_completed_length t;
                       task_download_speed := task_download_speed t;
                       task_upload_speed := task_upload_speed t;
                       task_progress := task_progress t;
                       task_eta := task_eta t;
                       task_connections := task_connections t;
                       task_num_seeders := task_num_seeders t;
                       task_num_leechers := task_num_leechers t;
                       task_error_message := task_error_message t;
                       task_retry_count := task_retry_count t;
                       task_priority := task_priority t;
                       task_category := task_category t |})
                 (DownloadTaskM.from_aria2_response d)).
  { intros s. unfold DownloadTaskM.from_aria2_response, Py.bind.
    cbn [Extra.with_status gid files totalLength completedLength downloadSpeed
           uploadSpeed status connections numSeeders numLeechers].
    destruct (hd_error _); [|reflexivity].
    destruct (DownloadTaskM.int_field (totalLength d)) as [total|]; [|reflexivity].
    destruct (DownloadTaskM.int_field (completedLength d)) as [completed|]; [|reflexivity].
    destruct (DownloadTaskM.int_field (downloadSpeed d)) as [speed|]; [|reflexivity].
    destruct (DownloadTaskM.int_field (uploadSpeed d)); [|reflexivity].
    destruct (DownloadTaskM.raw_progress total completed); [|reflexivity].
    destruct (DownloadTaskM.calculate_eta total completed speed); [|reflexivity].
    destruct (DownloadTaskM.int_field (connections d)); [|reflexivity].
    destruct (DownloadTaskM.int_field (numSeeders d)); [|reflexivity].
    destruct (DownloadTaskM.int_field (numLeechers d)); reflexivity. }
  split; [|split].
  - intros s. rewrite Hgen.
    destruct (DownloadTaskM.from_aria2_response d); cbn; split; congruence.
  - intros st. rewrite Hgen.
    destruct (DownloadTaskM.from_aria2_response d); [|reflexivity].
    cbn. now destruct st.
  - intros s Hs. rewrite Hgen.
    destruct (DownloadTaskM.from_aria2_response d); [|reflexivity].
    cbn [option_map task_status]. f_equal.
    destruct s as [s|]; [|reflexivity]. cbn [Py.get].
    unfold DownloadStatus_of_value.
    repeat match goal with
           | |- context [if (s =? ?x) then _ else _] =>
               destruct (String.eqb_spec s x) as [->|_]
           end; try reflexivity;
      exfalso;
      first [ apply (Hs ACTIVE); reflexivity | apply (Hs PAUSED); reflexivity
            | apply (Hs COMPLETE); reflexivity | apply (Hs ERROR); reflexivity
            | apply (Hs REMOVED); reflexivity ].
Qed.

Section SplitFacts.

Variable c : ascii.

Lemma free_of_app (a b : string) :
  Extra.free_of c (a ++ b) = (Extra.free_of c a && Extra.free_of c b)%bool.
Proof.
  induction a as [|x a IH]; [reflexivity|].
  cbn [append Extra.free_of]. now rewrite IH, andb_assoc.
Qed.

Lemma free_of_rev (s : string) :
  Extra.free_of c (PyStr.rev s) = Extra.free_of c s.
Proof.
  induction s as [|x s IH]; [reflexivity|].
  rewrite rev_cons, free_of_app, IH. cbn [Extra.free_of].
  now rewrite andb_true_r, andb_comm.
Qed.

Lemma split_aux_nonempty (s cur : string) : PyStr.split_aux c s cur <> [].
Proof.
  revert cur. induction s as [|a s IH]; intros cur; cbn [PyStr.split_aux].
  - discriminate.
  - destruct (Ascii.eqb a c); [discriminate | apply IH].
Qed.

Lemma last_cons_nonempty (x : string) (l : list string) (d : string) :
  l <> [] -> List.last (x :: l) d = List.last l d.
Proof. destruct l; [congruence | reflexivity]. Qed.

(** On a string without the separator the split is the string itself. *)
Lemma split_aux_free (s cur : string) :
  Extra.free_of c s = true ->
  PyStr.split_aux c s cur = [PyStr.rev cur ++ s].
Proof.
  revert cur. induction s as [|a s IH]; intros cur H; cbn [PyStr.split_aux].
  - now rewrite append_empty_r.
  - cbn [Extra.free_of] in H. apply andb_true_iff in H as [Ha Hs].
    apply negb_true_iff in Ha. rewrite Ha, (IH _ Hs), rev_cons, append_assoc.
    reflexivity.
Qed.

(** The last segment never holds the separator. *)
Lemma split_aux_last_free (s cur : string) :
  Extra.free_of c cur = true ->
  Extra.free_of c (List.last (PyStr.split_aux c s cur) "") = true.
Proof.
  revert cur. induction s as [|a s IH]; intros cur H; cbn [PyStr.split_aux].
  - cbn [List.last]. now rewrite free_of_rev.
  - destruct (Ascii.eqb a c) eqn:Ha.
    + rewrite last_cons_nonempty by apply split_aux_nonempty. now apply IH.
    + apply IH. cbn [Extra.free_of]. now rewrite Ha.
Qed.

(** The last segment is what follows the last separator. *)
Lemma split_aux_last_suffix (s cur : string) :
  exists pre,
    PyStr.rev cur ++ s = pre ++ List.last (PyStr.split_aux c s cur) "".
Proof.
  revert cur. induction s as [|a s IH]; intros cur; cbn [PyStr.split_aux].
  - exists "". cbn. now rewrite append_empty_r.
  - destruct (Ascii.eqb a c) eqn:Ha.
    + rewrite last_cons_nonempty by apply split_aux_nonempty.
      destruct (IH "") as [pre Hpre]. cbn in Hpre.
      exists (PyStr.rev cur ++ String a pre).
      rewrite append_assoc. cbn [append]. now rewrite <- Hpre.
    + destruct (IH (String a cur)) as [pre Hpre].
      exists pre. rewrite <- Hpre, rev_cons, append_assoc. reflexivity.
Qed.

Lemma split_aux_app_free (b ext cur : string) :
  Extra.free_of c ext = true ->
  List.last (PyStr.split_aux c (b ++ String c ext) cur) "" = ext.
Proof.
  intros He. revert cur. induction b as [|a b IH]; intros cur.
  - cbn [append PyStr.split_aux]. rewrite Ascii.eqb_refl.
    rewrite last_cons_nonempty by apply split_aux_nonempty.
    now rewrite (split_aux_free ext "" He).
  - cbn [append PyStr.split_aux]. destruct (Ascii.eqb a c).
    + rewrite last_cons_nonempty by apply split_aux_nonempty. apply IH.
    + apply IH.
Qed.

End SplitFacts.

Lemma first_category_in (ext : string) (table : list (string * list string)) :
  In (DownloadTaskM.first_category ext table) (List.app (map fst table) ["other"]).
Proof.
  induction table as [|[cat exts] table IH]; [now left|].
  cbn [DownloadTaskM.first_category map List.app fst].
  destruct (DownloadTaskM.str_in ext exts); [now left | now right].
Qed.

(** X2. The category of a file is always one of video, audio, image,
    document, archive, software and other; a name without a dot (the empty
    name included) is [other]; and the category depends only on what
    follows the last dot, with case ignored. *)
Theorem get_file_category_by_extension :
  (forall name, In (DownloadTaskM.get_file_category name) Extra.categories)
  /\ (forall name,
         PyStr.contains "." name = false ->
         DownloadTaskM.get_file_category name = "other")
  /\ (forall base base' ext ext',
         Extra.free_of "." ext = true -> Extra.free_of "." ext' = true ->
         PyStr.lower ext = PyStr.lower ext' ->
         DownloadTaskM.get_file_category (base ++ "." ++ ext)
         = DownloadTaskM.get_file_category (base' ++ "." ++ ext')).
Proof.
  split; [|split].
  - intros name. unfold DownloadTaskM.get_file_category.
    destruct (PyStr.is_empty name); [do 6 right; now left|].
    exact (first_category_in _ Config.FILE_CATEGORIES).
  - intros name H. unfold DownloadTaskM.get_file_category.
    destruct (PyStr.is_empty name); [reflexivity|]. now rewrite H.
  - assert (Hone : forall base ext,
               Extra.free_of "." ext = true ->
               DownloadTaskM.get_file_category (base ++ "." ++ ext)
               = DownloadTaskM.first_category ("." ++ PyStr.lower ext)
                   Config.FILE_CATEGORIES).
    { intros base ext He. unfold DownloadTaskM.get_file_category.
      assert (PyStr.is_empty (base ++ "." ++ ext) = false) as ->
          by now destruct base.
      assert (PyStr.contains "." (base ++ "." ++ ext) = true) as ->
          by (apply contains_app; now exists base, ext).
      unfold PyStr.last_segment, PyStr.split.
      change (base ++ "." ++ ext) with (base ++ String "." ext).
      now rewrite (split_aux_app_free "." base ext "" He). }
    intros base base' ext ext' He He' Hl.
    now rewrite (Hone base ext He), (Hone base' ext' He'), Hl.
Qed.

Lemma get_file_category_by_extension_witness :
  DownloadTaskM.get_file_category "Holiday.Clip.MP4"
  = DownloadTaskM.get_file_category "a.mp4"
  /\ DownloadTaskM.get_file_category "a.mp4" = "video".
Proof.
  split; [|reflexivity].
  exact (proj2 (proj2 get_file_category_by_extension)
           "Holiday.Clip" "a" "MP4" "mp4" eq_refl eq_refl eq_refl).
Defined.

Lemma from_aria2_response_file (d : Aria2Data) (t : DownloadTask) :
  DownloadTaskM.from_aria2_response d = Some t ->
  (task_file_name t = ""
   \/ task_file_name t = PyStr.last_segment "/" (task_file_path t))
  /\ task_category t = DownloadTaskM.get_file_category (task_file_name t).
Proof.
  unfold DownloadTaskM.from_aria2_response, Py.bind. intros H.
  destruct (hd_error _) as [f|]; [|discriminate].
  destruct (DownloadTaskM.int_field (totalLength d)) as [total|]; [|discriminate].
  destruct (DownloadTaskM.int_field (completedLength d)) as [completed|]; [|discriminate].
  destruct (DownloadTaskM.int_field (downloadSpeed d)) as [speed|]; [|discriminate].
  destruct (DownloadTaskM.int_field (uploadSpeed d)); [|discriminate].
  destruct (DownloadTaskM.raw_progress total completed); [|discriminate].
  destruct (DownloadTaskM.calculate_eta total completed speed); [|discriminate].
  destruct (DownloadTaskM.int_field (connections d)); [|discriminate].
  destruct (DownloadTaskM.int_field (numSeeders d)); [|discriminate].
  destruct (DownloadTaskM.int_field (numLeechers d)); [|discriminate].
  injection H as <-. cbn. split; [|reflexivity].
  destruct (Py.get (files d) []) as [|f0 fs]; [now left|].
  destruct (PyStr.is_empty (Py.get (path f0) "")); [now left | now right].
Qed.

(** X3. The file name of a reconciled task holds no slash and is the end of
    the task's file path; the category of the task is the category of that
    name. *)
Theorem reconciled_file_name_is_last_segment (d : Aria2Data) (t : DownloadTask) :
  DownloadTaskM.from_aria2_response d = Some t ->
  Extra.free_of "/" (task_file_name t) = true
  /\ (exists directory, task_file_path t = directory ++ task_file_name t)
  /\ task_category t = DownloadTaskM.get_file_category (task_file_name t).
Proof.
  intros H. destruct (from_aria2_response_file d t H) as [[Hn | Hn] Hc];
    rewrite Hn; (split; [|split; [|now rewrite <- Hn]]).
  - reflexivity.
  - exists (task_file_path t). now rewrite append_empty_r.
  - apply (split_aux_last_free "/" _ ""). reflexivity.
  - exact (split_aux_last_suffix "/" (task_file_path t) "").
Qed.

Lemma reconciled_file_name_is_last_segment_witness :
  exists t,
    DownloadTaskM.from_aria2_response Spec.torrent_file_task = Some t
    /\ task_file_name t = "ubuntu.iso"
    /\ Extra.free_of "/" (task_file_name t) = true.
Proof.
  eexists. split; [vm_compute; reflexivity|]. split; [reflexivity|].
  refine (proj1 (reconciled_file_name_is_last_segment
                   Spec.torrent_file_task _ _)).
  vm_compute. reflexivity.
Defined.

(** ** Listing: malformed records, filter and cap *)

Lemma parse_all_app (l1 l2 : list Aria2Data) :
  Aria2Service.parse_all (List.app l1 l2)
  = List.app (Aria2Service.parse_all l1) (Aria2Service.parse_all l2).
Proof.
  induction l1 as [|d l1 IH]; [reflexivity|].
  cbn [List.app Aria2Service.parse_all].
  destruct (DownloadTaskM.from_aria2_response d); cbn [List.app]; now rewrite IH.
Qed.

Lemma parse_all_in (l : list Aria2Data) (t : DownloadTask) :
  In t (Aria2Service.parse_all l)
  <-> exists d, In d l /\ DownloadTaskM.from_aria2_response d = Some t.
Proof.
  induction l as [|d l IH]; cbn [Aria2Service.parse_all].
  - split; [intros [] | intros [d [[] _]]].
  - destruct (DownloadTaskM.from_aria2_response d) as [t'|] eqn:Hd.
    + cbn [In]. rewrite IH. split.
      * intros [Heq | [d' [Hin Hd']]].
        -- exists d. split; [now left | congruence].
        -- exists d'. split; [now right | assumption].
      * intros [d' [[<- | Hin] Hd']]; [left; congruence | right; now exists d'].
    + rewrite IH. split.
      * intros [d' [Hin Hd']]. exists d'. split; [now right | assumption].
      * intros [d' [[<- | Hin] Hd']]; [congruence | now exists d'].
Qed.

Lemma parse_all_reconciliations (l : list Aria2Data) :
  Aria2Service.parse_all l = Extra.reconciliations l.
Proof.
  induction l as [|d l IH]; [reflexivity|].
  cbn [Aria2Service.parse_all Extra.reconciliations flat_map].
  fold (Extra.reconciliations l).
  destruct (DownloadTaskM.from_aria2_response d); now rewrite IH.
Qed.

Lemma listing_records (r : option Rpc.reply) (records : list Aria2Data) :
  Extra.listing r records -> Aria2Service.records_or_empty r = Some records.
Proof.
  unfold Extra.listing, Aria2Service.records_or_empty.
  destruct r as [[x|d|l|b]|].
  - now intros [-> ->].
  - now intros [-> ->].
  - intros ->. now destruct l.
  - now intros [-> ->].
  - now intros ->.
Qed.

(** X4. Listing tolerates malformed records.  Whatever the engine is, when
    the listing calls are answered with lists of records (an absent or
    false answer counting as the empty list), [get_downloads] returns
    exactly the reconciliations of the records received, in the order
    received (for [all]: active, then waiting, then stopped): a record that
    fails to reconcile (an empty [files] list, a length that is not a
    number) is skipped and the others are kept.  A status other than all,
    active, waiting and stopped lists nothing and makes no remote call. *)
Theorem listing_skips_malformed_records
  (E : Type) (env : Env E) (cfg : Settings) (w : World E) :
  (forall r w1 records,
      Aria2Service.rpc_call env cfg "aria2.tellActive" [] w = (r, w1) ->
      Extra.listing r records ->
      Aria2Service.get_downloads env cfg "active" w
      = (Extra.reconciliations records, w1))
  /\ (forall r w1 records,
         Aria2Service.rpc_call env cfg "aria2.tellWaiting"
           [Rpc.PInt 0; Rpc.PInt 100] w = (r, w1) ->
         Extra.listing r records ->
         Aria2Service.get_downloads env cfg "waiting" w
         = (Extra.reconciliations records, w1))
  /\ (forall r w1 records,
         Aria2Service.rpc_call env cfg "aria2.tellStopped"
           [Rpc.PInt 0; Rpc.PInt 100] w = (r, w1) ->
         Extra.listing r records ->
         Aria2Service.get_downloads env cfg "stopped" w
         = (Extra.reconciliations records, w1))
  /\ (forall ra rw rs w1 w2 w3 active waiting stopped,
         Aria2Service.rpc_call env cfg "aria2.tellActive" [] w = (ra, w1) ->
         Aria2Service.rpc_call env cfg "aria2.tellWaiting"
           [Rpc.PInt 0; Rpc.PInt 100] w1 = (rw, w2) ->
         Aria2Service.rpc_call env cfg "aria2.tellStopped"
           [Rpc.PInt 0; Rpc.PInt 100] w2 = (rs, w3) ->
         Extra.listing ra active -> Extra.listing rw waiting ->
         Extra.listing rs stopped ->
         Aria2Service.get_downloads env cfg "all" w
         = (Extra.reconciliations (List.app active (List.app waiting stopped)),
            w3))
  /\ (forall d l1 l2,
         DownloadTaskM.from_aria2_response d = None ->
         Extra.reconciliations (List.app l1 (d :: l2))
         = List.app (Extra.reconciliations l1) (Extra.reconciliations l2))
  /\ (forall l t,
         In t (Extra.reconciliations l)
         <-> exists d, In d l /\ DownloadTaskM.from_aria2_response d = Some t)
  /\ DownloadTaskM.from_aria2_response Extra.record_without_files = None
  /\ DownloadTaskM.from_aria2_response Extra.record_with_bad_length = None
  /\ (forall status,
         Extra.known_status status = false ->
         Aria2Service.get_downloads env cfg status w = ([], w)).
Proof.
  repeat match goal with |- _ /\ _ => split end.
  - intros r w1 records Hc Hl. unfold Aria2Service.get_downloads.
    cbn [String.eqb Ascii.eqb Bool.eqb]. rewrite Hc.
    now rewrite (listing_records r records Hl), parse_all_reconciliations.
  - intros r w1 records Hc Hl. unfold Aria2Service.get_downloads.
    cbn [String.eqb Ascii.eqb Bool.eqb]. unfold Aria2Service.window. rewrite Hc.
    now rewrite (listing_records r records Hl), parse_all_reconciliations.
  - intros r w1 records Hc Hl. unfold Aria2Service.get_downloads.
    cbn [String.eqb Ascii.eqb Bool.eqb]. unfold Aria2Service.window. rewrite Hc.
    now rewrite (listing_records r records Hl), parse_all_reconciliations.
  - intros ra rw rs w1 w2 w3 la lw ls Ha Hw Hs Hla Hlw Hls.
    unfold Aria2Service.get_downloads.
    cbn [String.eqb Ascii.eqb Bool.eqb]. unfold Aria2Service.window.
    rewrite Ha, Hw, Hs.
    rewrite (listing_records ra la Hla), (listing_records rw lw Hlw),
      (listing_records rs ls Hls).
    unfold Py.bind. now rewrite parse_all_reconciliations.
  - intros d l1 l2 Hd. rewrite <- !parse_all_reconciliations, parse_all_app.
    cbn [Aria2Service.parse_all]. now rewrite Hd.
  - intros l t. rewrite <- parse_all_reconciliations. apply parse_all_in.
  - vm_compute. reflexivity.
  - vm_compute. reflexivity.
  - intros status H. unfold Extra.known_status in H.
    apply orb_false_iff in H as [H H4]. apply orb_false_iff in H as [H H3].
    apply orb_false_iff in H as [H1 H2].
    unfold Aria2Service.get_downloads. now rewrite H1, H2, H3, H4.
Qed.

Lemma listing_skips_malformed_records_witness :
  map task_gid
    (fst (Aria2Service.get_downloads RefEngine.env default_settings "active"
            (initial_world (RefEngine.running Extra.mixed_queue [] []))))
  = ["1"; "2"].
Proof.
  set (w := initial_world (RefEngine.running Extra.mixed_queue [] [])).
  match eval vm_compute in
        (Aria2Service.rpc_call RefEngine.env default_settings
           "aria2.tellActive" [] w)
  with
  | (?r, ?w1) =>
      assert (Hc : Aria2Service.rpc_call RefEngine.env default_settings
                     "aria2.tellActive" [] w = (r, w1))
        by (vm_compute; reflexivity)
  end.
  destruct (listing_skips_malformed_records _ RefEngine.env default_settings w)
    as (H & _).
  rewrite (H _ _ Extra.mixed_queue Hc eq_refl).
  vm_compute. reflexivity.
Defined.

Lemma to_dicts_tasks (l : list DownloadTask) (ds : list TaskDict) :
  DownloadTaskDict.to_dicts l = Some ds -> map dict_task ds = l.
Proof.
  revert ds. induction l as [|t l IH]; intros ds H.
  - injection H as <-. reflexivity.
  - cbn [DownloadTaskDict.to_dicts] in H. unfold Py.bind in H.
    destruct (DownloadTaskDict.to_dict t) as [x|] eqn:Hx; [|discriminate].
    destruct (DownloadTaskDict.to_dicts l) as [xs|]; [|discriminate].
    injection H as <-. cbn [map]. rewrite (IH xs eq_refl). f_equal.
    unfold DownloadTaskDict.to_dict, Py.bind in Hx.
    destruct (DownloadTaskDict.format_size _); [|discriminate].
    destruct (DownloadTaskDict.format_size _); [|discriminate].
    destruct (DownloadTaskDict.format_speed _); [|discriminate].
    destruct (DownloadTaskDict.format_speed _); [|discriminate].
    now injection Hx as <-.
Qed.

(** X5. When a listing succeeds, its [count] is the number of tasks it
    returns; with a positive limit that number does not exceed the limit;
    with a category given every returned task has that category; and every
    returned task is one the gateway listed. *)
Theorem get_downloads_filter_and_cap
  (E : Type) (env : Env E) (cfg : Settings) (status category : string)
  (limit : Z) (w : World E) (dicts : list TaskDict) (count : Z) :
  fst (DownloadService.get_downloads env cfg status category limit w)
  = Downloads dicts count ->
  count = Z.of_nat (List.length dicts)
  /\ ((0 < limit)%Z -> (count <= limit)%Z)
  /\ (category <> "" ->
      Forall (fun x => task_category (dict_task x) = category) dicts)
  /\ (forall x, In x dicts ->
                In (dict_task x)
                  (fst (Aria2Service.get_downloads env cfg status w))).
Proof.
  unfold DownloadService.get_downloads.
  destruct (Aria2Service.get_downloads env cfg status w) as [ds w'].
  cbn [fst]. intros H.
  set (filtered := if negb (PyStr.is_empty category)
                   then filter (fun d => task_category d =? category) ds
                   else ds) in *.
  set (capped := if (0 <? limit)%Z then firstn (Z.to_nat limit) filtered
                 else filtered) in *.
  destruct (DownloadTaskDict.to_dicts capped) as [x|] eqn:Hx; [|discriminate].
  cbn [fst] in H. injection H as -> <-.
  pose proof (to_dicts_tasks capped dicts Hx) as Hm.
  assert (Hlen : List.length dicts = List.length capped)
    by (rewrite <- Hm; symmetry; apply length_map).
  assert (Hsub : forall t, In t capped -> In t filtered).
  { intros t. subst capped. destruct (0 <? limit)%Z; [|auto].
    intros Hin. rewrite <- (firstn_skipn (Z.to_nat limit) filtered).
    apply in_or_app. now left. }
  assert (Hfil : forall t, In t filtered -> In t ds).
  { intros t. subst filtered. destruct (negb (PyStr.is_empty category)); [|auto].
    intros Hin. now apply filter_In in Hin. }
  split; [|split; [|split]].
  - now rewrite Hlen.
  - intros Hl. clear Hx Hm Hlen Hsub. subst capped.
    apply Z.ltb_lt in Hl as Hb. rewrite Hb.
    pose proof (firstn_le_length (Z.to_nat limit) filtered). lia.
  - intros Hc. apply Forall_forall. intros x Hin.
    assert (Hin' : In (dict_task x) filtered)
      by (apply Hsub; rewrite <- Hm; now apply in_map).
    subst filtered. destruct category as [|c0 cat]; [congruence|].
    cbn [PyStr.is_empty negb] in Hin'. apply filter_In in Hin' as [_ Heq].
    now apply String.eqb_eq in Heq.
  - intros x Hin. apply Hfil, Hsub. rewrite <- Hm. now apply in_map.
Qed.

Lemma get_downloads_filter_and_cap_witness :
  exists dicts,
    fst (DownloadService.get_downloads RefEngine.env default_settings
           "waiting" "other" 7
           (initial_world (RefEngine.running [] (Spec.waiting_queue 20) [])))
    = Downloads dicts 7
    /\ 7%Z = Z.of_nat (List.length dicts).
Proof.
  eexists. split; [vm_compute; reflexivity|].
  refine (proj1 (get_downloads_filter_and_cap _ RefEngine.env default_settings
                   "waiting" "other" 7
                   (initial_world (RefEngine.running [] (Spec.waiting_queue 20) []))
                   _ 7 _)).
  vm_compute. reflexivity.
Defined.

(** ** Single adds, lookups and handle operations *)

Section AddFacts.

Context {E : Type}.
Variable env : Env E.
Variable cfg : Settings.
Variable urlparse_path : string -> Py.result string.
Variable i18n_t : string -> string.

Lemma add_uri_effect uris options (w : World E) :
  trace (snd (Aria2Service.add_uri env cfg uris options w))
  = List.app (trace w)
      [EvRpc "aria2.addUri"
         (Aria2Service.with_token cfg [Rpc.PStrs uris; Rpc.POptions options])].
Proof.
  unfold Aria2Service.add_uri.
  pose proof (rpc_call_trace env cfg "aria2.addUri"
                [Rpc.PStrs uris; Rpc.POptions options] w) as H.
  destruct (Aria2Service.rpc_call env cfg "aria2.addUri" _ w) as [r w'].
  exact H.
Qed.

Lemma add_url_outcomes url options (w : World E) :
  match UrlInfoM.from_url urlparse_path url with
  | Py.Raise message =>
      DownloadService.add_url env cfg urlparse_path i18n_t url options w
      = (Failure message "UNKNOWN_ERROR", w)
  | Py.Ok info =>
      if info_is_valid info then
        let sent :=
          Aria2Service.add_uri env cfg [url]
            (DownloadService._prepare_download_options cfg info options) w in
        DownloadService.add_url env cfg urlparse_path i18n_t url options w
        = (match fst sent with
           | Some g => Added g url (DownloadType_value (info_download_type info))
           | None => Failure (i18n_t "messages.aria2_unavailable") "ARIA2_ERROR"
           end, snd sent)
      else
        DownloadService.add_url env cfg urlparse_path i18n_t url options w
        = (Failure (info_error_message info) "INVALID_URL", w)
  end.
Proof.
  unfold DownloadService.add_url.
  destruct (UrlInfoM.from_url urlparse_path url) as [info|m]; [|reflexivity].
  destruct (info_is_valid info); cbn [negb]; [|reflexivity].
  cbv zeta.
  now destruct (Aria2Service.add_uri env cfg [url] _ w) as [[g|] w'].
Qed.

Lemma add_magnet_outcomes url options (w : World E) :
  if fst (UrlValidator.validate_magnet url) then
    let sent :=
      Aria2Service.add_uri env cfg [url]
        (DownloadService._prepare_bt_options cfg options) w in
    DownloadService.add_magnet env cfg i18n_t url options w
    = (match fst sent with
       | Some g => Added g url "magnet"
       | None => Failure (i18n_t "messages.aria2_unavailable") "ARIA2_ERROR"
       end, snd sent)
  else
    DownloadService.add_magnet env cfg i18n_t url options w
    = (Failure (snd (UrlValidator.validate_magnet url)) "INVALID_MAGNET", w).
Proof.
  unfold DownloadService.add_magnet.
  destruct (UrlValidator.validate_magnet url) as [ok msg]. cbn [fst snd].
  destruct ok; cbn [negb]; [|reflexivity]. cbv zeta.
  now destruct (Aria2Service.add_uri env cfg [url] _ w) as [[g|] w'].
Qed.

End AddFacts.


Section HandleFacts.

Context {E : Type}.
Variable env : Env E.
Variable cfg : Settings.
Variable urlparse_path : string -> Py.result string.
Variable i18n_t : string -> string.

Lemma reply_is_iff (result : option Rpc.reply) (s : string) :
  Aria2Service.reply_is result s = true <-> result = Some (Rpc.RStr s).
Proof.
  unfold Aria2Service.reply_is. destruct result as [[r|d|l|b]|];
    try (split; [discriminate | congruence]).
  rewrite String.eqb_eq. split; congruence.
Qed.

Lemma gateway_get_download_none gid (w : World E) :
  fst (Aria2Service.rpc_call env cfg "aria2.tellStatus" [Rpc.PStr gid] w) = None ->
  Aria2Service.get_download env cfg gid w
  = (None, snd (Aria2Service.rpc_call env cfg "aria2.tellStatus" [Rpc.PStr gid] w)).
Proof.
  unfold Aria2Service.get_download.
  destruct (Aria2Service.rpc_call env cfg "aria2.tellStatus" _ w) as [r w'].
  cbn [fst snd]. now intros ->.
Qed.

End HandleFacts.

(** X7. A lookup does not tell an unreachable engine from an unknown
    handle: whenever the [aria2.tellStatus] call brings no result, for
    whatever reason, [get_download] and [retry_download] both answer
    "Download not found" under NOT_FOUND, and [retry_download] stops there,
    without removing anything. *)
Theorem lookup_failure_is_not_found
  (E : Type) (env : Env E) (cfg : Settings)
  (urlparse_path : string -> Py.result string) (i18n_t : string -> string)
  (gid : string) (w : World E) :
  let asked := Aria2Service.rpc_call env cfg "aria2.tellStatus" [Rpc.PStr gid] w in
  fst asked = None ->
  DownloadService.get_download env cfg gid w
  = (Failure "Download not found" "NOT_FOUND", snd asked)
  /\ DownloadService.retry_download env cfg urlparse_path i18n_t gid w
     = (Failure "Download not found" "NOT_FOUND", snd asked)
  /\ trace (snd asked)
     = List.app (trace w)
         [EvRpc "aria2.tellStatus" (Aria2Service.with_token cfg [Rpc.PStr gid])].
Proof.
  intros asked H. subst asked.
  pose proof (gateway_get_download_none env cfg gid w H) as Hg.
  unfold DownloadService.get_download, DownloadService.retry_download.
  rewrite Hg. repeat split. apply rpc_call_trace.
Qed.

Lemma lookup_failure_is_not_found_witness :
  fst (DownloadService.get_download RefEngine.env default_settings "7"
         (initial_world (RefEngine.down 3)))
  = Failure "Download not found" "NOT_FOUND".
Proof.
  refine (f_equal fst
            (proj1 (lookup_failure_is_not_found _ RefEngine.env default_settings
                      Urllib.urlparse_path i18n_key "7"
                      (initial_world (RefEngine.down 3)) _))).
  vm_compute. reflexivity.
Defined.

(** X8. Pause, resume and remove make one remote call each ([aria2.pause],
    [aria2.unpause], and [aria2.forceRemove] or [aria2.remove] as [force]
    says) and report success exactly when the engine answers with the very
    handle that was sent; any other answer, and no answer, is a failure. *)
Theorem handle_operations_need_the_echo
  (E : Type) (env : Env E) (cfg : Settings) (i18n_t : string -> string)
  (gid : string) (w : World E) :
  (let call := Aria2Service.rpc_call env cfg "aria2.pause" [Rpc.PStr gid] w in
   DownloadService.pause_download env cfg i18n_t gid w
   = (if Aria2Service.reply_is (fst call) gid
      then Done (i18n_t "messages.download_paused")
      else Failure "Failed to pause download" "PAUSE_FAILED", snd call))
  /\ (let call := Aria2Service.rpc_call env cfg "aria2.unpause" [Rpc.PStr gid] w in
      DownloadService.resume_download env cfg i18n_t gid w
      = (if Aria2Service.reply_is (fst call) gid
         then Done (i18n_t "messages.download_resumed")
         else Failure "Failed to resume download" "RESUME_FAILED", snd call))
  /\ (forall force : bool,
         let call :=
           Aria2Service.rpc_call env cfg
             (if force then "aria2.forceRemove" else "aria2.remove")
             [Rpc.PStr gid] w in
         DownloadService.remove_download env cfg i18n_t gid force w
         = (if Aria2Service.reply_is (fst call) gid
            then Done (i18n_t "messages.download_removed")
            else Failure "Failed to remove download" "REMOVE_FAILED", snd call))
  /\ (forall result,
         Aria2Service.reply_is result gid = true
         <-> result = Some (Rpc.RStr gid)).
Proof.
  split; [|split; [|split]].
  - unfold DownloadService.pause_download, Aria2Service.pause_download.
    cbv zeta.
    destruct (Aria2Service.rpc_call env cfg "aria2.pause" _ w) as [r w'].
    cbn [fst snd]. now destruct (Aria2Service.reply_is r gid).
  - unfold DownloadService.resume_download, Aria2Service.resume_download.
    cbv zeta.
    destruct (Aria2Service.rpc_call env cfg "aria2.unpause" _ w) as [r w'].
    cbn [fst snd]. now destruct (Aria2Service.reply_is r gid).
  - intros force.
    unfold DownloadService.remove_download, Aria2Service.remove_download.
    cbv zeta.
    destruct (Aria2Service.rpc_call env cfg _ [Rpc.PStr gid] w) as [r w'].
    cbn [fst snd]. now destruct (Aria2Service.reply_is r gid).
  - intros result. apply reply_is_iff.
Qed.

(** ** Option dictionaries *)

Lemma lookup_set (d : Options) (k v k' : string) :
  Dict.lookup (Dict.set d k v) k'
  = if k =? k' then Some v else Dict.lookup d k'.
Proof.
  induction d as [|[k0 v0] d IH]; cbn [Dict.set Dict.lookup].
  - reflexivity.
  - destruct (String.eqb_spec k0 k) as [->|Hne]; cbn [Dict.lookup].
    + now destruct (k =? k').
    + rewrite IH. destruct (String.eqb_spec k0 k') as [->|Hne'].
      * destruct (String.eqb_spec k k') as [->|_]; [congruence | reflexivity].
      * reflexivity.
Qed.

Lemma lookup_absent (o : Options) (k : string) :
  ~ In k (map fst o) -> Dict.lookup o k = None.
Proof.
  induction o as [|[k0 v0] o IH]; [reflexivity|]. cbn [map fst In Dict.lookup].
  intros H. destruct (String.eqb_spec k0 k) as [->|_]; [tauto | apply IH; tauto].
Qed.

(** [update] makes the entries of a duplicate-free dictionary win. *)
Lemma lookup_update (o d : Options) (k : string) :
  NoDup (map fst o) ->
  Dict.lookup (Dict.update d o) k
  = match Dict.lookup o k with
    | Some v => Some v
    | None => Dict.lookup d k
    end.
Proof.
  unfold Dict.update. revert d.
  induction o as [|[k0 v0] o IH]; intros d Hnd; [reflexivity|].
  cbn [map fst] in Hnd. inversion Hnd as [|x l Hnotin Hnd']; subst.
  cbn [fold_left fst snd Dict.lookup]. rewrite (IH _ Hnd'), lookup_set.
  destruct (String.eqb_spec k0 k) as [->|_]; [|reflexivity].
  now rewrite (lookup_absent o k Hnotin).
Qed.

(** X9. Both option builders let the caller's overrides win: with a
    dictionary of overrides (its keys distinct), every key it holds gets
    the caller's value and every other key keeps the default the builder
    computes.  Among those defaults: the destination directory is always
    set; HTTP and HTTPS set the per-server connection count and the split
    to the configured parallelism, FTP and FTPS force both to 1, the other
    kinds set neither; [out] is set exactly when a file name was detected;
    the BitTorrent builder enables DHT, peer exchange and local peer
    discovery and sets a listen port only when one is configured. *)
Theorem option_builders_let_overrides_win (cfg : Settings) :
  (forall info custom key,
      NoDup (map fst custom) ->
      Dict.lookup (DownloadService._prepare_download_options cfg info (Some custom)) key
      = match Dict.lookup custom key with
        | Some v => Some v
        | None =>
            Dict.lookup (DownloadService._prepare_download_options cfg info None) key
        end)
  /\ (forall custom key,
         NoDup (map fst custom) ->
         Dict.lookup (DownloadService._prepare_bt_options cfg (Some custom)) key
         = match Dict.lookup custom key with
           | Some v => Some v
           | None => Dict.lookup (DownloadService._prepare_bt_options cfg None) key
           end)
  /\ (forall info,
         let o := DownloadService._prepare_download_options cfg info None in
         Dict.lookup o "dir" = Some (DOWNLOADS_DIR cfg)
         /\ Dict.lookup o "out"
            = (if PyStr.is_empty (info_file_name info) then None
               else Some (info_file_name info))
         /\ Dict.lookup o "max-connection-per-server" = Dict.lookup o "split"
         /\ Dict.lookup o "split"
            = match info_download_type info with
              | HTTP | HTTPS =>
                  Some (Py.str_of_int (MAX_CONNECTIONS_PER_SERVER cfg))
              | FTP | FTPS => Some "1"
              | MAGNET | TORRENT => None
              end)
  /\ (let o := DownloadService._prepare_bt_options cfg None in
      Dict.lookup o "dir" = Some (DOWNLOADS_DIR cfg)
      /\ Dict.lookup o "enable-dht" = Some "true"
      /\ Dict.lookup o "enable-peer-exchange" = Some "true"
      /\ Dict.lookup o "bt-enable-lpd" = Some "true"
      /\ Dict.lookup o "listen-port"
         = match BT_LISTEN_PORT cfg with
           | Some port =>
               if (port =? 0)%Z then None else Some (Py.str_of_int port)
           | None => None
           end).
Proof.
  split; [|split; [|split]].
  - intros info custom key Hnd.
    unfold DownloadService._prepare_download_options.
    destruct custom as [|c cs]; [reflexivity|]. cbv zeta.
    now apply lookup_update.
  - intros custom key Hnd.
    unfold DownloadService._prepare_bt_options.
    destruct custom as [|c cs]; [reflexivity|]. cbv zeta.
    now apply lookup_update.
  - intros info o. subst o. unfold DownloadService._prepare_download_options.
    destruct (PyStr.is_empty (info_file_name info));
      destruct (info_download_type info); cbn; repeat split; reflexivity.
  - cbv zeta. unfold DownloadService._prepare_bt_options.
    destruct (BT_LISTEN_PORT cfg) as [port|];
      [destruct (port =? 0)%Z|]; cbn; repeat split; reflexivity.
Qed.

Lemma option_builders_let_overrides_win_witness :
  Dict.lookup
    (DownloadService._prepare_download_options default_settings
       {| info_url := "ftp://example.com/a.iso"; info_download_type := FTP;
          info_is_valid := true; info_error_message := "";
          info_file_name := "a.iso"; info_estimated_size := 0 |}
       (Some [("split", "8"); ("out", "b.iso")])) "split"
  = Some "8".
Proof.
  refine (proj1 (option_builders_let_overrides_win default_settings)
            _ [("split", "8"); ("out", "b.iso")] "split" _).
  repeat constructor; cbn; intuition discriminate.
Defined.

(** ** What the patterns accept *)

Section RegexFacts.

Import Re.

Local Abbreviation matches := Extra.matches.

Lemma matches_Empty (s : string) : ~ matches Empty s.
Proof. intros H. inversion H. Qed.

Lemma matches_Eps (s : string) : matches Eps s -> s = "".
Proof. intros H. now inversion H. Qed.

Lemma matches_Chr (p : ascii -> bool) (s : string) :
  matches (Chr p) s -> exists c, s = String c "" /\ p c = true.
Proof. intros H. inversion H; subst. now eexists. Qed.

Lemma matches_Cat (a b : regex) (s : string) :
  matches (Cat a b) s ->
  exists s1 s2, s = s1 ++ s2 /\ matches a s1 /\ matches b s2.
Proof. intros H. inversion H; subst. now eexists _, _. Qed.

Lemma matches_Alt (a b : regex) (s : string) :
  matches (Alt a b) s -> matches a s \/ matches b s.
Proof. intros H. inversion H; subst; [now left | now right]. Qed.

Lemma nullable_matches (r : regex) : nullable r = true <-> matches r "".
Proof.
  split.
  - induction r as [| |p|a IHa b IHb|a IHa b IHb|a IHa]; cbn [nullable];
      intros H; try discriminate H.
    + constructor.
    + apply andb_true_iff in H as [H1 H2].
      change "" with ("" ++ "")%string. constructor; auto.
    + apply orb_true_iff in H as [H|H]; [apply Extra.MAltL | apply Extra.MAltR]; auto.
    + constructor.
  - intros H. remember ""%string as s eqn:Hs.
    induction H as [|p c Hc|a b s1 s2 H1 IH1 H2 IH2|a b s H IH|a b s H IH
                   |a|a s1 s2 H1 IH1 H2 IH2]; cbn [nullable]; try reflexivity.
    + discriminate Hs.
    + destruct s1; [|discriminate Hs]. cbn in Hs.
      now rewrite IH1, IH2.
    + now rewrite IH.
    + rewrite IH by assumption. apply orb_true_r.
Qed.

Lemma cat_matches (a b : regex) (s : string) :
  matches (cat a b) s <-> matches (Cat a b) s.
Proof.
  assert (HEl : forall b s, matches Empty s <-> matches (Cat Empty b) s).
  { intros b0 s0. split; intros H; [inversion H|].
    apply matches_Cat in H as (s1 & s2 & _ & H & _). inversion H. }
  assert (HEr : forall a s, matches Empty s <-> matches (Cat a Empty) s).
  { intros a0 s0. split; intros H; [inversion H|].
    apply matches_Cat in H as (s1 & s2 & _ & _ & H). inversion H. }
  assert (Hl : forall b s, matches b s <-> matches (Cat Eps b) s).
  { intros b0 s0. split; intros H.
    - change s0 with ("" ++ s0)%string. constructor; [constructor | exact H].
    - apply matches_Cat in H as (s1 & s2 & -> & H1 & H2).
      apply matches_Eps in H1. now subst s1. }
  assert (Hr : forall a s, matches a s <-> matches (Cat a Eps) s).
  { intros a0 s0. split; intros H.
    - rewrite <- (append_empty_r s0). constructor; [exact H | constructor].
    - apply matches_Cat in H as (s1 & s2 & -> & H1 & H2).
      apply matches_Eps in H2. subst s2. now rewrite append_empty_r. }
  destruct a, b; cbn [cat];
    first [ reflexivity | apply HEl | apply HEr | apply Hl | apply Hr ].
Qed.

Lemma alt_matches (a b : regex) (s : string) :
  matches (alt a b) s <-> matches (Alt a b) s.
Proof.
  assert (Hl : forall b s, matches b s <-> matches (Alt Empty b) s).
  { intros b0 s0. split; intros H; [now apply Extra.MAltR|].
    apply matches_Alt in H as [H|H]; [inversion H | exact H]. }
  assert (Hr : forall a s, matches a s <-> matches (Alt a Empty) s).
  { intros a0 s0. split; intros H; [now apply Extra.MAltL|].
    apply matches_Alt in H as [H|H]; [exact H | inversion H]. }
  destruct a, b; cbn [alt]; first [ reflexivity | apply Hl | apply Hr ].
Qed.

Lemma star_cons (a : regex) (c : ascii) (s : string) :
  matches (Star a) (String c s) ->
  exists s1 s2,
    s = s1 ++ s2 /\ matches a (String c s1) /\ matches (Star a) s2.
Proof.
  intros H. remember (Star a) as r eqn:Hr. remember (String c s) as t eqn:Ht.
  induction H as [|p c0 Hc|a0 b s1 s2 H1 IH1 H2 IH2|a0 b s0 H IH|a0 b s0 H IH
                 |a0|a0 s1 s2 H1 IH1 H2 IH2]; try discriminate.
  injection Hr as ->. destruct s1 as [|c1 s1].
  - cbn in Ht. now apply IH2.
  - cbn in Ht. injection Ht as -> <-. now exists s1, s2.
Qed.

Lemma deriv_matches (r : regex) (c : ascii) (s : string) :
  matches (deriv c r) s <-> matches r (String c s).
Proof.
  revert s. induction r as [| |p|a IHa b IHb|a IHa b IHb|a IHa]; intros s;
    cbn [deriv].
  - split; intros H; inversion H.
  - split; intros H; inversion H.
  - destruct (p c) eqn:Hp; split; intros H.
    + apply matches_Eps in H. subst s. now constructor.
    + apply matches_Chr in H as (c' & H & _). injection H as _ ->. constructor.
    + inversion H.
    + apply matches_Chr in H as (c' & H & Hc). injection H as <- _. congruence.
  - assert (Hleft : matches (cat (deriv c a) b) s ->
                    matches (Cat a b) (String c s)).
    { intros H. apply cat_matches, matches_Cat in H as (s1 & s2 & -> & H1 & H2).
      apply IHa in H1. change (String c (s1 ++ s2)) with (String c s1 ++ s2).
      now constructor. }
    assert (Hsplit : matches (Cat a b) (String c s) ->
                     matches (cat (deriv c a) b) s
                     \/ (nullable a = true /\ matches (deriv c b) s)).
    { intros H. apply matches_Cat in H as (s1 & s2 & Hs & H1 & H2).
      destruct s1 as [|c1 s1].
      - cbn in Hs. subst s2. right. split; [now apply nullable_matches|].
        now apply IHb.
      - cbn in Hs. injection Hs as <- ->. left. apply cat_matches.
        constructor; [now apply IHa | exact H2]. }
    destruct (nullable a) eqn:Hn; split; intros H.
    + apply alt_matches, matches_Alt in H as [H|H]; [now apply Hleft|].
      apply IHb in H. change (String c s) with ("" ++ String c s).
      constructor; [now apply nullable_matches | exact H].
    + apply alt_matches. destruct (Hsplit H) as [H'|[_ H']];
        [now apply Extra.MAltL | now apply Extra.MAltR].
    + now apply Hleft.
    + destruct (Hsplit H) as [H'|[H' _]]; [exact H' | discriminate H'].
  - split; intros H.
    + apply alt_matches, matches_Alt in H as [H|H];
        [apply Extra.MAltL, IHa | apply Extra.MAltR, IHb]; exact H.
    + apply alt_matches. apply matches_Alt in H as [H|H];
        [apply Extra.MAltL, IHa | apply Extra.MAltR, IHb]; exact H.
  - split; intros H.
    + apply cat_matches, matches_Cat in H as (s1 & s2 & -> & H1 & H2).
      apply IHa in H1. change (String c (s1 ++ s2)) with (String c s1 ++ s2).
      now constructor.
    + apply star_cons in H as (s1 & s2 & -> & H1 & H2).
      apply cat_matches. constructor; [now apply IHa | exact H2].
Qed.

(** The matcher by derivatives accepts exactly the strings the pattern
    denotes. *)
Lemma fullmatch_matches (r : regex) (s : string) :
  fullmatch r s = true <-> matches r s.
Proof.
  revert r. induction s as [|c s IH]; intros r; cbn [fullmatch].
  - apply nullable_matches.
  - etransitivity; [apply IH | apply deriv_matches].
Qed.

Lemma prefix_ci_app (p s t : string) :
  PyStr.prefix_ci p s = true -> PyStr.prefix_ci p (s ++ t) = true.
Proof.
  revert s. induction p as [|a p IH]; intros s H; [reflexivity|].
  destruct s as [|b s]; [discriminate H|]. cbn [append PyStr.prefix_ci] in *.
  apply andb_true_iff in H as [H1 H2]. now rewrite H1, IH.
Qed.

Lemma matches_Word (w s x y : string) :
  matches (Word w) s ->
  PyStr.prefix_ci (w ++ x) (s ++ y) = PyStr.prefix_ci x y.
Proof.
  revert s. induction w as [|c w IH]; intros s H; cbn [Word] in H.
  - apply matches_Eps in H. now subst s.
  - apply matches_Cat in H as (s1 & s2 & -> & H1 & H2).
    apply matches_Chr in H1 as (a & -> & Ha).
    cbn [append PyStr.prefix_ci]. now rewrite Ha, (IH s2 H2).
Qed.

(** A string accepted by [w s? ://...], anchored as [validate_url] anchors
    it, starts with [w://] or [ws://] when case is ignored. *)
Lemma scheme_of_match (w : string) (rest : regex) (s : string) :
  match_anchored
    (Cat (Word w) (Cat (Opt (Lit "s")) (Cat (Word "://") rest))) s = true ->
  PyStr.prefix_ci (w ++ "://") s = true
  \/ PyStr.prefix_ci (w ++ "s://") s = true.
Proof.
  assert (Hm : forall s,
             matches (Cat (Word w) (Cat (Opt (Lit "s")) (Cat (Word "://") rest))) s ->
             PyStr.prefix_ci (w ++ "://") s = true
             \/ PyStr.prefix_ci (w ++ "s://") s = true).
  { intros s0 H.
    apply matches_Cat in H as (s1 & t1 & -> & H1 & H).
    apply matches_Cat in H as (s2 & t2 & -> & H2 & H).
    apply matches_Cat in H as (s3 & s4 & -> & H3 & _).
    rewrite !(matches_Word w s1 _ _ H1).
    assert (H4 : PyStr.prefix_ci "://" (s3 ++ s4) = true)
      by exact (matches_Word "://" s3 "" s4 H3).
    apply matches_Alt in H2 as [H2|H2].
    - apply matches_Eps in H2. subst s2. left. exact H4.
    - apply matches_Chr in H2 as (a & -> & Ha). right.
      cbn [append PyStr.prefix_ci]. rewrite Ha. exact H4. }
  unfold match_anchored. intros H. apply orb_true_iff in H as [H|H];
    apply fullmatch_matches in H.
  - now apply Hm.
  - apply matches_Cat in H as (s1 & s2 & -> & H1 & _).
    destruct (Hm s1 H1) as [H|H]; [left | right]; now apply prefix_ci_app.
Qed.

End RegexFacts.

(** ** Valid locators *)

Section LocatorFacts.

Lemma eqb_ci_common (a b c : ascii) :
  PyStr.eqb_ci a c = true -> PyStr.eqb_ci b c = true -> PyStr.eqb_ci a b = true.
Proof.
  unfold PyStr.eqb_ci. rewrite !Ascii.eqb_eq. congruence.
Qed.

(** Two prefixes of one string: the shorter is a prefix of the longer. *)
Lemma prefix_ci_common (p q u : string) :
  PyStr.prefix_ci p u = true -> PyStr.prefix_ci q u = true ->
  (String.length p <= String.length q)%nat ->
  PyStr.prefix_ci p q = true.
Proof.
  revert q u. induction p as [|a p IH]; intros q u Hp Hq Hl; [reflexivity|].
  destruct u as [|c u]; [discriminate Hp|].
  destruct q as [|b q]; [cbn in Hl; lia|].
  cbn [PyStr.prefix_ci String.length] in *.
  apply andb_true_iff in Hp as [Hp1 Hp2]. apply andb_true_iff in Hq as [Hq1 Hq2].
  rewrite (eqb_ci_common a b c Hp1 Hq1), (IH q u Hp2 Hq2) by lia. reflexivity.
Qed.

Lemma prefix_ci_shorter (p x u : string) :
  PyStr.prefix_ci (p ++ x) u = true -> PyStr.prefix_ci p u = true.
Proof.
  revert u. induction p as [|a p IH]; intros u H; [reflexivity|].
  destruct u as [|c u]; [discriminate H|]. cbn [append PyStr.prefix_ci] in *.
  apply andb_true_iff in H as [H1 H2]. now rewrite H1, (IH u H2).
Qed.

(** A locator that [validate_url] accepts under the kind detected for it
    has the form of that kind. *)
Lemma validate_detected (u : string) :
  fst (UrlInfoM.validate_url u (DownloadTaskM.detect_download_type u)) = true ->
  Extra.well_formed (DownloadTaskM.detect_download_type u) u = true
  /\ PyStr.is_empty u = false.
Proof.
  destruct u as [|c0 r0]; [intros H; discriminate H|].
  set (u := String c0 r0). intros H. split; [|reflexivity]. revert H.
  unfold DownloadTaskM.detect_download_type, UrlInfoM.validate_url.
  change (PyStr.is_empty u) with false. cbv iota zeta.
  unfold PyStr.startswith.
  rewrite !prefix_lower by reflexivity. rewrite endswith_lower by reflexivity.
  assert (Hhttp : Re.match_anchored UrlPatterns.url_pattern u = true ->
                  PyStr.prefix_ci "http://" u = true
                  \/ PyStr.prefix_ci "https://" u = true)
    by apply (scheme_of_match "http").
  assert (Hftp : Re.match_anchored UrlPatterns.ftp_pattern u = true ->
                 PyStr.prefix_ci "ftp://" u = true
                 \/ PyStr.prefix_ci "ftps://" u = true)
    by apply (scheme_of_match "ftp").
  assert (Hshort : forall p x, PyStr.prefix_ci p u = false ->
                               PyStr.prefix_ci (p ++ x) u = true -> False).
  { intros p x Hf Ht. apply prefix_ci_shorter in Ht. congruence. }
  assert (Hclash : forall p q, PyStr.prefix_ci p u = true ->
                               PyStr.prefix_ci q u = true ->
                               (String.length p <= String.length q)%nat ->
                               PyStr.prefix_ci p q = false -> False).
  { intros p q Hp Hq Hl Hf. rewrite (prefix_ci_common p q u Hp Hq Hl) in Hf.
    discriminate Hf. }
  destruct (PyStr.prefix_ci "magnet:" u) eqn:Hm.
  { cbn [Extra.well_formed].
    destruct (prefix "magnet:" u); [|intros H; discriminate H].
    destruct (PyStr.contains "xt=" u); [reflexivity | intros H; discriminate H]. }
  destruct (PyStr.prefix_ci "https:" u) eqn:Hs.
  { cbn [Extra.well_formed].
    destruct (Re.match_anchored UrlPatterns.url_pattern u);
      [intros _ | intros H; discriminate H].
    destruct (Hhttp eq_refl) as [H|H]; [exfalso | exact H].
    apply (Hclash "https:" "http://" Hs H); [cbn; lia | reflexivity]. }
  destruct (PyStr.prefix_ci "http:" u) eqn:Hh.
  { cbn [Extra.well_formed].
    destruct (Re.match_anchored UrlPatterns.url_pattern u);
      [intros _ | intros H; discriminate H].
    destruct (Hhttp eq_refl) as [H|H]; [exact H | exfalso].
    exact (Hshort "https:" "//" Hs H). }
  destruct (PyStr.prefix_ci "ftps:" u) eqn:Hfs.
  { cbn [Extra.well_formed].
    destruct (Re.match_anchored UrlPatterns.ftp_pattern u);
      [intros _ | intros H; discriminate H].
    destruct (Hftp eq_refl) as [H|H]; [exfalso | exact H].
    apply (Hclash "ftps:" "ftp://" Hfs H); [cbn; lia | reflexivity]. }
  destruct (PyStr.prefix_ci "ftp:" u) eqn:Hf.
  { cbn [Extra.well_formed].
    destruct (Re.match_anchored UrlPatterns.ftp_pattern u);
      [intros _ | intros H; discriminate H].
    destruct (Hftp eq_refl) as [H|H]; [exact H | exfalso].
    exact (Hshort "ftps:" "//" Hfs H). }
  destruct (PyStr.suffix_ci ".torrent" u) eqn:Ht.
  { intros _. exact Ht. }
  cbn [Extra.well_formed].
  destruct (Re.match_anchored UrlPatterns.url_pattern u);
    [intros _ | intros H; discriminate H].
  exfalso. destruct (Hhttp eq_refl) as [H|H].
  - exact (Hshort "http:" "//" Hh H).
  - exact (Hshort "https:" "//" Hs H).
Qed.

Variable urlparse_path : string -> Py.result string.

Lemma from_url_fields (url : string) (info : UrlInfo) :
  UrlInfoM.from_url urlparse_path url = Py.Ok info ->
  let u := PyStr.strip url in
  let kind := DownloadTaskM.detect_download_type u in
  info_url info = u
  /\ info_download_type info = kind
  /\ info_is_valid info = fst (UrlInfoM.validate_url u kind)
  /\ info_error_message info = snd (UrlInfoM.validate_url u kind).
Proof.
  unfold UrlInfoM.from_url, Py.rbind. intros H. cbv zeta.
  destruct (UrlInfoM.validate_url _ _) as [ok msg].
  destruct (DownloadTaskM.detect_download_type _);
    try destruct (urlparse_path _); try discriminate H;
    injection H as <-; repeat split; reflexivity.
Qed.

End LocatorFacts.

(** X10. A locator that [UrlInfo.from_url] declares valid has the form of
    the kind detected for it: it is not empty; an HTTP locator starts with
    [http://], an HTTPS one with [https://], an FTP one with [ftp://], an
    FTPS one with [ftps://] (case ignored); a magnet link starts with
    [magnet:] in lower case and contains [xt=]; a torrent locator ends in
    [.torrent] (case ignored).  So a locator without a known scheme, which
    detection makes HTTP, is never valid. *)
Theorem valid_locator_has_the_form_of_its_kind
  (urlparse_path : string -> Py.result string) (url : string) (info : UrlInfo) :
  UrlInfoM.from_url urlparse_path url = Py.Ok info ->
  info_is_valid info = true ->
  info_url info = PyStr.strip url
  /\ PyStr.is_empty (info_url info) = false
  /\ Extra.well_formed (info_download_type info) (info_url info) = true.
Proof.
  intros H Hv. destruct (from_url_fields urlparse_path url info H)
    as (Hu & Hk & Hvalid & _). cbv zeta in *.
  rewrite Hv in Hvalid. symmetry in Hvalid.
  destruct (validate_detected _ Hvalid) as [Hw He].
  rewrite Hu, Hk. split; [reflexivity|]. split; [exact He | exact Hw].
Qed.

Lemma valid_locator_has_the_form_of_its_kind_witness :
  exists info,
    UrlInfoM.from_url Urllib.urlparse_path "  HTTP://Example.com/a.zip " = Py.Ok info
    /\ info_download_type info = HTTP
    /\ info_url info = "HTTP://Example.com/a.zip"
    /\ Extra.well_formed HTTP "HTTP://Example.com/a.zip" = true.
Proof.
  match eval vm_compute in
        (UrlInfoM.from_url Urllib.urlparse_path "  HTTP://Example.com/a.zip ")
  with
  | Py.Ok ?i =>
      assert (H : UrlInfoM.from_url Urllib.urlparse_path
                    "  HTTP://Example.com/a.zip " = Py.Ok i)
        by (vm_compute; reflexivity);
      exists i
  end.
  split; [exact H|].
  pose proof (valid_locator_has_the_form_of_its_kind Urllib.urlparse_path
                _ _ H eq_refl) as (_ & _ & Hw).
  split; [reflexivity|]. split; [reflexivity | exact Hw].
Defined.

(** X11. Kind detection ignores case but magnet validation does not: a
    locator whose stripped text starts with [magnet:] in some other
    casing is detected as a magnet link and then rejected with the
    wrong-format message, whatever the URL parser does. *)
Theorem magnet_scheme_must_be_lower_case
  (urlparse_path : string -> Py.result string) (url : string) :
  PyStr.prefix_ci "magnet:" (PyStr.strip url) = true ->
  prefix "magnet:" (PyStr.strip url) = false ->
  UrlInfoM.from_url urlparse_path url
  = Py.Ok {| info_url := PyStr.strip url;
             info_download_type := MAGNET;
             info_is_valid := false;
             info_error_message := "Invalid magnet link format";
             info_file_name := "";
             info_estimated_size := 0 |}.
Proof.
  intros Hci Hcs. unfold UrlInfoM.from_url.
  assert (Hk : DownloadTaskM.detect_download_type (PyStr.strip url) = MAGNET).
  { unfold DownloadTaskM.detect_download_type, PyStr.startswith.
    rewrite prefix_lower by reflexivity. rewrite Hci.
    now destruct (PyStr.strip url). }
  rewrite Hk. unfold UrlInfoM.validate_url, PyStr.startswith. rewrite Hcs.
  destruct (PyStr.strip url); [discriminate Hci | reflexivity].
Qed.

Lemma magnet_scheme_must_be_lower_case_witness :
  UrlInfoM.from_url Urllib.urlparse_path "Magnet:?xt=urn:btih:abc"
  = Py.Ok {| info_url := "Magnet:?xt=urn:btih:abc";
             info_download_type := MAGNET;
             info_is_valid := false;
             info_error_message := "Invalid magnet link format";
             info_file_name := "";
             info_estimated_size := 0 |}.
Proof.
  exact (magnet_scheme_must_be_lower_case Urllib.urlparse_path
           "Magnet:?xt=urn:btih:abc" eq_refl eq_refl).
Defined.

(** ** The two remaining-time formatters *)

Section EtaFacts.

Lemma str_of_int_head (z : Z) :
  exists c r, Py.str_of_int z = String c r /\ c <> "u"%char.
Proof.
  unfold Py.str_of_int.
  destruct (Z.to_int z) as [d|d]; destruct d; cbn;
    eexists _, _; (split; [reflexivity | discriminate]).
Qed.

Lemma str_of_int_not_unknown (z : Z) (rest : string) :
  Py.str_of_int z ++ rest <> "unknown".
Proof.
  destruct (str_of_int_head z) as (c & r & -> & Hc).
  cbn [append]. intros H. injection H as H _. exact (Hc H).
Qed.

Lemma format_duration_not_unknown (q : Q) :
  TimeFormatter.format_duration q <> "unknown".
Proof.
  unfold TimeFormatter.format_duration.
  destruct (Qle_bool q 0); [discriminate|]. cbv zeta.
  repeat match goal with
         | |- (if ?b then _ else _) <> _ => destruct b
         end; apply str_of_int_not_unknown.
Qed.

Lemma ldexp_nonneg (m e : Z) : (0 <= m)%Z -> (0 <= PyFloat.ldexp m e)%Q.
Proof.
  intros Hm. unfold PyFloat.ldexp. destruct (0 <=? e)%Z eqn:He.
  - apply Z.leb_le in He. change 0%Q with (inject_Z 0). rewrite <- Zle_Qle.
    apply Z.mul_nonneg_nonneg; [exact Hm | apply Z.pow_nonneg; lia].
  - rewrite Qred_correct. unfold Qle. cbn. lia.
Qed.

Lemma rnd_pos_nonneg (n d : positive) : (0 <= PyFloat.rnd_pos n d)%Q.
Proof.
  unfold PyFloat.rnd_pos. apply ldexp_nonneg. unfold PyFloat.significand.
  destruct (0 <=? PyFloat.ulp_exp n d)%Z eqn:He.
  - apply Z.leb_le in He. apply round_half_even_nonneg; [lia|].
    apply Z.mul_pos_pos; [lia | apply Z.pow_pos_nonneg; lia].
  - apply round_half_even_nonneg; [|lia].
    apply Z.mul_nonneg_nonneg; [lia | apply Z.pow_nonneg; lia].
Qed.

Lemma int_true_div_nonneg (a b : Z) (q : Q) :
  (0 <= a)%Z -> (0 < b)%Z -> PyFloat.int_true_div a b = Some q -> (0 <= q)%Q.
Proof.
  intros Ha Hb H. unfold PyFloat.int_true_div in H.
  destruct b as [|d|d]; [lia | | lia].
  destruct (PyFloat.overflows _); [discriminate H|]. injection H as <-.
  unfold PyFloat.rnd. cbn [Qnum Qden].
  destruct a as [|n|n]; [apply Qle_refl | apply rnd_pos_nonneg | lia].
Qed.

Lemma trunc_below (q : Q) (N : Z) :
  (0 <= q)%Q -> PyFloat.Qlt_bool q (inject_Z N) = true ->
  (0 <= PyFloat.trunc q < N)%Z.
Proof.
  intros H0 Hlt. unfold PyFloat.trunc.
  assert (Hn : (0 <= Qnum q)%Z) by (unfold Qle in H0; cbn in H0; lia).
  apply Z.leb_le in Hn. rewrite Hn. split.
  - change 0%Z with (Qfloor 0). now apply Qfloor_resp_le.
  - unfold PyFloat.Qlt_bool in Hlt. apply negb_true_iff in Hlt.
    apply Z.nle_gt. intros Hle. rewrite Zle_Qle in Hle.
    assert (Hc : Qle_bool (inject_Z N) q = true).
    { apply Qle_bool_iff. eapply Qle_trans; [exact Hle | apply Qfloor_le]. }
    congruence.
Qed.

End EtaFacts.

(** X12. The two remaining-time formatters, [DownloadTask.calculate_eta]
    and [TimeFormatter.format_eta], answer "unknown" exactly when the speed
    is not positive or nothing remains, and no other answer of theirs reads
    "unknown".  When the remaining time (the float quotient of the
    remaining bytes by the speed) is under a minute they agree: both give
    its whole seconds followed by [s]. *)
Theorem eta_formatters_agree_below_a_minute (total completed speed : Z) :
  (DownloadTaskM.calculate_eta total completed speed = Some "unknown"
   <-> (speed <= 0 \/ total <= completed)%Z)
  /\ (TimeFormatter.format_eta total completed speed = Some "unknown"
      <-> (speed <= 0 \/ total <= completed)%Z)
  /\ (forall q,
         (0 < speed)%Z -> (completed < total)%Z ->
         PyFloat.int_true_div (total - completed) speed = Some q ->
         PyFloat.Qlt_bool q 60 = true ->
         (0 <= PyFloat.trunc q < 60)%Z
         /\ DownloadTaskM.calculate_eta total completed speed
            = Some (Py.str_of_int (PyFloat.trunc q) ++ "s")
         /\ TimeFormatter.format_eta total completed speed
            = Some (Py.str_of_int (PyFloat.trunc q) ++ "s")).
Proof.
  assert (Hcond : ((speed <=? 0) || (total <=? completed))%Z%bool = true
                  <-> (speed <= 0 \/ total <= completed)%Z).
  { now rewrite orb_true_iff, !Z.leb_le. }
  split; [|split].
  - unfold DownloadTaskM.calculate_eta.
    destruct ((speed <=? 0) || (total <=? completed))%Z%bool.
    + split; [intros _; now apply Hcond | reflexivity].
    + split; [|intros H; apply Hcond in H; discriminate H].
      unfold Py.bind. cbv zeta.
      destruct (PyFloat.int_true_div _ _) as [q|]; [|discriminate].
      intros H. exfalso.
      destruct (PyFloat.Qlt_bool q 60); [|destruct (PyFloat.Qlt_bool q 3600)];
        injection H as H; exact (str_of_int_not_unknown _ _ H).
  - unfold TimeFormatter.format_eta.
    destruct ((speed <=? 0) || (total <=? completed))%Z%bool.
    + split; [intros _; now apply Hcond | reflexivity].
    + split; [|intros H; apply Hcond in H; discriminate H].
      unfold Py.bind. cbv zeta.
      destruct (PyFloat.int_true_div _ _) as [q|]; [|discriminate].
      intros H. injection H as H. exfalso.
      exact (format_duration_not_unknown q H).
  - intros q Hs Hc Hq Hlt.
    assert (H0 : (0 <= q)%Q)
      by (apply (int_true_div_nonneg (total - completed) speed); [lia | lia | exact Hq]).
    pose proof (trunc_below q 60 H0 Hlt) as Ht.
    split; [exact Ht|].
    assert (Hf : ((speed <=? 0) || (total <=? completed))%Z%bool = false).
    { apply orb_false_iff. split; apply Z.leb_gt; lia. }
    unfold DownloadTaskM.calculate_eta, TimeFormatter.format_eta.
    rewrite Hf. cbv zeta. rewrite Hq. unfold Py.bind. rewrite Hlt.
    split; [reflexivity|]. f_equal. unfold TimeFormatter.format_duration.
    destruct (Qle_bool q 0) eqn:Hle.
    + apply Qle_bool_iff in Hle.
      assert (Hz : Qnum q = 0%Z).
      { unfold Qle in H0, Hle. cbn in H0, Hle. lia. }
      unfold PyFloat.trunc, Qfloor. destruct q as [n d]. cbn in Hz. subst n.
      reflexivity.
    + cbv zeta. destruct (Z.ltb_spec (PyFloat.trunc q) 60); [reflexivity | lia].
Qed.

Lemma eta_formatters_agree_below_a_minute_witness :
  DownloadTaskM.calculate_eta 1000 500 100 = Some "5s"
  /\ TimeFormatter.format_eta 1000 500 100 = Some "5s".
Proof.
  match eval vm_compute in (PyFloat.int_true_div (1000 - 500) 100) with
  | Some ?q =>
      assert (Hq : PyFloat.int_true_div (1000 - 500) 100 = Some q)
        by (vm_compute; reflexivity);
      assert (Hlt : PyFloat.Qlt_bool q 60 = true) by (vm_compute; reflexivity);
      destruct (eta_formatters_agree_below_a_minute 1000 500 100)
        as (_ & _ & H);
      destruct (H q ltac:(lia) ltac:(lia) Hq Hlt) as (_ & H1 & H2)
  end.
  rewrite H1, H2. vm_compute. split; reflexivity.
Defined.

(** ** Uploaded files *)

Section ParseFacts.

Import UrlListParser.

Lemma prefix_empty (z : string) : prefix "" z = true.
Proof. now destruct z. Qed.

Lemma split_whitespace_aux_head (s cur : string) :
  PyStr.is_empty cur = false ->
  exists t rest,
    split_whitespace_aux s cur = (PyStr.rev cur ++ t) :: rest
    /\ Extra.no_space t = true
    /\ prefix t s = true.
Proof.
  revert cur. induction s as [|c r IH]; intros cur Hcur.
  - exists "", []. cbn [split_whitespace_aux]. rewrite Hcur, append_empty_r.
    now repeat split.
  - cbn [split_whitespace_aux]. destruct (PyStr.isspace c) eqn:Hc.
    + rewrite Hcur. exists "", (split_whitespace_aux r ""). rewrite append_empty_r.
      now repeat split.
    + destruct (IH (String c cur) eq_refl) as (t & rest & -> & Ht & Hp).
      exists (String c t), rest. rewrite rev_cons, append_assoc.
      cbn [append Extra.no_space]. rewrite Hc, Ht, prefix_cons, Ascii.eqb_refl, Hp.
      now repeat split.
Qed.

Lemma strip_head (line : string) (c : ascii) (z : string) :
  PyStr.strip line = String c z -> PyStr.isspace c = false.
Proof.
  unfold PyStr.strip. destruct (PyStr.lstrip line) as [|d r] eqn:Hl.
  - discriminate.
  - pose proof (lstrip_head line d r Hl) as Hd.
    destruct (rstrip_keeps_head d r Hd) as [z' ->].
    intros H. injection H as <- _. exact Hd.
Qed.

Lemma strip_keeps_solid (c : ascii) (t : string) :
  PyStr.isspace c = false -> PyStr.is_empty (PyStr.strip (String c t)) = false.
Proof.
  intros Hc. unfold PyStr.strip. cbn [PyStr.lstrip]. rewrite Hc.
  now destruct (rstrip_keeps_head c t Hc) as [z ->].
Qed.

(** What one line of the file contributes. *)
Lemma parse_lines_in (lines : list string) (u : string) :
  In u (parse_lines lines) ->
  exists line c t,
    In line lines
    /\ u = String c t
    /\ PyStr.isspace c = false
    /\ c <> "#"%char
    /\ Extra.no_space t = true
    /\ prefix u (PyStr.strip line) = true.
Proof.
  induction lines as [|line lines IH]; [intros []|].
  cbn [parse_lines]. cbv zeta.
  assert (Hrest : In u (parse_lines lines) ->
                  exists line0 c t,
                    In line0 (line :: lines) /\ u = String c t
                    /\ PyStr.isspace c = false /\ c <> "#"%char
                    /\ Extra.no_space t = true
                    /\ prefix u (PyStr.strip line0) = true).
  { intros H. destruct (IH H) as (l0 & c & t & Hin & Hrest).
    exists l0, c, t. split; [now right | exact Hrest]. }
  destruct (PyStr.strip line) as [|c z] eqn:Hs; [exact Hrest|].
  cbn [PyStr.is_empty orb]. unfold PyStr.startswith. rewrite prefix_cons.
  rewrite prefix_empty, andb_true_r.
  destruct (Ascii.eqb "#" c) eqn:Hhash; [exact Hrest|].
  pose proof (strip_head line c z Hs) as Hc.
  unfold split_whitespace. cbn [split_whitespace_aux]. rewrite Hc.
  destruct (split_whitespace_aux_head z (String c "") eq_refl)
    as (t & rest & -> & Ht & Hp).
  change (PyStr.rev (String c "") ++ t) with (String c t).
  cbn [PyStr.is_empty]. intros [<- | H]; [|exact (Hrest H)].
  exists line, c, t. split; [now left|]. split; [reflexivity|].
  split; [exact Hc|]. split.
  - intros Heq. subst c. rewrite Ascii.eqb_refl in Hhash. discriminate Hhash.
  - split; [exact Ht|]. now rewrite Hs, prefix_cons, Ascii.eqb_refl, Hp.
Qed.

Lemma kept_all (urls : list string) :
  (forall u, In u urls -> Spec.blank u = false) -> Spec.kept urls = urls.
Proof.
  intros H. unfold Spec.kept. induction urls as [|u urls IH]; [reflexivity|].
  cbn [filter]. rewrite (H u (or_introl eq_refl)). cbn [negb]. f_equal.
  apply IH. intros v Hv. apply H. now right.
Qed.

End ParseFacts.



Section UploadFacts.

Context {E : Type}.
Variable env : Env E.
Variable cfg : Settings.
Variable urlparse_path : string -> Py.result string.
Variable i18n_t : string -> string.

Lemma parsed_kept (content : string) :
  Spec.kept (UrlListParser.parse_url_file content)
  = UrlListParser.parse_url_file content.
Proof.
  apply kept_all. intros u Hu. unfold UrlListParser.parse_url_file in Hu.
  destruct (parse_lines_in _ u Hu) as (line & c & t & _ & -> & Hc & _).
  now apply strip_keeps_solid.
Qed.

Lemma Forall2_length_eq {A B : Type} (R : A -> B -> Prop) (l : list A) (m : list B) :
  Forall2 R l m -> List.length l = List.length m.
Proof. induction 1; cbn; congruence. Qed.

(** A batch of locators none of which is blank is never answered with
    NO_URLS, unless it is empty. *)
Lemma add_batch_urls_of_kept (urls : list string) options (w : World E) :
  urls <> [] -> Spec.kept urls = urls ->
  let r := DownloadService.add_batch_urls env cfg urlparse_path i18n_t urls
             options w in
  (exists m, UrlValidator.validate_url_list urlparse_path urls = Py.Raise m
             /\ r = (Failure m "UNKNOWN_ERROR", w))
  \/ (exists ok sc fc results,
         fst r = Batch ok sc fc (Z.of_nat (List.length urls)) results).
Proof.
  intros Hne Hk. cbv zeta. unfold DownloadService.add_batch_urls.
  destruct (UrlValidator.validate_url_list urlparse_path urls) as [infos|m] eqn:Hv.
  - right. pose proof (validate_url_list_spec urlparse_path urls infos Hv) as HF.
    rewrite Hk in HF. apply Forall2_length_eq in HF.
    destruct infos as [|i infos].
    + destruct urls; [now contradiction Hne | discriminate HF].
    + destruct (DownloadService.add_each _ _ _ _ _ _ _ _ _ _) as [[[sc fc] res] w'].
      cbn [fst]. rewrite HF. now eexists _, _, _, _.
  - left. now exists m.
Qed.

End UploadFacts.

(** X14. [add_url_list_file] validates the file first: a file that fails
    validation is answered with the validator's message under INVALID_FILE
    and nothing is sent.  A file that passes holds at least one locator,
    all of them kept by batch validation, and is handed to
    [add_batch_urls]; the answer is then a batch result that counts every
    locator of the file, or UNKNOWN_ERROR when the URL parser raised.  The
    NO_URLS answer is never given. *)
Theorem url_list_upload_is_never_empty
  (E : Type) (env : Env E) (cfg : Settings)
  (urlparse_path : string -> Py.result string) (i18n_t : string -> string)
  (content filename : string) (options : option Options) (w : World E) :
  let upload :=
    Uploads.add_url_list_file env cfg urlparse_path i18n_t content filename
      options w in
  let urls := UrlListParser.parse_url_file content in
  let verdict := FileValidator.validate_url_list_file filename content in
  (fst verdict = false -> upload = (Failure (snd verdict) "INVALID_FILE", w))
  /\ (fst verdict = true ->
      urls <> []
      /\ Spec.kept urls = urls
      /\ upload
         = DownloadService.add_batch_urls env cfg urlparse_path i18n_t urls
             options w
      /\ ((exists m, upload = (Failure m "UNKNOWN_ERROR", w))
          \/ (exists ok sc fc results,
                 fst upload
                 = Batch ok sc fc (Z.of_nat (List.length urls)) results)))
  /\ (forall e, fst upload <> Failure e "NO_URLS").
Proof.
  cbv zeta. unfold Uploads.add_url_list_file.
  assert (Hvalid : fst (FileValidator.validate_url_list_file filename content) = true ->
                   UrlListParser.parse_url_file content <> []).
  { unfold FileValidator.validate_url_list_file. cbv zeta.
    destruct (negb _); [discriminate|].
    destruct (_ <? _)%Z; [discriminate|].
    destruct (UrlListParser.parse_url_file content); [discriminate | discriminate]. }
  destruct (FileValidator.validate_url_list_file filename content)
    as [ok msg] eqn:Hv. cbn [fst snd] in *.
  destruct ok; cbn [negb].
  - specialize (Hvalid eq_refl).
    pose proof (add_batch_urls_of_kept env cfg urlparse_path i18n_t
                  (UrlListParser.parse_url_file content) options w Hvalid
                  (parsed_kept content)) as Hb.
    cbv zeta in Hb.
    destruct (UrlListParser.parse_url_file content) as [|u urls] eqn:Hp;
      [now contradiction Hvalid|].
    split; [discriminate|]. split.
    + intros _. split; [discriminate|]. split; [now rewrite <- Hp, parsed_kept|].
      split; [reflexivity|].
      destruct Hb as [(m & _ & Hb) | Hb]; [left; now exists m | now right].
    + intros e He.
      destruct Hb as [(m & _ & Hb) | (ok & sc & fc & res & Hb)];
        rewrite Hb in He; discriminate He.
  - split; [reflexivity|]. split; [discriminate|].
    intros e He. discriminate He.
Qed.

Lemma url_list_upload_is_never_empty_witness :
  fst (Uploads.add_url_list_file RefEngine.env default_settings
         Urllib.urlparse_path i18n_key Extra.sample_list "mirrors.TXT" None
         (initial_world (RefEngine.running [] [] [])))
  = fst (DownloadService.add_batch_urls RefEngine.env default_settings
           Urllib.urlparse_path i18n_key
           ["http://example.com/a.zip"; "ftp://example.org/b.iso"] None
           (initial_world (RefEngine.running [] [] []))).
Proof.
  assert (Hv : fst (FileValidator.validate_url_list_file "mirrors.TXT"
                      Extra.sample_list) = true)
    by (vm_compute; reflexivity).
  destruct (url_list_upload_is_never_empty _ RefEngine.env default_settings
              Urllib.urlparse_path i18n_key Extra.sample_list "mirrors.TXT"
              None (initial_world (RefEngine.running [] [] [])))
    as (_ & H & _).
  destruct (H Hv) as (_ & _ & -> & _).
  vm_compute. reflexivity.
Defined.



(** ** Sizes that do not overflow *)

Section SizeFacts.

Lemma within_bounds (z : Z) : Extra.within z = true -> (0 <= z <= 2 ^ 52)%Z.
Proof.
  unfold Extra.within. intros H. apply andb_true_iff in H as [H1 H2].
  apply Z.leb_le in H1, H2. now split.
Qed.

Lemma bounded_does_not_overflow (x : Q) :
  (0 <= x)%Q -> (x <= inject_Z (2 ^ 52))%Q -> PyFloat.overflows x = false.
Proof.
  intros H0 H1. unfold PyFloat.overflows.
  destruct (Qle_bool (inject_Z (2 ^ 1024)) (Qabs x)) eqn:Hb; [|reflexivity].
  apply Qle_bool_iff in Hb. rewrite (Qabs_pos x H0) in Hb.
  assert (Hlt : (inject_Z (2 ^ 52) < inject_Z (2 ^ 1024))%Q).
  { rewrite <- Zlt_Qlt. apply Z.pow_lt_mono_r; lia. }
  exfalso. apply (Qlt_irrefl (inject_Z (2 ^ 52))).
  eapply Qlt_le_trans; [exact Hlt|]. eapply Qle_trans; eassumption.
Qed.

Lemma rnd_stays_finite (x : Q) :
  (0 <= x)%Q -> (x <= inject_Z (2 ^ 52))%Q ->
  PyFloat.overflows (PyFloat.rnd x) = false.
Proof.
  intros H0 H1.
  destruct (rnd_bounds x (2 ^ 52) ltac:(lia) H0 H1) as [Ha Hb].
  now apply bounded_does_not_overflow.
Qed.

Lemma int_to_float_some (z : Z) :
  (0 <= z <= 2 ^ 52)%Z -> exists x, DownloadTaskDict.int_to_float z = Some x.
Proof.
  intros Hz. unfold DownloadTaskDict.int_to_float. cbv zeta.
  rewrite rnd_stays_finite; [now eexists | |].
  - change 0%Q with (inject_Z 0). rewrite <- Zle_Qle. lia.
  - rewrite <- Zle_Qle. lia.
Qed.

Lemma int_true_div_some (a b : Z) :
  (0 <= a <= 2 ^ 52)%Z -> (0 < b)%Z ->
  exists q, PyFloat.int_true_div a b = Some q.
Proof.
  intros Ha Hb. unfold PyFloat.int_true_div.
  destruct b as [|d|d]; [lia | | lia]. cbv zeta.
  rewrite rnd_stays_finite; [now eexists | |].
  - unfold Qle. cbn. lia.
  - unfold Qle. cbn. nia.
Qed.

Lemma format_size_some (z : Z) :
  Extra.within z = true -> exists s, DownloadTaskDict.format_size z = Some s.
Proof.
  intros H. apply within_bounds in H. unfold DownloadTaskDict.format_size.
  destruct (z =? 0)%Z; [now eexists|].
  destruct (int_to_float_some z H) as [x ->]. unfold Py.bind.
  destruct (z <? 1024)%Z; now eexists.
Qed.

Lemma to_dict_some (t : DownloadTask) :
  Extra.plausible t = true ->
  exists d, DownloadTaskDict.to_dict t = Some d /\ dict_task d = t.
Proof.
  unfold Extra.plausible. intros H.
  apply andb_true_iff in H as [H H4]. apply andb_true_iff in H as [H H3].
  apply andb_true_iff in H as [H1 H2].
  unfold DownloadTaskDict.to_dict, DownloadTaskDict.format_speed, Py.bind.
  destruct (format_size_some _ H1) as [s1 ->].
  destruct (format_size_some _ H2) as [s2 ->].
  destruct (format_size_some _ H3) as [s3 ->].
  destruct (format_size_some _ H4) as [s4 ->].
  eexists. split; reflexivity.
Qed.

Lemma to_dicts_some (l : list DownloadTask) :
  forallb Extra.plausible l = true ->
  exists ds, DownloadTaskDict.to_dicts l = Some ds.
Proof.
  induction l as [|t l IH]; [now eexists|]. cbn [forallb].
  intros H. apply andb_true_iff in H as [Ht Hl].
  cbn [DownloadTaskDict.to_dicts]. unfold Py.bind.
  destruct (to_dict_some t Ht) as (d & -> & _).
  destruct (IH Hl) as [ds ->]. now eexists.
Qed.

Lemma forallb_filter {A : Type} (p f : A -> bool) (l : list A) :
  forallb p l = true -> forallb p (filter f l) = true.
Proof.
  induction l as [|a l IH]; [reflexivity|]. cbn [forallb filter].
  intros H. apply andb_true_iff in H as [Ha Hl].
  destruct (f a); cbn [forallb]; [rewrite Ha|]; now apply IH.
Qed.

Lemma forallb_firstn {A : Type} (p : A -> bool) (n : nat) (l : list A) :
  forallb p l = true -> forallb p (firstn n l) = true.
Proof.
  revert n. induction l as [|a l IH]; intros [|n]; try reflexivity.
  cbn [forallb firstn]. intros H. apply andb_true_iff in H as [Ha Hl].
  now rewrite Ha, (IH n Hl).
Qed.

End SizeFacts.

(** X16. Serialisation fails only on sizes that no float can hold: a task
    whose two lengths and two speeds lie between 0 and [2^52] bytes always
    serialises, a lookup that found such a task answers with it, and a
    listing whose tasks are all of this kind never fails with
    UNKNOWN_ERROR. *)
Theorem plausible_sizes_always_serialise
  (E : Type) (env : Env E) (cfg : Settings) :
  (forall t,
      Extra.plausible t = true ->
      exists d, DownloadTaskDict.to_dict t = Some d /\ dict_task d = t)
  /\ (forall gid w t,
         fst (Aria2Service.get_download env cfg gid w) = Some t ->
         Extra.plausible t = true ->
         exists d,
           DownloadService.get_download env cfg gid w
           = (Download d, snd (Aria2Service.get_download env cfg gid w))
           /\ dict_task d = t)
  /\ (forall status category limit w,
         forallb Extra.plausible
           (fst (Aria2Service.get_downloads env cfg status w)) = true ->
         exists dicts count,
           DownloadService.get_downloads env cfg status category limit w
           = (Downloads dicts count,
              snd (Aria2Service.get_downloads env cfg status w))).
Proof.
  split; [exact to_dict_some|]. split.
  - intros gid w t Hg Hp. unfold DownloadService.get_download.
    destruct (Aria2Service.get_download env cfg gid w) as [r w1].
    cbn [fst snd] in *. subst r.
    destruct (to_dict_some t Hp) as (d & -> & Hd). now exists d.
  - intros status category limit w Hall.
    unfold DownloadService.get_downloads.
    destruct (Aria2Service.get_downloads env cfg status w) as [ds w1].
    cbn [fst snd] in *.
    set (filtered := if negb (PyStr.is_empty category)
                     then filter (fun d => task_category d =? category) ds
                     else ds).
    set (capped := if (0 <? limit)%Z then firstn (Z.to_nat limit) filtered
                   else filtered).
    assert (Hf : forallb Extra.plausible filtered = true).
    { subst filtered. destruct (negb _); [now apply forallb_filter | exact Hall]. }
    assert (Hc : forallb Extra.plausible capped = true).
    { subst capped. destruct (0 <? limit)%Z; [now apply forallb_firstn | exact Hf]. }
    destruct (to_dicts_some capped Hc) as [dicts ->]. now eexists _, _.
Qed.

(** X17. Reconciliation succeeds on every well-formed record: when the
    [files] list is absent or not empty, the counters read as integers,
    and the lengths and the download speed lie between 0 and [2^52], a
    task comes out, with those lengths and that speed; no division on the
    way overflows. *)
Theorem well_formed_records_reconcile (d : Aria2Data)
  (total completed speed upload conns seeders leechers : Z) :
  files d <> Some [] ->
  DownloadTaskM.int_field (totalLength d) = Some total ->
  DownloadTaskM.int_field (completedLength d) = Some completed ->
  DownloadTaskM.int_field (downloadSpeed d) = Some speed ->
  DownloadTaskM.int_field (uploadSpeed d) = Some upload ->
  DownloadTaskM.int_field (connections d) = Some conns ->
  DownloadTaskM.int_field (numSeeders d) = Some seeders ->
  DownloadTaskM.int_field (numLeechers d) = Some leechers ->
  Extra.within total = true -> Extra.within completed = true ->
  Extra.within speed = true ->
  exists t,
    DownloadTaskM.from_aria2_response d = Some t
    /\ task_total_length t = total
    /\ task_completed_length t = completed
    /\ task_download_speed t = speed
    /\ task_upload_speed t = upload.
Proof.
  intros Hfiles Ht Hc Hs Hu Hn Hse Hl Wt Wc Ws.
  apply within_bounds in Wt, Wc, Ws.
  unfold DownloadTaskM.from_aria2_response.
  rewrite Ht, Hc, Hs, Hu, Hn, Hse, Hl. unfold Py.bind.
  assert (Hhd : exists f, hd_error (Py.get (files d)
                                      [ {| uris := None; path := None |} ])
                          = Some f).
  { destruct (files d) as [[|f fs]|]; [now contradiction Hfiles | |];
      now eexists. }
  destruct Hhd as [f ->].
  assert (Hp : exists p, DownloadTaskM.raw_progress total completed = Some p).
  { unfold DownloadTaskM.raw_progress.
    destruct (Z.ltb_spec 0 total); [|now eexists].
    destruct (int_true_div_some completed total Wc ltac:(lia)) as [q ->].
    now eexists. }
  destruct Hp as [p ->].
  assert (He : exists e, DownloadTaskM.calculate_eta total completed speed = Some e).
  { unfold DownloadTaskM.calculate_eta.
    destruct ((speed <=? 0) || (total <=? completed))%Z%bool eqn:Hcond;
      [now eexists|].
    apply orb_false_iff in Hcond as [H1 H2]. apply Z.leb_gt in H1, H2.
    cbv zeta.
    destruct (int_true_div_some (total - completed) speed ltac:(lia) H1)
      as [q ->].
    unfold Py.bind.
    destruct (PyFloat.Qlt_bool q 60); [now eexists|].
    destruct (PyFloat.Qlt_bool q 3600); now eexists. }
  destruct He as [e ->].
  eexists. split; [reflexivity|]. cbn. repeat split; reflexivity.
Qed.

Lemma well_formed_records_reconcile_witness :
  exists t,
    DownloadTaskM.from_aria2_response (Spec.record_with "200" "50" "10") = Some t
    /\ task_total_length t = 200%Z
    /\ task_completed_length t = 50%Z
    /\ task_download_speed t = 10%Z
    /\ task_upload_speed t = 0%Z.
Proof.
  refine (well_formed_records_reconcile (Spec.record_with "200" "50" "10")
            200 50 10 0 0 0 0 _ _ _ _ _ _ _ _ _ _ _);
    try (vm_compute; reflexivity).
  intros H. discriminate H.
Defined.

(** ** The connection test *)

Section QuietFacts.

Context {E : Type}.
Variable env : Env E.
Variable cfg : Settings.
Variable aria2_config : list (string * option string).

Lemma quietly_trans (w1 w2 w3 : World E) :
  Extra.quietly w1 w2 -> Extra.quietly w2 w3 -> Extra.quietly w1 w3.
Proof.
  intros [a [Ha Fa]] [b [Hb Fb]]. exists (List.app a b). split.
  - now rewrite Hb, Ha, app_assoc.
  - apply Forall_app. now split.
Qed.

Lemma rpc_only_quietly (w w' : World E) :
  Spec.rpc_only w w' -> Extra.quietly w w'.
Proof.
  intros [evs [Ht F]]. exists evs. split; [exact Ht|]. clear Ht.
  induction F as [|ev evs Hev _ IH]; [constructor|].
  constructor; [now destruct ev | exact IH].
Qed.

Lemma start_daemon_quietly (w : World E) :
  Extra.quietly w (snd (Aria2Service.start_daemon env cfg aria2_config w)).
Proof.
  pose proof (start_daemon_trace env cfg aria2_config w) as H. cbv zeta in H.
  destruct H as (_ & tail & Ht & Htail). eexists. split; [exact Ht|].
  destruct Htail as [-> | [-> | ->]]; repeat constructor.
Qed.

Lemma quiet_counts (evs : list Event) :
  Forall Extra.quiet evs -> Spec.launches evs = O /\ Spec.polls evs = O.
Proof.
  induction 1 as [|ev evs Hev _ IH]; [now split|].
  destruct ev; try contradiction; exact IH.
Qed.

End QuietFacts.

(** X18. The connection test reports its three flags in order and starts
    with the version probe: it runs [aria2c --version] once, before
    anything else.  When that command is not available it does nothing
    more and reports all three flags as false; the RPC status is true only
    when the daemon is reported running, and the daemon is reported running
    only when the command is available.  After the probe the test runs no
    other process, launches none (no [Popen] of the daemon), sends no
    signal and never sleeps, whatever the engine does. *)
Theorem test_connection_flags_are_ordered
  (E : Type) (env : Env E) (cfg : Settings)
  (aria2_config : list (string * option string)) (w : World E) :
  let r := Aria2Service.test_connection env cfg aria2_config w in
  let available := fst (fst (fst r)) in
  let running := snd (fst (fst r)) in
  let rpc_status := snd (fst r) in
  let probed := Aria2Service.log (EvRun ["aria2c"; "--version"]) w in
  available = fst (aria2c_version env (engine w))
  /\ (available = false -> r = ((false, false, false), probed))
  /\ (rpc_status = true -> running = true)
  /\ (running = true -> available = true)
  /\ (exists rest,
         trace (snd r)
         = List.app (trace w) (EvRun ["aria2c"; "--version"] :: rest)
         /\ Forall Extra.quiet rest)
  /\ Spec.launches (trace (snd r)) = Spec.launches (trace w)
  /\ Spec.polls (trace (snd r)) = Spec.polls (trace w).
Proof.
  cbv zeta.
  set (w0 := Aria2Service.log (EvRun ["aria2c"; "--version"]) w).
  assert (Hq : Extra.quietly w0
                 (snd (Aria2Service.test_connection env cfg aria2_config w))
               /\ fst (fst (fst (Aria2Service.test_connection env cfg
                                   aria2_config w)))
                  = fst (aria2c_version env (engine w))
               /\ (fst (aria2c_version env (engine w)) = false ->
                   Aria2Service.test_connection env cfg aria2_config w
                   = ((false, false, false), w0))
               /\ (snd (fst (Aria2Service.test_connection env cfg
                               aria2_config w)) = true ->
                   snd (fst (fst (Aria2Service.test_connection env cfg
                                    aria2_config w))) = true)
               /\ (snd (fst (fst (Aria2Service.test_connection env cfg
                                    aria2_config w))) = true ->
                   fst (aria2c_version env (engine w)) = true)).
  { unfold Aria2Service.test_connection, Aria2Service.is_aria2_available.
    fold w0.
    destruct (aria2c_version env (engine w)) as [available version].
    cbn [fst snd]. destruct available; cbn [negb].
    2:{ cbn [fst snd]. repeat split; try reflexivity; try discriminate.
        exists []. split; [now rewrite app_nil_r | constructor]. }
    pose proof (is_daemon_running_rpc_only env cfg w0) as H1.
    apply rpc_only_quietly in H1.
    destruct (Aria2Service.is_daemon_running env cfg w0) as [running w1].
    cbn [snd] in H1.
    destruct running; cbn [negb].
    - pose proof (get_version_rpc_only env cfg w1) as H2.
      apply rpc_only_quietly in H2.
      destruct (Aria2Service.get_version env cfg w1) as [v w2].
      cbn [fst snd] in *.
      repeat split; try reflexivity; try discriminate.
      exact (quietly_trans _ _ _ H1 H2).
    - pose proof (start_daemon_quietly env cfg aria2_config w1) as H2.
      destruct (Aria2Service.start_daemon env cfg aria2_config w1)
        as [started w2].
      cbn [snd] in H2. pose proof (quietly_trans _ _ _ H1 H2) as H12.
      destruct started.
      + pose proof (get_version_rpc_only env cfg w2) as H3.
        apply rpc_only_quietly in H3.
        destruct (Aria2Service.get_version env cfg w2) as [v w3].
        cbn [fst snd] in *.
        repeat split; try reflexivity; try discriminate.
        exact (quietly_trans _ _ _ H12 H3).
      + cbn [fst snd].
        repeat split; try reflexivity; try discriminate. exact H12. }
  destruct Hq as ([rest [Ht Hrest]] & Ha & Hn & Hr & Hav).
  assert (Htrace : trace (snd (Aria2Service.test_connection env cfg
                                 aria2_config w))
                   = List.app (trace w) (EvRun ["aria2c"; "--version"] :: rest)).
  { rewrite Ht. subst w0. unfold Aria2Service.log. cbn [trace].
    now rewrite <- app_assoc. }
  destruct (quiet_counts rest Hrest) as [Hl Hp].
  split; [exact Ha|]. split; [intros H; apply Hn; now rewrite <- Ha|].
  split; [exact Hr|]. split; [intros H; rewrite Ha; now apply Hav|].
  split; [exists rest; now split|].
  rewrite Htrace, launches_app, polls_app. cbn [Spec.launches Spec.polls].
  rewrite Hl, Hp. split; apply Nat.add_0_r.
Qed.

(** ** Sizes below one kilobyte *)

(** X19. [format_size] shows every size from 1 to 1023 bytes as that
    number with one decimal, [n.0 B], and the speed formatter adds [/s];
    the size 0 alone is shown without a decimal, as [0 B]. *)
Theorem small_sizes_are_shown_in_bytes (n : Z) :
  (0 < n < 1024)%Z ->
  DownloadTaskDict.format_size n = Some (Py.str_of_int n ++ ".0 B")
  /\ DownloadTaskDict.format_speed n = Some (Py.str_of_int n ++ ".0 B/s")
  /\ DownloadTaskDict.format_size 0 = Some "0 B".
Proof.
  intros Hn.
  assert (Hall : forallb (fun k => Extra.shown_in_bytes (Z.of_nat k))
                   (seq 1 1023) = true)
    by (vm_compute; reflexivity).
  rewrite forallb_forall in Hall.
  assert (Hin : In (Z.to_nat n) (seq 1 1023)) by (apply in_seq; lia).
  specialize (Hall _ Hin). rewrite Z2Nat.id in Hall by lia.
  unfold Extra.shown_in_bytes in Hall.
  unfold DownloadTaskDict.format_speed, Py.bind.
  destruct (DownloadTaskDict.format_size n) as [s|]; [|discriminate Hall].
  apply String.eqb_eq in Hall. subst s.
  split; [reflexivity|]. split; [|reflexivity].
  f_equal. rewrite append_assoc. reflexivity.
Qed.

Lemma small_sizes_are_shown_in_bytes_witness :
  DownloadTaskDict.format_size 512 = Some "512.0 B".
Proof.
  destruct (small_sizes_are_shown_in_bytes 512 ltac:(lia)) as (H & _).
  rewrite H. vm_compute. reflexivity.
Defined.

(** ** White space in valid locators *)

Section SolidFacts.

Import Re.

Lemma no_space_app (a b : string) :
  Extra.no_space (a ++ b) = (Extra.no_space a && Extra.no_space b)%bool.
Proof.
  induction a as [|x a IH]; [reflexivity|].
  cbn [append Extra.no_space]. now rewrite IH, andb_assoc.
Qed.

Lemma solid_matches (r : regex) (s : string) :
  Extra.solid r -> Extra.matches r s -> Extra.no_space s = true.
Proof.
  intros Hr H. induction H as [|p c Hc|a b s1 s2 H1 IH1 H2 IH2|a b s H IH
                              |a b s H IH|a|a s1 s2 H1 IH1 H2 IH2];
    cbn [Extra.solid] in Hr.
  - reflexivity.
  - cbn [Extra.no_space]. now rewrite (Hr c Hc).
  - destruct Hr as [Ha Hb]. now rewrite no_space_app, IH1, IH2.
  - destruct Hr as [Ha Hb]. now apply IH.
  - destruct Hr as [Ha Hb]. now apply IH.
  - reflexivity.
  - now rewrite no_space_app, IH1, IH2.
Qed.

Lemma class_solid (p : ascii -> bool) :
  Extra.class_is_solid p = true -> Extra.solid (Chr p).
Proof.
  unfold Extra.class_is_solid. rewrite forallb_forall. intros H c Hc.
  specialize (H (nat_of_ascii c)). rewrite ascii_nat_embedding, Hc in H.
  cbn [implb] in H. apply negb_true_iff, H, in_seq.
  pose proof (nat_ascii_bounded c). lia.
Qed.

Lemma solid_UpTo (n : nat) (r : regex) :
  Extra.solid r -> Extra.solid (UpTo n r).
Proof.
  intros Hr. induction n as [|n IH]; [exact I|].
  cbn [UpTo]. unfold Opt. cbn [Extra.solid]. now repeat split.
Qed.

Lemma solid_Rep (n m : nat) (r : regex) :
  Extra.solid r -> Extra.solid (Rep n m r).
Proof.
  intros Hr. induction n as [|n IH]; cbn [Rep].
  - now apply solid_UpTo.
  - cbn [Extra.solid]. now split.
Qed.

Lemma url_pattern_solid : Extra.solid UrlPatterns.url_pattern.
Proof.
  unfold UrlPatterns.url_pattern, UrlPatterns.host, UrlPatterns.domain,
    UrlPatterns.label, UrlPatterns.ip, UrlPatterns.octet, UrlPatterns.port,
    Opt, Plus, Lit.
  cbn [Extra.solid Word].
  repeat match goal with
         | |- _ /\ _ => split
         end;
    first [ exact I
          | apply solid_Rep; apply class_solid; vm_compute; reflexivity
          | apply (class_solid _); vm_compute; reflexivity ].
Qed.

(** A stripped string does not end in white space. *)
Lemma strip_last (x a : string) (c : ascii) :
  PyStr.strip x = a ++ String c "" -> PyStr.isspace c = false.
Proof.
  unfold PyStr.strip, PyStr.rstrip. intros H.
  apply (f_equal PyStr.rev) in H.
  rewrite rev_involutive, rev_append in H. cbn in H.
  exact (lstrip_head _ _ _ H).
Qed.

End SolidFacts.

(** X20. A valid HTTP or HTTPS locator holds no white space at all: once
    [UrlInfo.from_url] has declared a locator of one of these kinds valid,
    no character of its stripped text is white space, so neither a blank
    nor a line break can hide inside it.  FTP locators give no such
    guarantee: their path may hold blanks. *)
Theorem valid_http_locator_has_no_white_space
  (urlparse_path : string -> Py.result string) (url : string) (info : UrlInfo) :
  UrlInfoM.from_url urlparse_path url = Py.Ok info ->
  info_is_valid info = true ->
  info_download_type info = HTTP \/ info_download_type info = HTTPS ->
  Extra.no_space (info_url info) = true
  /\ fst (UrlInfoM.validate_url "ftp://example.com/a b" FTP) = true.
Proof.
  intros H Hv Hk. split; [|vm_compute; reflexivity].
  destruct (from_url_fields urlparse_path url info H) as (Hu & Hkind & Hvalid & _).
  cbv zeta in *. rewrite Hv in Hvalid. rewrite Hu. rewrite Hkind in Hk.
  set (u := PyStr.strip url) in *.
  assert (Hm : Re.match_anchored UrlPatterns.url_pattern u = true).
  { destruct Hk as [Hk|Hk]; rewrite Hk in Hvalid;
      unfold UrlInfoM.validate_url in Hvalid;
      (destruct (PyStr.is_empty u); [discriminate Hvalid|]);
      destruct (Re.match_anchored UrlPatterns.url_pattern u);
      first [reflexivity | discriminate Hvalid]. }
  unfold Re.match_anchored in Hm. apply orb_true_iff in Hm as [Hm|Hm];
    apply fullmatch_matches in Hm.
  - exact (solid_matches _ _ url_pattern_solid Hm).
  - exfalso. apply matches_Cat in Hm as (s1 & s2 & Hs & _ & H2).
    apply matches_Chr in H2 as (c & -> & Hc). apply Ascii.eqb_eq in Hc.
    subst c. subst u. apply strip_last in Hs. vm_compute in Hs. discriminate Hs.
Qed.

Lemma valid_http_locator_has_no_white_space_witness :
  Extra.no_space "https://example.com/a%20b.zip" = true.
Proof.
  match eval vm_compute in
        (UrlInfoM.from_url Urllib.urlparse_path " https://example.com/a%20b.zip ")
  with
  | Py.Ok ?i =>
      assert (H : UrlInfoM.from_url Urllib.urlparse_path
                    " https://example.com/a%20b.zip " = Py.Ok i)
        by (vm_compute; reflexivity);
      exact (proj1 (valid_http_locator_has_no_white_space Urllib.urlparse_path
                      _ i H eq_refl (or_intror eq_refl)))
  end.
Defined.

(** ** The name a download is saved under *)

Lemma from_url_file_name (urlparse_path : string -> Py.result string)
  (url : string) (info : UrlInfo) :
  UrlInfoM.from_url urlparse_path url = Py.Ok info ->
  Extra.free_of "/" (info_file_name info) = true.
Proof.
  unfold UrlInfoM.from_url, Py.rbind. intros H.
  destruct (UrlInfoM.validate_url _ _) as [ok msg].
  destruct (DownloadTaskM.detect_download_type _);
    try (destruct (urlparse_path _) as [path|]; [|discriminate H]);
    injection H as <-; cbn [info_file_name]; try reflexivity;
    (destruct (PyStr.is_empty path); [reflexivity|]);
    apply split_aux_last_free; reflexivity.
Qed.

(** X21. The file name [UrlInfo.from_url] extracts never holds a slash,
    and it is the only value [_prepare_download_options] gives the [out]
    option by itself: unless the caller overrides it, [out] is absent when
    no name was extracted and is that name otherwise, so it never holds a
    path separator. *)
Theorem out_option_holds_no_slash
  (urlparse_path : string -> Py.result string) (cfg : Settings)
  (url : string) (info : UrlInfo) :
  UrlInfoM.from_url urlparse_path url = Py.Ok info ->
  Extra.free_of "/" (info_file_name info) = true
  /\ (info_file_name info = "" ->
      Dict.lookup (DownloadService._prepare_download_options cfg info None) "out"
      = None)
  /\ (forall name,
         Dict.lookup (DownloadService._prepare_download_options cfg info None) "out"
         = Some name ->
         name = info_file_name info /\ Extra.free_of "/" name = true).
Proof.
  intros H. pose proof (from_url_file_name urlparse_path url info H) as Hf.
  split; [exact Hf|].
  assert (Hout : Dict.lookup
                   (DownloadService._prepare_download_options cfg info None) "out"
                 = if PyStr.is_empty (info_file_name info) then None
                   else Some (info_file_name info)).
  { unfold DownloadService._prepare_download_options.
    destruct (PyStr.is_empty (info_file_name info));
      destruct (info_download_type info); reflexivity. }
  rewrite Hout. split.
  - now intros ->.
  - intros name Hn. destruct (PyStr.is_empty (info_file_name info));
      [discriminate Hn|]. injection Hn as <-. now split.
Qed.

Lemma out_option_holds_no_slash_witness :
  exists info,
    UrlInfoM.from_url Urllib.urlparse_path "http://example.com/pub/a.zip"
    = Py.Ok info
    /\ Dict.lookup
         (DownloadService._prepare_download_options default_settings info None)
         "out"
       = Some "a.zip".
Proof.
  match eval vm_compute in
        (UrlInfoM.from_url Urllib.urlparse_path "http://example.com/pub/a.zip")
  with
  | Py.Ok ?i =>
      assert (H : UrlInfoM.from_url Urllib.urlparse_path
                    "http://example.com/pub/a.zip" = Py.Ok i)
        by (vm_compute; reflexivity);
      exists i; split; [exact H|];
      destruct (out_option_holds_no_slash Urllib.urlparse_path default_settings
                  _ i H) as (_ & _ & Hn)
  end.
  vm_compute. reflexivity.
Defined.
